(** * Seat inventory and order settlement engine

    A shallow embedding of the storage layer of the ticket bot
    ([src/lib/db.ts], the Prisma implementation, and its SQL twin) and of
    the operator actions of [src/app/admin/actions.ts], together with the
    properties of the seat and order state machines.

    Conventions of the embedding:
    - a JavaScript [number] that holds an identifier, a count, a price or a
      duration is a [Z]; an instant ([Date], [TIMESTAMP WITH TIME ZONE]) is a
      [Z] counting milliseconds;
    - a nullable column is an [option];
    - a table with a unique key is a [gmap] from the key to the remaining
      columns: seats are keyed by [(show_id, seat_code)] (constraint
      [unique_seat]), orders and shows by their serial [id], sessions by
      [user_id];
    - every reading of the clock is an explicit argument of the operation
      that performs it. *)

From Stdlib Require Import Ascii.
From stdpp Require Import gmap strings list fin_maps pretty list_numbers sorting.

Local Open Scope Z_scope.

(** ** Rows *)

Inductive SeatStatus := available | held | sold.

#[global] Instance SeatStatus_eq_dec : EqDecision SeatStatus.
Proof. solve_decision. Defined.

(** The columns of a [seats] row besides its key. *)
Record SeatRecord := mkSeat {
  status : SeatStatus;
  held_by : option string;
  hold_until : option Z;
  buyer_id : option string
}.

#[global] Instance SeatRecord_eq_dec : EqDecision SeatRecord.
Proof. solve_decision. Defined.

Record ShowRecord := mkShow {
  title : string;
  starts_at : Z;
  rows : Z;
  cols : Z;
  price : Z
}.

Inductive ReceiptType := photo | text.

(** A row of [orders]; [order_seats] is the comma-joined seat list as it is
    stored. *)
Record OrderRow := mkOrderRow {
  order_user_id : string;
  order_show_id : Z;
  order_seats : string;
  order_amount : Z;
  order_receipt_type : ReceiptType;
  order_receipt_ref : string;
  order_status : string;
  order_created_at : Z;
  order_paid_at : option Z;
  order_admin_id : option string
}.

(** What [getOrder], [approveOrder] and [rejectOrder] hand back. *)
Record OrderRecord := mkOrderRecord {
  id : Z;
  user_id : string;
  show_id : Z;
  seats_of : list string;
  amount : Z;
  order_state : string
}.

Record SessionRow := mkSession {
  session_state : option string;
  session_show_id : option Z;
  session_seats : option string;
  session_total : option Z;
  session_updated_at : Z
}.

(** ** The database *)

Record DB := mkDB {
  shows : gmap Z ShowRecord;
  shows_seq : Z;
  seats : gmap (Z * string) SeatRecord;
  orders : gmap Z OrderRow;
  orders_seq : Z;
  user_sessions : gmap string SessionRow
}.

Definition empty_db : DB :=
  {| shows := ∅; shows_seq := 1; seats := ∅;
     orders := ∅; orders_seq := 1; user_sessions := ∅ |}.

Definition with_seats (f : gmap (Z * string) SeatRecord → gmap (Z * string) SeatRecord)
    (db : DB) : DB :=
  {| shows := shows db; shows_seq := shows_seq db; seats := f (seats db);
     orders := orders db; orders_seq := orders_seq db;
     user_sessions := user_sessions db |}.

Definition with_orders (f : gmap Z OrderRow → gmap Z OrderRow) (db : DB) : DB :=
  {| shows := shows db; shows_seq := shows_seq db; seats := seats db;
     orders := f (orders db); orders_seq := orders_seq db;
     user_sessions := user_sessions db |}.

Definition with_sessions (f : gmap string SessionRow → gmap string SessionRow)
    (db : DB) : DB :=
  {| shows := shows db; shows_seq := shows_seq db; seats := seats db;
     orders := orders db; orders_seq := orders_seq db;
     user_sessions := f (user_sessions db) |}.

Definition with_shows (f : gmap Z ShowRecord → gmap Z ShowRecord) (db : DB) : DB :=
  {| shows := f (shows db); shows_seq := shows_seq db; seats := seats db;
     orders := orders db; orders_seq := orders_seq db;
     user_sessions := user_sessions db |}.

(** ** Statements over a table *)

(** [UPDATE t SET ... WHERE cond] and Prisma's [updateMany]: every row that
    satisfies the condition is rewritten, the others stay. *)
Definition update_where {K} `{Countable K} {V}
    (cond : K → V → bool) (set : V → V) (t : gmap K V) : gmap K V :=
  map_imap (λ k v, Some (if cond k v then set v else v)) t.

(** Prisma's [update] on a unique key (the row is known to exist where the
    code calls it). *)
Definition update_unique {K} `{Countable K} {V}
    (key : K) (set : V → V) (t : gmap K V) : gmap K V :=
  alter set key t.

(** [INSERT ... ON CONFLICT DO NOTHING] and [createMany] with
    [skipDuplicates]: rows go in one after the other, a row whose key is
    taken is dropped. *)
Definition insert_new {K} `{Countable K} {V} (t : gmap K V) (kv : K * V) : gmap K V :=
  match t !! kv.1 with
  | Some _ => t
  | None => <[kv.1 := kv.2]> t
  end.

Definition insert_skip_duplicates {K} `{Countable K} {V}
    (data : list (K * V)) (t : gmap K V) : gmap K V :=
  foldl insert_new t data.

(** ** Transactions

    A transaction body threads the database through its statements and may
    throw; [transaction] commits the body's database when it returns and
    restores the database it started from when it throws. *)

Inductive Outcome (A : Type) :=
  | Returned (a : A)
  | Thrown (msg : string).
Arguments Returned {A} a.
Arguments Thrown {A} msg.

Definition Tx (A : Type) : Type := DB → Outcome (A * DB).

Definition tx_ret {A} (a : A) : Tx A := λ db, Returned (a, db).

Definition tx_bind {A B} (m : Tx A) (k : A → Tx B) : Tx B :=
  λ db, match m db with
        | Returned (a, db') => k a db'
        | Thrown msg => Thrown msg
        end.

Definition throw {A} (msg : string) : Tx A := λ _, Thrown msg.

Definition exec (f : DB → DB) : Tx unit := λ db, Returned (tt, f db).

Definition query {A} (f : DB → A) : Tx A := λ db, Returned (f db, db).

Notation "x <- m ;; k" := (tx_bind m (λ x, k))
  (at level 100, m at next level, right associativity).
Notation "m ;; k" := (tx_bind m (λ _, k))
  (at level 100, right associativity).

Definition transaction {A} (body : Tx A) (db : DB) : Outcome A * DB :=
  match body db with
  | Returned (a, db') => (Returned a, db')
  | Thrown msg => (Thrown msg, db)
  end.

(** ** JavaScript and SQL primitives the code relies on *)

(** [value && ...] on a [string | null]: [null] and the empty string are
    falsy. *)
Definition truthy (v : option string) : bool :=
  match v with
  | Some s => bool_decide (s ≠ EmptyString)
  | None => false
  end.

(** [a === b] between a nullable column and a string. *)
Definition strict_eq (v : option string) (s : string) : bool :=
  bool_decide (v = Some s).

(** Prisma's [{ lt: bound }] on a nullable column: a [null] never matches. *)
Definition filter_lt (v : option Z) (bound : Z) : bool :=
  match v with
  | Some t => bool_decide (t < bound)
  | None => false
  end.

(** SQL's [col IS NOT NULL]. *)
Definition is_not_null {A} (v : option A) : bool :=
  match v with Some _ => true | None => false end.

(** SQL's [col < bound] as a [WHERE] conjunct: unknown (a [NULL] operand)
    does not select the row. *)
Definition sql_lt (v : option Z) (bound : Z) : bool :=
  match v with
  | Some t => bool_decide (t < bound)
  | None => false
  end.

(** SQL's [col = value] as a [WHERE] conjunct on a nullable column. *)
Definition sql_eq (v : option string) (s : string) : bool :=
  match v with
  | Some x => bool_decide (x = s)
  | None => false
  end.

(** [s.split(",")]. *)
Fixpoint split_comma (s : string) : list string :=
  match s with
  | EmptyString => [EmptyString]
  | String c rest =>
      if Ascii.eqb c ","%char then EmptyString :: split_comma rest
      else match split_comma rest with
           | piece :: pieces => String c piece :: pieces
           | [] => [String c EmptyString]
           end
  end.

(** [text.split(",").filter(Boolean)]. *)
Definition split_seats (text : string) : list string :=
  List.filter (λ piece, bool_decide (piece ≠ EmptyString)) (split_comma text).

(** [seats.join(",")]. *)
Definition join_seats (codes : list string) : string :=
  String.concat "," codes.

(** ["ABCDEFGHIJKLMNOPQRSTUVWXYZ".slice(0, n)], as a list of letters: a
    negative [n] counts from the end. *)
Definition alphabet : list ascii :=
  String.list_ascii_of_string "ABCDEFGHIJKLMNOPQRSTUVWXYZ".

Definition slice0 (l : list ascii) (n : Z) : list ascii :=
  if bool_decide (n < 0)
  then take (Z.to_nat (Z.max (Z.of_nat (length l) + n) 0)) l
  else take (Z.to_nat n) l.

(** The template [`${letter}${col}`]. *)
Definition seat_code_of (letter : ascii) (col : Z) : string :=
  String letter (pretty col).

(** The [(letter, col)] pairs visited by the two nested loops of [seedSeats],
    in order. *)
Definition grid_codes (rows cols : Z) : list string :=
  letter ← slice0 alphabet rows;
  col ← seqZ 1 cols;
  [seat_code_of letter col].

(** The data written by the three seat updates. *)
Definition set_released (s : SeatRecord) : SeatRecord :=
  {| status := available; held_by := None; hold_until := None;
     buyer_id := buyer_id s |}.

Definition set_held (userId : string) (holdUntil : Z) (s : SeatRecord) : SeatRecord :=
  {| status := held; held_by := Some userId; hold_until := Some holdUntil;
     buyer_id := buyer_id s |}.

Definition set_sold (buyer : string) (s : SeatRecord) : SeatRecord :=
  {| status := sold; held_by := None; hold_until := None;
     buyer_id := Some buyer |}.

Definition set_frozen (s : SeatRecord) : SeatRecord :=
  {| status := status s; held_by := held_by s; hold_until := None;
     buyer_id := buyer_id s |}.

Definition set_settled (new_status : string) (paidAt : option Z) (adminId : string)
    (o : OrderRow) : OrderRow :=
  {| order_user_id := order_user_id o; order_show_id := order_show_id o;
     order_seats := order_seats o; order_amount := order_amount o;
     order_receipt_type := order_receipt_type o;
     order_receipt_ref := order_receipt_ref o;
     order_status := new_status; order_created_at := order_created_at o;
     order_paid_at := match paidAt with Some t => Some t | None => order_paid_at o end;
     order_admin_id := Some adminId |}.

Definition order_record (orderId : Z) (o : OrderRow) (codes : list string)
    (st : string) : OrderRecord :=
  {| id := orderId; user_id := order_user_id o; show_id := order_show_id o;
     seats_of := codes; amount := order_amount o; order_state := st |}.

Inductive ToggleResult :=
  | toggle_sold
  | toggle_held
  | toggle_available
  | toggle_held_by_other.

(** The column defaults of a fresh [seats] row ([status TEXT NOT NULL DEFAULT
    'available'], the other columns nullable without default). *)
Definition seat_defaults : SeatRecord :=
  {| status := available; held_by := None; hold_until := None; buyer_id := None |}.

(** The session of a user as [setUserState] takes it and [getUserState]
    returns it. *)
Record UserStateRecord := mkUserState {
  state_user_id : string;
  state_tag : option string;
  state_show_id : option Z;
  state_seats : option (list string);
  state_total : option Z
}.

(** A seat as [seatStatusMap] reports it: the key, the columns, and the
    expiry rendered as text. *)
Record SeatStatusRecord := mkSeatStatus {
  report_show_id : Z;
  report_seat_code : string;
  report_status : SeatStatus;
  report_held_by : option string;
  report_hold_until : option string;
  report_buyer_id : option string
}.

(** ** The Prisma implementation ([src/lib/db.ts]) *)

Module Prisma.

(** Modelled from the spec: the Prisma schema that gives [createMany] the
    defaults of the columns it does not set is not among the sources; a seat
    is created available, with no holder, no expiry and no buyer (spec
    sections 3 and 6), as the SQL schema of the twin implementation also
    declares. *)
Definition seat_create_defaults : SeatRecord := seat_defaults.

Definition seedSeats (showId rows cols : Z) (db : DB) : DB :=
  let data := (λ code, (showId, code)) <$> grid_codes rows cols in
  if bool_decide (0 < length data)%nat
  then with_seats
         (insert_skip_duplicates ((λ item, (item, seat_create_defaults)) <$> data)) db
  else db.

(** [now] is the [new Date()] of the filter. *)
Definition releaseExpiredHolds (now : Z) (showId : Z) (db : DB) : DB :=
  with_seats
    (update_where
       (λ k s, bool_decide (k.1 = showId) && bool_decide (status s = held)
               && filter_lt (hold_until s) now)
       set_released) db.

(** [now] is the [new Date()] of the first statement, [now_hold] the later
    [Date.now()] from which the new expiry is computed. The expiry is kept
    as the instant the arithmetic gives; it is a [Date] only within
    8 640 000 000 000 000 ms of the epoch ([valid_date] below), the bound the
    properties of a taken hold carry. *)
Definition toggleSeat (now now_hold : Z) (showId : Z) (seatCode userId : string)
    (holdMinutes : Z) : DB → Outcome ToggleResult * DB :=
  transaction (
    exec (with_seats
            (update_where
               (λ k s, bool_decide (k.1 = showId) && bool_decide (k.2 = seatCode)
                       && bool_decide (status s = held)
                       && filter_lt (hold_until s) now)
               set_released)) ;;
    found <- query (λ db, seats db !! (showId, seatCode)) ;;
    match found with
    | None => throw "Seat not found"
    | Some seat =>
        if bool_decide (status seat = sold) then tx_ret toggle_sold
        else if bool_decide (status seat = held) && truthy (held_by seat)
                && negb (strict_eq (held_by seat) userId)
        then tx_ret toggle_held_by_other
        else if bool_decide (status seat = held) && strict_eq (held_by seat) userId
        then
          exec (with_seats (update_unique (showId, seatCode) set_released)) ;;
          tx_ret toggle_available
        else
          let holdUntil := now_hold + holdMinutes * 60 * 1000 in
          exec (with_seats
                  (update_unique (showId, seatCode) (set_held userId holdUntil))) ;;
          tx_ret toggle_held
    end).

Definition freezeHeldSeats (showId : Z) (userId : string) (db : DB) : DB :=
  with_seats
    (update_where
       (λ k s, bool_decide (k.1 = showId) && strict_eq (held_by s) userId
               && bool_decide (status s = held))
       set_frozen) db.

Definition clearUserState (userId : string) (db : DB) : DB :=
  with_sessions (delete userId) db.

(** The new row takes the next value of the [id] sequence; [now] is the
    default of [created_at]. The write is the one the database accepts: the
    show column references an existing show, the amount and the id are
    32-bit integers. The properties of a created order carry these
    conditions. *)
Definition createOrder (now : Z) (userId : string) (showId : Z) (codes : list string)
    (amount : Z) (receiptType : ReceiptType) (receiptRef : string) (db : DB) : Z * DB :=
  let new_id := orders_seq db in
  let row :=
    {| order_user_id := userId; order_show_id := showId;
       order_seats := join_seats codes; order_amount := amount;
       order_receipt_type := receiptType; order_receipt_ref := receiptRef;
       order_status := "pending"; order_created_at := now;
       order_paid_at := None; order_admin_id := None |} in
  (new_id,
   {| shows := shows db; shows_seq := shows_seq db; seats := seats db;
      orders := <[new_id := row]> (orders db); orders_seq := new_id + 1;
      user_sessions := user_sessions db |}).

Definition getOrder (orderId : Z) (db : DB) : option OrderRecord :=
  match orders db !! orderId with
  | None => None
  | Some order =>
      Some (order_record orderId order (split_seats (order_seats order))
              (order_status order))
  end.

(** The order id is taken within the 32-bit range of the key ([int_range]
    below), the condition the properties of an absent order carry; the
    numbers of the dashboard reach it through [Admin.int_column]. *)
Definition approveOrder (now : Z) (orderId : Z) (adminId : string)
    : DB → Outcome (option OrderRecord) * DB :=
  transaction (
    found <- query (λ db, orders db !! orderId) ;;
    match found with
    | None => tx_ret None
    | Some order =>
        if bool_decide (order_status order ≠ "pending")
        then tx_ret (Some (order_record orderId order
                             (split_seats (order_seats order)) (order_status order)))
        else
          let codes := split_seats (order_seats order) in
          (if bool_decide (0 < length codes)%nat
           then exec (with_seats
                        (update_where
                           (λ k _, bool_decide (k.1 = order_show_id order)
                                   && bool_decide (k.2 ∈ codes))
                           (set_sold (order_user_id order))))
           else tx_ret tt) ;;
          exec (with_orders
                  (update_unique orderId (set_settled "approved" (Some now) adminId))) ;;
          exec (with_sessions (delete (order_user_id order))) ;;
          tx_ret (Some (order_record orderId order codes "approved"))
    end).

Definition rejectOrder (orderId : Z) (adminId : string)
    : DB → Outcome (option OrderRecord) * DB :=
  transaction (
    found <- query (λ db, orders db !! orderId) ;;
    match found with
    | None => tx_ret None
    | Some order =>
        if bool_decide (order_status order ≠ "pending")
        then tx_ret (Some (order_record orderId order
                             (split_seats (order_seats order)) (order_status order)))
        else
          let codes := split_seats (order_seats order) in
          (if bool_decide (0 < length codes)%nat
           then exec (with_seats
                        (update_where
                           (λ k _, bool_decide (k.1 = order_show_id order)
                                   && bool_decide (k.2 ∈ codes))
                           set_released))
           else tx_ret tt) ;;
          exec (with_orders (update_unique orderId (set_settled "rejected" None adminId))) ;;
          exec (with_sessions (delete (order_user_id order))) ;;
          tx_ret (Some (order_record orderId order codes "rejected"))
    end).

(** [toISOString] is the rendering of an instant by [Date.prototype.toISOString];
    the rows found are folded into an object keyed by seat code. *)
Definition seatStatusMap (toISOString : Z → string) (now : Z) (showId : Z) (db : DB)
    : gmap string SeatStatusRecord * DB :=
  let db1 := releaseExpiredHolds now showId db in
  let found :=
    List.filter (λ kv : Z * string * SeatRecord, bool_decide (kv.1.1 = showId))
      (map_to_list (seats db1)) in
  (foldl
     (λ acc (kv : Z * string * SeatRecord),
        <[kv.1.2 := {| report_show_id := kv.1.1; report_seat_code := kv.1.2;
                       report_status := status kv.2;
                       report_held_by := held_by kv.2;
                       report_hold_until := toISOString <$> hold_until kv.2;
                       report_buyer_id := buyer_id kv.2 |}]> acc)
     ∅ found,
   db1).

(** [collation] is the order of [orderBy: { seatCode: "asc" }], which the
    database decides. *)
Definition heldSeats (collation : string → string → Prop)
    `{!RelDecision collation} (showId : Z) (userId : string) (db : DB) : list string :=
  merge_sort collation
    ((λ kv : Z * string * SeatRecord, kv.1.2) <$>
     List.filter
       (λ kv : Z * string * SeatRecord,
          bool_decide (kv.1.1 = showId) && strict_eq (held_by kv.2) userId
          && bool_decide (status kv.2 = held))
       (map_to_list (seats db))).

(** The upsert on [userId]. In the [update] branch [showId] is
    [state.show_id ?? undefined]: an absent show leaves the column as it is.
    In the [create] branch the omitted column is null, and [updatedAt] takes
    its default, the instant of the write. *)
Definition setUserState (now : Z) (st : UserStateRecord) (db : DB) : DB :=
  with_sessions
    (λ t,
       match t !! state_user_id st with
       | None =>
           <[state_user_id st :=
               {| session_state := state_tag st;
                  session_show_id := state_show_id st;
                  session_seats := join_seats <$> state_seats st;
                  session_total := state_total st;
                  session_updated_at := now |}]> t
       | Some old =>
           <[state_user_id st :=
               {| session_state := state_tag st;
                  session_show_id :=
                    match state_show_id st with
                    | Some sid => Some sid
                    | None => session_show_id old
                    end;
                  session_seats := join_seats <$> state_seats st;
                  session_total := state_total st;
                  session_updated_at := now |}]> t
       end) db.

Definition getUserState (userId : string) (db : DB) : option UserStateRecord :=
  match user_sessions db !! userId with
  | None => None
  | Some session =>
      Some {| state_user_id := userId;
              state_tag := session_state session;
              state_show_id := session_show_id session;
              state_seats :=
                if truthy (session_seats session)
                then split_seats <$> session_seats session
                else None;
              state_total := session_total session |}
  end.

End Prisma.

(** ** The SQL implementation (the [@vercel/postgres] twin of [db.ts])

    [CURRENT_TIMESTAMP] is the start of the transaction, one instant [now]
    for all the statements of an operation. *)

Module Sql.

Definition seedSeats (showId rows cols : Z) (db : DB) : DB :=
  let values :=
    (λ code, ((showId, code),
              {| status := available; held_by := held_by seat_defaults;
                 hold_until := hold_until seat_defaults;
                 buyer_id := buyer_id seat_defaults |}))
    <$> grid_codes rows cols in
  if bool_decide (0 < length values)%nat
  then with_seats (insert_skip_duplicates values) db
  else db.

Definition releaseExpiredHolds (now : Z) (showId : Z) (db : DB) : DB :=
  with_seats
    (update_where
       (λ k s, bool_decide (k.1 = showId) && bool_decide (status s = held)
               && is_not_null (hold_until s) && sql_lt (hold_until s) now)
       set_released) db.

(** [make_interval(mins => n)] takes a 32-bit integer: the statement that
    takes the hold fails for a number of minutes beyond that range, and the
    transaction is rolled back. *)
Definition toggleSeat (now : Z) (showId : Z) (seatCode userId : string)
    (holdMinutes : Z) : DB → Outcome ToggleResult * DB :=
  transaction (
    exec (with_seats
            (update_where
               (λ k s, bool_decide (k.1 = showId) && bool_decide (k.2 = seatCode)
                       && bool_decide (status s = held)
                       && is_not_null (hold_until s) && sql_lt (hold_until s) now)
               set_released)) ;;
    found <- query (λ db, seats db !! (showId, seatCode)) ;;
    match found with
    | None => throw "Seat not found"
    | Some seat =>
        if bool_decide (status seat = sold) then tx_ret toggle_sold
        else if bool_decide (status seat = held) && truthy (held_by seat)
                && negb (strict_eq (held_by seat) userId)
        then tx_ret toggle_held_by_other
        else if bool_decide (status seat = held) && strict_eq (held_by seat) userId
        then
          exec (with_seats
                  (update_where
                     (λ k _, bool_decide (k.1 = showId) && bool_decide (k.2 = seatCode))
                     set_released)) ;;
          tx_ret toggle_available
        else if bool_decide (-2147483648 ≤ holdMinutes ≤ 2147483647)
        then
          exec (with_seats
                  (update_where
                     (λ k _, bool_decide (k.1 = showId) && bool_decide (k.2 = seatCode))
                     (set_held userId (now + holdMinutes * (60 * 1000))))) ;;
          tx_ret toggle_held
        else throw "value out of range for type integer"
    end).

Definition freezeHeldSeats (showId : Z) (userId : string) (db : DB) : DB :=
  with_seats
    (update_where
       (λ k s, bool_decide (k.1 = showId) && sql_eq (held_by s) userId
               && bool_decide (status s = held))
       set_frozen) db.

Definition approveOrder (now : Z) (orderId : Z) (adminId : string)
    : DB → Outcome (option OrderRecord) * DB :=
  transaction (
    found <- query (λ db, orders db !! orderId) ;;
    match found with
    | None => tx_ret None
    | Some orderRow =>
        if bool_decide (order_status orderRow ≠ "pending")
        then tx_ret (Some (order_record orderId orderRow
                             (split_seats (order_seats orderRow))
                             (order_status orderRow)))
        else
          let codes := split_seats (order_seats orderRow) in
          (if bool_decide (0 < length codes)%nat
           then exec (with_seats
                        (update_where
                           (λ k _, bool_decide (k.1 = order_show_id orderRow)
                                   && bool_decide (k.2 ∈ codes))
                           (set_sold (order_user_id orderRow))))
           else tx_ret tt) ;;
          exec (with_orders
                  (update_where (λ k _, bool_decide (k = orderId))
                     (set_settled "approved" (Some now) adminId))) ;;
          exec (with_sessions
                  (filter (λ kv, kv.1 ≠ order_user_id orderRow))) ;;
          tx_ret (Some (order_record orderId orderRow codes "approved"))
    end).

Definition rejectOrder (orderId : Z) (adminId : string)
    : DB → Outcome (option OrderRecord) * DB :=
  transaction (
    found <- query (λ db, orders db !! orderId) ;;
    match found with
    | None => tx_ret None
    | Some orderRow =>
        if bool_decide (order_status orderRow ≠ "pending")
        then tx_ret (Some (order_record orderId orderRow
                             (split_seats (order_seats orderRow))
                             (order_status orderRow)))
        else
          let codes := split_seats (order_seats orderRow) in
          (if bool_decide (0 < length codes)%nat
           then exec (with_seats
                        (update_where
                           (λ k _, bool_decide (k.1 = order_show_id orderRow)
                                   && bool_decide (k.2 ∈ codes))
                           set_released))
           else tx_ret tt) ;;
          exec (with_orders
                  (update_where (λ k _, bool_decide (k = orderId))
                     (set_settled "rejected" None adminId))) ;;
          exec (with_sessions
                  (filter (λ kv, kv.1 ≠ order_user_id orderRow))) ;;
          tx_ret (Some (order_record orderId orderRow codes "rejected"))
    end).

(** [INSERT ... ON CONFLICT (user_id) DO UPDATE SET] every column to the
    proposed value. The write is the one the database accepts: a show id,
    if there is one, references an existing show, and a total is a 32-bit
    integer. The properties of a written session carry these conditions. *)
Definition setUserState (now : Z) (st : UserStateRecord) (db : DB) : DB :=
  with_sessions
    (insert (state_user_id st)
       {| session_state := state_tag st;
          session_show_id := state_show_id st;
          session_seats := join_seats <$> state_seats st;
          session_total := state_total st;
          session_updated_at := now |}) db.

Definition getUserState (userId : string) (db : DB) : option UserStateRecord :=
  match user_sessions db !! userId with
  | None => None
  | Some row =>
      Some {| state_user_id := userId;
              state_tag := session_state row;
              state_show_id := session_show_id row;
              state_seats :=
                if truthy (session_seats row)
                then split_seats <$> session_seats row
                else None;
              state_total := session_total row |}
  end.

Definition clearUserState (userId : string) (db : DB) : DB :=
  with_sessions (filter (λ kv, kv.1 ≠ userId)) db.

End Sql.

(** ** The operator actions ([src/app/admin/actions.ts]) *)

Module Admin.

(** A [FormDataEntryValue]. *)
Inductive FormEntry :=
  | entry_string (s : string)
  | entry_file.

(** A JavaScript number as far as the actions look at it. A finite number
    that is not an integer is kept with its floor, which decides every
    comparison with an integer bound. *)
Inductive JsNumber :=
  | NaN
  | Infinity
  | NegInfinity
  | Integer (z : Z)
  | Fraction (floor : Z).

Definition isFinite (n : JsNumber) : bool :=
  match n with
  | Integer _ | Fraction _ => true
  | _ => false
  end.

(** [n < bound] for an integer [bound]. *)
Definition js_lt (n : JsNumber) (bound : Z) : bool :=
  match n with
  | NaN | Infinity => false
  | NegInfinity => true
  | Integer z => bool_decide (z < bound)
  | Fraction floor => bool_decide (floor < bound)
  end.

#[global] Instance Outcome_ret : MRet Outcome := λ _ a, Returned a.
#[global] Instance Outcome_bind : MBind Outcome := λ _ _ k m,
  match m with
  | Returned a => k a
  | Thrown msg => Thrown msg
  end.

(** The integer part of a finite number, as [Math.trunc] gives it: a number
    that is not an integer lies strictly between its floor and the next
    integer, so it truncates to its floor when that is not negative and to
    the next integer otherwise. *)
Definition truncated (n : JsNumber) : Z :=
  match n with
  | Integer z => z
  | Fraction floor => if bool_decide (0 ≤ floor) then floor else floor + 1
  | _ => 0
  end.

(** An [Int] column ([INTEGER NOT NULL]) holds 32-bit integers. No check for
    an integer precedes the write: a finite number that is not an integer
    goes through with its integer part, and a number beyond the 32-bit range
    is refused. *)
Definition int_column (n : JsNumber) : Outcome Z :=
  match n with
  | Integer _ | Fraction _ =>
      if bool_decide (-2147483648 ≤ truncated n ≤ 2147483647)
      then Returned (truncated n)
      else Thrown "Value out of range for the type integer"
  | _ => Thrown "Invalid value provided: expected Int"
  end.

Section Actions.

(** The built-ins of the platform: [Number(value)], [String.prototype.trim]
    and the instant of [new Date(text)] ([None] when [getTime()] is NaN). *)
Variable to_number : FormEntry → JsNumber.
Variable trim : string → string.
Variable parse_date : string → option Z.

Definition parseNumberField (value : option FormEntry) (min : option Z)
    : Outcome JsNumber :=
  match value with
  | None => Thrown "Missing numeric field"
  | Some v =>
      let parsed := to_number v in
      if negb (isFinite parsed) then Thrown "Invalid numeric field"
      else if match min with
              | Some m => js_lt parsed m
              | None => false
              end
      then Thrown "Numeric field below minimum"
      else Returned parsed
  end.

(** [redirect] does not return. *)
Definition require_admin (authenticated : bool) : Outcome unit :=
  if authenticated then Returned tt else Thrown "NEXT_REDIRECT".

(** [prisma.show.create]: the row takes the next value of the [id]
    sequence. *)
Definition show_create (show_title : string) (startsAt : Z) (nrows ncols nprice : JsNumber)
    (db : DB) : Outcome (Z * DB) :=
  r ← int_column nrows;
  c ← int_column ncols;
  p ← int_column nprice;
  let new_id := shows_seq db in
  match shows db !! new_id with
  | Some _ => Thrown "Unique constraint failed on the fields: (id)"
  | None =>
      Returned
        (new_id,
         {| shows := <[new_id := {| title := show_title; starts_at := startsAt;
                                    rows := r; cols := c; price := p |}]> (shows db);
            shows_seq := new_id + 1; seats := seats db; orders := orders db;
            orders_seq := orders_seq db; user_sessions := user_sessions db |})
  end.

(** [prisma.show.update({ where: { id }, data: { price } })]. *)
Definition show_update_price (nid nprice : JsNumber) (db : DB) : Outcome DB :=
  sid ← int_column nid;
  p ← int_column nprice;
  match shows db !! sid with
  | None => Thrown "Record to update not found"
  | Some _ =>
      Returned
        (with_shows
           (update_unique sid
              (λ sh, {| title := title sh; starts_at := starts_at sh;
                        rows := rows sh; cols := cols sh; price := p |})) db)
  end.

(** The checks of [createShowAction] that come before the first write. *)
Definition createShow_checks (authenticated : bool) (formData : string → option FormEntry)
    : Outcome (string * Z * JsNumber * JsNumber * JsNumber) :=
  _ ← require_admin authenticated;
  let title_entry := formData "title" in
  let startsAtRaw := formData "startsAt" in
  nrows ← parseNumberField (formData "rows") (Some 1);
  ncols ← parseNumberField (formData "cols") (Some 1);
  nprice ← parseNumberField (formData "price") (Some 0);
  match title_entry with
  | Some (entry_string t) =>
      if bool_decide (String.length (trim t) = 0%nat)
      then Thrown "عنوان نمایش الزامی است"
      else
        match startsAtRaw with
        | Some (entry_string raw) =>
            if bool_decide (String.length raw = 0%nat)
            then Thrown "تاریخ اجرا الزامی است"
            else
              match parse_date raw with
              | None => Thrown "تاریخ اجرا نامعتبر است"
              | Some startsAt => Returned (trim t, startsAt, nrows, ncols, nprice)
              end
        | _ => Thrown "تاریخ اجرا الزامی است"
        end
  | _ => Thrown "عنوان نمایش الزامی است"
  end.

(** The show row and the seats are written one after the other, outside any
    transaction. [seedSeats] receives the [rows] and [cols] of the form as
    they were parsed: [slice(0, rows)] keeps the integer part of [rows], and
    the loop [col <= cols] runs through the integer part of [cols]. *)
Definition createShowAction (authenticated : bool) (formData : string → option FormEntry)
    (db : DB) : Outcome unit * DB :=
  match createShow_checks authenticated formData with
  | Thrown msg => (Thrown msg, db)
  | Returned (show_title, startsAt, nrows, ncols, nprice) =>
      match show_create show_title startsAt nrows ncols nprice db with
      | Thrown msg => (Thrown msg, db)
      | Returned (new_id, db1) =>
          (Returned tt,
           Prisma.seedSeats new_id (truncated nrows) (truncated ncols) db1)
      end
  end.

Definition updateShowSettingsAction (authenticated : bool)
    (formData : string → option FormEntry) (db : DB) : Outcome unit * DB :=
  match
    (_ ← require_admin authenticated;
     nid ← parseNumberField (formData "showId") (Some 1);
     nprice ← parseNumberField (formData "price") (Some 0);
     show_update_price nid nprice db)
  with
  | Thrown msg => (Thrown msg, db)
  | Returned db' => (Returned tt, db')
  end.

(** The order id goes to Prisma as the [Int] key of the order, a number
    that is not an integer with its integer part; what [approveOrder]
    returns is dropped. *)
Definition approveOrderAction (now : Z) (authenticated : bool)
    (formData : string → option FormEntry) (db : DB) : Outcome unit * DB :=
  match
    (_ ← require_admin authenticated;
     nid ← parseNumberField (formData "orderId") (Some 1);
     int_column nid)
  with
  | Thrown msg => (Thrown msg, db)
  | Returned orderId =>
      let run := Prisma.approveOrder now orderId "admin-dashboard" db in
      (match run.1 with
       | Returned _ => Returned tt
       | Thrown msg => Thrown msg
       end, run.2)
  end.

Definition rejectOrderAction (authenticated : bool)
    (formData : string → option FormEntry) (db : DB) : Outcome unit * DB :=
  match
    (_ ← require_admin authenticated;
     nid ← parseNumberField (formData "orderId") (Some 1);
     int_column nid)
  with
  | Thrown msg => (Thrown msg, db)
  | Returned orderId =>
      let run := Prisma.rejectOrder orderId "admin-dashboard" db in
      (match run.1 with
       | Returned _ => Returned tt
       | Thrown msg => Thrown msg
       end, run.2)
  end.

(** The integer a form field coerces to, if it does. *)
Definition form_integer (formData : string → option FormEntry) (name : string)
    : option Z :=
  match formData name with
  | Some v => match to_number v with Integer z => Some z | _ => None end
  | None => None
  end.

(** The floor of the finite number a form field coerces to, if it does: the
    number itself when it is an integer. From a bound of 0 or more on, the
    floor is the integer part, which is what reaches an [Int] column. *)
Definition form_floor (formData : string → option FormEntry) (name : string)
    : option Z :=
  match formData name with
  | Some v =>
      match to_number v with
      | Integer z => Some z
      | Fraction floor => Some floor
      | _ => None
      end
  | None => None
  end.

End Actions.

End Admin.

(** ** Start-up ([ensureSchema] of [src/lib/db.ts])

    [schemaInitialized] is the module-level memo: set once the first call has
    gone through, cleared again when that call throws. With no show in the
    table the first call creates the test show, two hours ahead of [now],
    and seeds its 6 x 10 seats. *)
Definition ensureSchema (now : Z) (schemaInitialized : bool) (db : DB)
    : Outcome unit * (bool * DB) :=
  if schemaInitialized then (Returned tt, (true, db))
  else if bool_decide (size (shows db) = 0%nat)
  then
    match
      Admin.show_create "نمایش تست" (now + 2 * 60 * 60 * 1000)
        (Admin.Integer 6) (Admin.Integer 10) (Admin.Integer 250000) db
    with
    | Thrown msg => (Thrown msg, (false, db))
    | Returned (new_id, db1) =>
        (Returned tt, (true, Prisma.seedSeats new_id 6 10 db1))
    end
  else (Returned tt, (true, db)).

(** ** The seat state machine *)

(** One call of a core operation, with any arguments and at any instant. A
    call that throws leaves the database as it was. *)
Inductive step : DB → DB → Prop :=
  | step_seedSeats showId nrows ncols db :
      step db (Prisma.seedSeats showId nrows ncols db)
  | step_toggleSeat now now_hold showId seatCode userId holdMinutes db :
      step db (Prisma.toggleSeat now now_hold showId seatCode userId holdMinutes db).2
  | step_releaseExpiredHolds now showId db :
      step db (Prisma.releaseExpiredHolds now showId db)
  | step_freezeHeldSeats showId userId db :
      step db (Prisma.freezeHeldSeats showId userId db)
  | step_createOrder now userId showId codes amt receiptType receiptRef db :
      step db (Prisma.createOrder now userId showId codes amt receiptType receiptRef db).2
  | step_approveOrder now orderId adminId db :
      step db (Prisma.approveOrder now orderId adminId db).2
  | step_rejectOrder orderId adminId db :
      step db (Prisma.rejectOrder orderId adminId db).2.

Definition reachable (db : DB) : Prop := rtc step empty_db db.

(** The three field combinations of the data model: available with neither
    holder nor buyer, held with a holder and no buyer, sold with a buyer and
    no holder. *)
Definition seat_combination (s : SeatRecord) : Prop :=
  match status s with
  | available => held_by s = None ∧ buyer_id s = None
  | held => is_Some (held_by s) ∧ buyer_id s = None
  | sold => held_by s = None ∧ is_Some (buyer_id s)
  end.

(** What the operations do keep: the holder and the expiry follow the
    status, and a sold seat has a buyer. *)
Definition seat_consistent (s : SeatRecord) : Prop :=
  match status s with
  | available => held_by s = None ∧ hold_until s = None
  | held => is_Some (held_by s)
  | sold => held_by s = None ∧ hold_until s = None ∧ is_Some (buyer_id s)
  end.

(** A hold that has lapsed at [now]: status held and an expiry strictly
    before [now]. *)
Definition hold_lapsed (now : Z) (s : SeatRecord) : Prop :=
  status s = held ∧ ∃ t, hold_until s = Some t ∧ t < now.

#[global] Instance hold_lapsed_dec now s : Decision (hold_lapsed now s).
Proof.
  unfold hold_lapsed. destruct (hold_until s) as [t|].
  - destruct (decide (status s = held)) as [Hs|Hs];
      [destruct (decide (t < now)) as [Ht|Ht]|].
    + left. eauto.
    + right. intros [_ (t' & Heq & Hlt)]. congruence.
    + right. intros [? _]. done.
  - right. intros [_ (t' & Heq & _)]. done.
Defined.

(** The seat as the toggle finds it after reverting a lapsed hold. *)
Definition reconciled (now : Z) (s : SeatRecord) : SeatRecord :=
  if decide (hold_lapsed now s) then set_released s else s.

(** The milliseconds of [holdMinutes] minutes. *)
Definition hold_ms (holdMinutes : Z) : Z := holdMinutes * 60 * 1000.

(** The branches of [toggleSeat] read on the row it finds: the result and
    the row it leaves. *)
Definition toggle_row (now_hold : Z) (userId : string) (holdMinutes : Z)
    (seat : SeatRecord) : ToggleResult * SeatRecord :=
  if bool_decide (status seat = sold) then (toggle_sold, seat)
  else if bool_decide (status seat = held) && truthy (held_by seat)
          && negb (strict_eq (held_by seat) userId)
  then (toggle_held_by_other, seat)
  else if bool_decide (status seat = held) && strict_eq (held_by seat) userId
  then (toggle_available, set_released seat)
  else (toggle_held, set_held userId (now_hold + hold_ms holdMinutes) seat).

(** Seats are held by users: no row carries the empty string as its holder.
    The bot calls with [String(userId)] of the Telegram user and returns
    before any call when there is no user id. *)
Definition holders_are_users (db : DB) : Prop :=
  map_Forall (λ _ s, held_by s ≠ Some EmptyString) (seats db).

#[global] Instance holders_are_users_dec db : Decision (holders_are_users db).
Proof. unfold holders_are_users. apply _. Defined.

(** ** Sample databases *)

(** A show with the single seat A1, freshly seeded. *)
Definition db_one_seat : DB := Prisma.seedSeats 1 1 1 empty_db.

(** The 2 x 2 show of the scenarios: seats A1, A2, B1, B2. *)
Definition db_two_by_two : DB := Prisma.seedSeats 1 2 2 empty_db.

(** In the 2 x 2 show: u1 holds A1 and confirms (the hold is frozen), then
    u2 takes A2 at instant 0 for ten minutes. *)
Definition db_frozen_and_timed : DB :=
  (Prisma.toggleSeat 0 0 1 "A2" "u2" 10
     (Prisma.freezeHeldSeats 1 "u1"
        (Prisma.toggleSeat 0 0 1 "A1" "u1" 10 db_two_by_two).2)).2.

(** The database a settlement leaves behind: the listed seats of the order's
    show rewritten, the order row settled, the buyer's session deleted. *)
Definition settled_db (set_seat : SeatRecord → SeatRecord) (new_status : string)
    (paidAt : option Z) (orderId : Z) (adminId : string) (o : OrderRow) (db : DB) : DB :=
  {| shows := shows db; shows_seq := shows_seq db;
     seats :=
       update_where
         (λ k _, bool_decide (k.1 = order_show_id o)
                 && bool_decide (k.2 ∈ split_seats (order_seats o)))
         set_seat (seats db);
     orders := update_unique orderId (set_settled new_status paidAt adminId) (orders db);
     orders_seq := orders_seq db;
     user_sessions := delete (order_user_id o) (user_sessions db) |}.

(** One seat, one buyer, two receipts: u1 holds A1, confirms, and sends two
    receipts, which makes two pending orders (1 and 2) on A1; the operator
    approves order 1. *)
Definition db_two_receipts : DB :=
  (Prisma.approveOrder 9 1 "operator"
     (Prisma.createOrder 6 "u1" 1 ["A1"] 250000 text "second receipt"
        (Prisma.createOrder 5 "u1" 1 ["A1"] 250000 text "first receipt"
           (Prisma.freezeHeldSeats 1 "u1"
              (Prisma.toggleSeat 0 0 1 "A1" "u1" 10 db_one_seat).2)).2).2).2.

(** A sample platform and two sample forms for the operator actions. *)
Definition sample_to_number (v : Admin.FormEntry) : Admin.JsNumber :=
  match v with
  | Admin.entry_string "0" => Admin.Integer 0
  | Admin.entry_string "1" => Admin.Integer 1
  | Admin.entry_string "2" => Admin.Integer 2
  | Admin.entry_string "27" => Admin.Integer 27
  | Admin.entry_string "300000" => Admin.Integer 300000
  | Admin.entry_string "1.5" => Admin.Fraction 1
  | Admin.entry_string "2.5" => Admin.Fraction 2
  | _ => Admin.NaN
  end.

Definition sample_trim (s : string) : string := s.

Definition sample_parse_date (s : string) : option Z :=
  if bool_decide (s = "2030-01-01T20:00") then Some 1893528000000 else None.

Definition form_of (fields : list (string * string)) (name : string)
    : option Admin.FormEntry :=
  Admin.entry_string <$> (list_to_map fields : gmap string string) !! name.

(** A show of 27 rows of one seat. *)
Definition form_27_rows : string → option Admin.FormEntry :=
  form_of [("title", "Gala"); ("startsAt", "2030-01-01T20:00");
           ("rows", "27"); ("cols", "1"); ("price", "0")].

(** A show of 2 rows of 2 seats. *)
Definition form_2_by_2 : string → option Admin.FormEntry :=
  form_of [("title", "Gala"); ("startsAt", "2030-01-01T20:00");
           ("rows", "2"); ("cols", "2"); ("price", "1")].

(** A new price for show 1. *)
Definition form_new_price : string → option Admin.FormEntry :=
  form_of [("showId", "1"); ("price", "300000")].

(** Show 1 created through the form of 2 rows of 2 seats, with one pending
    order on A1. *)
Definition db_show_with_order : DB :=
  (Prisma.createOrder 5 "u1" 1 ["A1"] 1 text "receipt"
     (Admin.createShowAction sample_to_number sample_trim sample_parse_date
        true form_2_by_2 empty_db).2).2.

(** ** Vocabulary of the further properties *)

(** A string without a comma. *)
Fixpoint comma_free (s : string) : bool :=
  match s with
  | EmptyString => true
  | String c rest => negb (Ascii.eqb c ","%char) && comma_free rest
  end.

(** A seat code that survives the comma-joined storage: not empty and
    without a comma. *)
Definition storable_code (code : string) : Prop :=
  code ≠ EmptyString ∧ comma_free code = true.

(** Every order id is below the next value of the id sequence. *)
Definition orders_below_seq (db : DB) : Prop :=
  ∀ orderId o, orders db !! orderId = Some o → orderId < orders_seq db.

(** The columns of an order that are written once, at creation. *)
Definition order_fixed_part (o : OrderRow)
    : string * Z * string * Z * ReceiptType * string * Z :=
  (order_user_id o, order_show_id o, order_seats o, order_amount o,
   order_receipt_type o, order_receipt_ref o, order_created_at o).

(** In the 2 x 2 show: u1 took A1 at instant 0 for ten minutes and has not
    confirmed. *)
Definition db_timed_hold : DB :=
  (Prisma.toggleSeat 0 0 1 "A1" "u1" 10 db_two_by_two).2.

(** A collation for the samples: strings compared byte by byte. *)
Definition bytewise_le (a b : string) : Prop := String.leb a b = true.

#[global] Instance bytewise_le_dec : RelDecision bytewise_le.
Proof. intros a b. unfold bytewise_le. apply _. Defined.



(** A show of one and a half rows of two and a half seats, at price 1. *)
Definition form_fractions : string → option Admin.FormEntry :=
  form_of [("title", "Gala"); ("startsAt", "2030-01-01T20:00");
           ("rows", "1.5"); ("cols", "2.5"); ("price", "1")].

(** Show 1 as the dashboard creates it from the form of 2 rows of 2 seats,
    and the same show once u1 has taken A1 at instant 0 for ten minutes. *)
Definition db_gala : DB :=
  (Admin.createShowAction sample_to_number sample_trim sample_parse_date
     true form_2_by_2 empty_db).2.

Definition db_gala_hold : DB :=
  (Prisma.toggleSeat 0 0 1 "A1" "u1" 10 db_gala).2.

(** ** The ranges of the stored values

    A [Date] holds an instant within 8 640 000 000 000 000 ms of the epoch;
    an [INTEGER] column, an [Int] key and the argument of [make_interval] are
    32-bit integers. *)
Definition valid_date (t : Z) : Prop :=
  -8640000000000000 ≤ t ≤ 8640000000000000.

Definition int_range (z : Z) : Prop := -2147483648 ≤ z ≤ 2147483647.

#[global] Instance valid_date_dec t : Decision (valid_date t).
Proof. unfold valid_date. apply _. Defined.

#[global] Instance int_range_dec z : Decision (int_range z).
Proof. unfold int_range. apply _. Defined.

(** * Properties *)

(** ** Statements over a table *)

Section TableLemmas.
Context {K : Type} `{Countable K} {V : Type}.
Implicit Types (t : gmap K V) (cond : K → V → bool) (set : V → V).

Lemma update_where_lookup cond set t k :
  update_where cond set t !! k = (λ v, if cond k v then set v else v) <$> t !! k.
Proof. unfold update_where. rewrite map_lookup_imap. by destruct (t !! k). Qed.

Lemma update_where_ext cond1 cond2 set1 set2 t :
  (∀ k v, t !! k = Some v → cond1 k v = cond2 k v) →
  (∀ k v, t !! k = Some v → cond1 k v = true → set1 v = set2 v) →
  update_where cond1 set1 t = update_where cond2 set2 t.
Proof.
  intros Hc Hs. apply map_eq. intros k. rewrite !update_where_lookup.
  destruct (t !! k) as [v|] eqn:Hk; simpl; [|done].
  rewrite <- (Hc k v Hk). destruct (cond1 k v) eqn:Hcv; [|done].
  by rewrite (Hs k v Hk Hcv).
Qed.

Lemma update_where_untouched cond set t :
  (∀ k v, t !! k = Some v → cond k v = false) → update_where cond set t = t.
Proof.
  intros Hc. apply map_eq. intros k. rewrite update_where_lookup.
  destruct (t !! k) as [v|] eqn:Hk; simpl; [|done]. by rewrite (Hc k v Hk).
Qed.

Lemma update_where_key key set t :
  update_where (λ k _, bool_decide (k = key)) set t = update_unique key set t.
Proof.
  apply map_eq. intros k. rewrite update_where_lookup. unfold update_unique.
  destruct (decide (k = key)) as [->|Hne].
  - rewrite lookup_alter_eq. destruct (t !! key); simpl; [|done].
    by rewrite bool_decide_eq_true_2.
  - rewrite lookup_alter_ne by done. destruct (t !! k); simpl; [|done].
    by rewrite bool_decide_eq_false_2.
Qed.

(** An update whose condition pins the key rewrites that row alone. *)
Lemma update_where_single cond set t key v :
  (∀ k v', cond k v' = true → k = key) →
  t !! key = Some v →
  update_where cond set t = <[key := if cond key v then set v else v]> t.
Proof.
  intros Hpin Hv. apply map_eq. intros k. rewrite update_where_lookup.
  destruct (decide (k = key)) as [->|Hne].
  - by rewrite lookup_insert_eq, Hv.
  - rewrite lookup_insert_ne by done.
    destruct (t !! k) as [v'|]; simpl; [|done].
    destruct (cond k v') eqn:Hc; [|done]. by apply Hpin in Hc.
Qed.

Lemma update_where_Forall (P : V → Prop) cond set t :
  (∀ k v, cond k v = true → P v → P (set v)) →
  map_Forall (λ _, P) t → map_Forall (λ _, P) (update_where cond set t).
Proof.
  intros Hset Ht k v'. rewrite update_where_lookup.
  destruct (t !! k) as [v|] eqn:Hk; simpl; [|done].
  intros [= <-]. specialize (Ht k v Hk). simpl in Ht.
  destruct (cond k v) eqn:Hc; eauto.
Qed.

Lemma update_unique_Forall (P : V → Prop) key set t :
  (∀ v, P v → P (set v)) →
  map_Forall (λ _, P) t → map_Forall (λ _, P) (update_unique key set t).
Proof.
  intros Hset Ht k v'. unfold update_unique.
  destruct (decide (k = key)) as [->|Hne].
  - rewrite lookup_alter_eq. destruct (t !! key) as [v|] eqn:Hk; simpl; [|done].
    intros [= <-]. apply Hset. exact (Ht key v Hk).
  - rewrite lookup_alter_ne by done. apply Ht.
Qed.

Lemma insert_new_lookup t kv k :
  insert_new t kv !! k =
  match t !! k with
  | Some v => Some v
  | None => if decide (k = kv.1) then Some kv.2 else None
  end.
Proof.
  unfold insert_new. destruct (t !! kv.1) as [v0|] eqn:H0.
  - destruct (t !! k) eqn:Hk; [done|]. case_decide; [congruence|done].
  - destruct (decide (k = kv.1)) as [->|Hne].
    + by rewrite lookup_insert_eq, H0.
    + rewrite lookup_insert_ne by done. by destruct (t !! k).
Qed.

Lemma insert_skip_duplicates_Forall (P : V → Prop) data t :
  Forall (λ kv, P kv.2) data →
  map_Forall (λ _, P) t → map_Forall (λ _, P) (insert_skip_duplicates data t).
Proof.
  unfold insert_skip_duplicates. revert t.
  induction data as [|kv data IH]; intros t Hd Ht; simpl; [done|].
  inversion Hd as [|? ? Hkv Hrest]; subst. apply IH; [done|].
  intros k v. rewrite insert_new_lookup.
  destruct (t !! k) as [v0|] eqn:Hk.
  - intros [= <-]. exact (Ht k v0 Hk).
  - case_decide; [|done]. by intros [= <-].
Qed.

End TableLemmas.

(** ** The database record *)

Lemma with_seats_const db t : t = seats db → with_seats (λ _, t) db = db.
Proof. intros ->. by destruct db. Qed.

Lemma with_seats_insert_id db key s :
  seats db !! key = Some s → with_seats (insert key s) db = db.
Proof.
  intros Hs. destruct db as [sh shq st od odq us]; simpl in *.
  unfold with_seats; simpl. by rewrite insert_id.
Qed.

Lemma with_seats_eq f g db :
  f (seats db) = g (seats db) → with_seats f db = with_seats g db.
Proof. intros Heq. unfold with_seats. by rewrite Heq. Qed.

(** ** Toggle: the statements of the transaction *)

Lemma reconcile_found (now showId : Z) (seatCode : string)
    (t : gmap (Z * string) SeatRecord) (s : SeatRecord) :
  t !! (showId, seatCode) = Some s →
  update_where
    (λ k s, bool_decide (k.1 = showId) && bool_decide (k.2 = seatCode)
            && bool_decide (status s = held) && filter_lt (hold_until s) now)
    set_released t
  = <[(showId, seatCode) := reconciled now s]> t.
Proof.
  intros Hs.
  rewrite (update_where_single _ _ t (showId, seatCode) s); [|intros [a b] v'; simpl|done].
  - f_equal. simpl. rewrite !bool_decide_eq_true_2 by done. simpl.
    unfold reconciled, hold_lapsed, filter_lt.
    destruct (decide _) as [[Hst (t' & Ht' & Hlt)]|Hn].
    + rewrite Ht'. by rewrite !bool_decide_eq_true_2.
    + case_bool_decide as Hst; simpl; [|done].
      destruct (hold_until s) as [t'|]; [|done].
      case_bool_decide; [|done]. destruct Hn. eauto.
  - intros Hc. repeat (apply andb_prop in Hc as [Hc ?]).
    f_equal; by eapply bool_decide_eq_true_1.
Qed.

Lemma reconcile_absent (now showId : Z) (seatCode : string)
    (t : gmap (Z * string) SeatRecord) :
  t !! (showId, seatCode) = None →
  update_where
    (λ k s, bool_decide (k.1 = showId) && bool_decide (k.2 = seatCode)
            && bool_decide (status s = held) && filter_lt (hold_until s) now)
    set_released t
  = t.
Proof.
  intros Hn. apply update_where_untouched. intros [a b] v Hk; simpl.
  destruct (decide (a = showId)) as [->|?];
    [destruct (decide (b = seatCode)) as [->|?]|].
  - congruence.
  - by rewrite (bool_decide_eq_false_2 (b = seatCode)), andb_false_r.
  - by rewrite (bool_decide_eq_false_2 (a = showId)).
Qed.

(** [toggleSeat] on a seat that exists: the row is reconciled, then taken
    through [toggle_row]; nothing else is written. *)
Lemma toggleSeat_found now now_hold showId seatCode userId holdMinutes db s :
  seats db !! (showId, seatCode) = Some s →
  Prisma.toggleSeat now now_hold showId seatCode userId holdMinutes db =
  (Returned (toggle_row now_hold userId holdMinutes (reconciled now s)).1,
   with_seats
     (insert (showId, seatCode)
        (toggle_row now_hold userId holdMinutes (reconciled now s)).2) db).
Proof.
  intros Hs. unfold Prisma.toggleSeat, transaction, tx_bind, exec, query. simpl.
  rewrite (reconcile_found _ _ _ _ s Hs), lookup_insert_eq.
  unfold toggle_row, hold_ms.
  repeat match goal with
         | |- context [if ?b then _ else _] => destruct b eqn:?
         end; simpl; unfold tx_ret, with_seats; simpl; repeat f_equal;
    unfold update_unique;
    by rewrite ?(reconcile_found _ _ _ _ s Hs), ?alter_insert_eq, ?insert_insert_eq.
Qed.

Lemma toggleSeat_absent now now_hold showId seatCode userId holdMinutes db :
  seats db !! (showId, seatCode) = None →
  Prisma.toggleSeat now now_hold showId seatCode userId holdMinutes db =
  (Thrown "Seat not found", db).
Proof.
  intros Hn. unfold Prisma.toggleSeat, transaction, tx_bind, exec, query. simpl.
  by rewrite (reconcile_absent _ _ _ _ Hn), Hn.
Qed.

Lemma reconciled_status now s :
  status (reconciled now s) ≠ available → reconciled now s = s.
Proof. unfold reconciled. by case_decide. Qed.

Lemma reconciled_available now s :
  status s = available → reconciled now s = s.
Proof.
  intros Hs. unfold reconciled. case_decide as Hl; [|done].
  destruct Hl as [Hh _]. congruence.
Qed.

Lemma reconciled_fresh_hold now userId expiry s :
  ¬ expiry < now →
  reconciled now (set_held userId expiry s) = set_held userId expiry s.
Proof.
  intros Hle. unfold reconciled. case_decide as Hl; [|done].
  destruct Hl as [_ (t & Ht & Hlt)]. simpl in Ht. by simplify_eq.
Qed.

(** ** C2: the four outcomes of a toggle *)

Lemma reconciled_holder now s :
  held_by s ≠ Some EmptyString → held_by (reconciled now s) ≠ Some EmptyString.
Proof. unfold reconciled. by case_decide. Qed.

Lemma toggle_row_holder now_hold userId holdMinutes s :
  userId ≠ EmptyString → held_by s ≠ Some EmptyString →
  held_by (toggle_row now_hold userId holdMinutes s).2 ≠ Some EmptyString.
Proof.
  intros Hu Hs. unfold toggle_row.
  repeat match goal with
         | |- context [if ?b then _ else _] => destruct b
         end; simpl; congruence.
Qed.

(** A toggle by a user keeps the seats held by users. *)
Lemma toggleSeat_holders_are_users now now_hold showId seatCode userId holdMinutes db :
  userId ≠ EmptyString → holders_are_users db →
  holders_are_users
    (Prisma.toggleSeat now now_hold showId seatCode userId holdMinutes db).2.
Proof.
  intros Hu Hinv. unfold holders_are_users in *.
  destruct (seats db !! (showId, seatCode)) as [s|] eqn:Hs.
  - rewrite (toggleSeat_found _ _ _ _ _ _ _ s Hs). cbn [snd seats with_seats].
    apply map_Forall_insert_2; [|done].
    apply toggle_row_holder, reconciled_holder; [done|]. exact (Hinv _ _ Hs).
  - by rewrite (toggleSeat_absent _ _ _ _ _ _ _ Hs).
Qed.

(** C2. In a database whose seats are held by users, for a seat that exists
    and a hold whose expiry is a valid date, [toggleSeat] first reverts the
    seat's lapsed hold and then, reading the seat as it then is: returns
    [sold] and changes nothing when it is sold; returns [held-by-other] and
    changes nothing when it is held by a different user; returns [available]
    and releases it (status available, holder and expiry cleared) when it is
    held by the requesting user; returns [held] and acquires it (status
    held, holder the requesting user, expiry the clock plus the hold
    minutes) when it is available. No other row is written. *)
Theorem toggleSeat_outcomes (now now_hold showId : Z) (seatCode userId : string)
    (holdMinutes : Z) (db : DB) (s : SeatRecord) :
  holders_are_users db →
  valid_date (now_hold + holdMinutes * 60 * 1000) →
  seats db !! (showId, seatCode) = Some s →
  let seat := reconciled now s in
  let run := Prisma.toggleSeat now now_hold showId seatCode userId holdMinutes db in
  (status seat = sold → run = (Returned toggle_sold, db)) ∧
  (∀ other, status seat = held → held_by seat = Some other → other ≠ userId →
     run = (Returned toggle_held_by_other, db)) ∧
  (status seat = held → held_by seat = Some userId →
     run = (Returned toggle_available,
            with_seats
              (insert (showId, seatCode)
                 {| status := available; held_by := None; hold_until := None;
                    buyer_id := buyer_id s |}) db)) ∧
  (status seat = available →
     run = (Returned toggle_held,
            with_seats
              (insert (showId, seatCode)
                 {| status := held; held_by := Some userId;
                    hold_until := Some (now_hold + holdMinutes * 60 * 1000);
                    buyer_id := buyer_id s |}) db)).
Proof.
  intros Husers _ Hs. cbv zeta. rewrite (toggleSeat_found _ _ _ _ _ _ _ s Hs).
  assert (Hbuyer : buyer_id (reconciled now s) = buyer_id s).
  { unfold reconciled. by case_decide. }
  pose proof (reconciled_status now s) as Hkeep.
  pose proof (reconciled_holder now s (Husers _ _ Hs)) as Hholder.
  revert Hbuyer Hkeep Hholder. generalize (reconciled now s).
  intros seat Hbuyer Hkeep Hholder.
  unfold toggle_row, hold_ms, truthy, strict_eq.
  repeat split.
  - intros Hsold. rewrite (bool_decide_eq_true_2 (status seat = sold)) by done.
    simpl. rewrite with_seats_insert_id; [done|].
    rewrite Hkeep; [done|congruence].
  - intros other Hheld Hby Hne. rewrite Hby.
    rewrite (bool_decide_eq_false_2 (status seat = sold)) by congruence.
    rewrite (bool_decide_eq_true_2 (status seat = held)) by done.
    rewrite (bool_decide_eq_true_2 (other ≠ EmptyString)) by congruence.
    rewrite (bool_decide_eq_false_2 (Some other = Some userId)) by congruence.
    simpl. rewrite with_seats_insert_id; [done|].
    rewrite Hkeep; [done|congruence].
  - intros Hheld Hby. rewrite Hby.
    rewrite (bool_decide_eq_false_2 (status seat = sold)) by congruence.
    rewrite (bool_decide_eq_true_2 (status seat = held)) by done.
    rewrite (bool_decide_eq_true_2 (Some userId = Some userId)) by done.
    simpl. rewrite andb_false_r. simpl. unfold set_released. by rewrite Hbuyer.
  - intros Havail.
    rewrite (bool_decide_eq_false_2 (status seat = sold)) by congruence.
    rewrite (bool_decide_eq_false_2 (status seat = held)) by congruence.
    simpl. unfold set_held. by rewrite Hbuyer.
Qed.

Lemma toggleSeat_outcomes_witness :
  holders_are_users db_gala_hold ∧
  valid_date (500 + 10 * 60 * 1000) ∧
  Prisma.toggleSeat 500 500 1 "A1" "u2" 10 db_gala_hold =
    (Returned toggle_held_by_other, db_gala_hold) ∧
  Prisma.toggleSeat 500 500 1 "A2" "u2" 10 db_gala_hold =
    (Returned toggle_held,
     with_seats
       (insert (1, "A2")
          {| status := held; held_by := Some "u2"; hold_until := Some 600500;
             buyer_id := None |}) db_gala_hold).
Proof.
  assert (Husers : holders_are_users db_gala_hold)
    by (apply (bool_decide_unpack _); vm_compute; exact I).
  assert (Hdate : valid_date (500 + 10 * 60 * 1000)) by (unfold valid_date; lia).
  assert (Hheld : seats db_gala_hold !! (1, "A1") =
    Some {| status := held; held_by := Some "u1"; hold_until := Some 600000;
            buyer_id := None |}) by (vm_compute; reflexivity).
  assert (Hfree : seats db_gala_hold !! (1, "A2") = Some seat_defaults)
    by (vm_compute; reflexivity).
  split; [exact Husers|]. split; [exact Hdate|]. split.
  - refine (proj1 (proj2
      (toggleSeat_outcomes 500 500 1 "A1" "u2" 10 db_gala_hold _ Husers Hdate Hheld))
      "u1" eq_refl eq_refl _).
    discriminate.
  - exact (proj2 (proj2 (proj2
      (toggleSeat_outcomes 500 500 1 "A2" "u2" 10 db_gala_hold _ Husers Hdate Hfree)))
      eq_refl).
Defined.

(** ** C7: toggling twice *)

Lemma toggle_row_available now_hold userId holdMinutes s :
  status s = available →
  toggle_row now_hold userId holdMinutes s =
  (toggle_held, set_held userId (now_hold + hold_ms holdMinutes) s).
Proof.
  intros Hs. unfold toggle_row.
  rewrite (bool_decide_eq_false_2 (status s = sold)) by congruence.
  by rewrite (bool_decide_eq_false_2 (status s = held)) by congruence.
Qed.

Lemma toggle_row_own_hold now_hold userId holdMinutes expiry s :
  toggle_row now_hold userId holdMinutes (set_held userId expiry s) =
  (toggle_available, set_released s).
Proof.
  unfold toggle_row, strict_eq, truthy; simpl.
  rewrite (bool_decide_eq_true_2 (Some userId = Some userId)) by done.
  by rewrite andb_false_r.
Qed.

(** C7, amended. For a seat whose status is available and a hold whose
    expiry is a valid date, two toggles in a row by the same user, the
    second one not later than the expiry set by the first, return [held]
    then [available]; after the second the seat is available with no holder
    and no expiry and no other row has changed, so that a seat that had no
    holder and no expiry to begin with leaves the database exactly as it
    was. *)
Theorem toggleSeat_round_trip (now1 hold1 now2 hold2 showId : Z)
    (seatCode userId : string) (holdMinutes : Z) (db : DB) (s : SeatRecord) :
  seats db !! (showId, seatCode) = Some s →
  status s = available →
  valid_date (hold1 + holdMinutes * 60 * 1000) →
  now2 ≤ hold1 + holdMinutes * 60 * 1000 →
  let first := Prisma.toggleSeat now1 hold1 showId seatCode userId holdMinutes db in
  let second :=
    Prisma.toggleSeat now2 hold2 showId seatCode userId holdMinutes first.2 in
  first.1 = Returned toggle_held ∧
  second.1 = Returned toggle_available ∧
  second.2 =
    with_seats
      (insert (showId, seatCode)
         {| status := available; held_by := None; hold_until := None;
            buyer_id := buyer_id s |}) db ∧
  (held_by s = None → hold_until s = None → second.2 = db).
Proof.
  intros Hs Havail _ Hfresh. cbv zeta.
  rewrite (toggleSeat_found _ _ _ _ _ _ _ s Hs).
  rewrite (reconciled_available _ _ Havail), (toggle_row_available _ _ _ _ Havail).
  cbn [fst snd].
  erewrite toggleSeat_found; [|cbn [seats with_seats]; apply lookup_insert_eq].
  rewrite reconciled_fresh_hold by (unfold hold_ms; lia).
  rewrite toggle_row_own_hold. cbn [fst snd].
  assert (Hdb : with_seats (insert (showId, seatCode) (set_released s))
            (with_seats
               (insert (showId, seatCode)
                  (set_held userId (hold1 + hold_ms holdMinutes) s)) db)
          = with_seats (insert (showId, seatCode) (set_released s)) db).
  { unfold with_seats; cbn [seats shows shows_seq orders orders_seq user_sessions].
    by rewrite insert_insert_eq. }
  rewrite Hdb. repeat split.
  intros Hh Hu. apply with_seats_insert_id. rewrite Hs. f_equal.
  destruct s; simpl in *. by subst.
Qed.

Lemma toggleSeat_round_trip_witness :
  valid_date (0 + 10 * 60 * 1000) ∧
  (Prisma.toggleSeat 0 0 1 "A1" "u1" 10 db_one_seat).1 = Returned toggle_held ∧
  (Prisma.toggleSeat 500 500 1 "A1" "u1" 10
     (Prisma.toggleSeat 0 0 1 "A1" "u1" 10 db_one_seat).2).1
    = Returned toggle_available ∧
  (Prisma.toggleSeat 500 500 1 "A1" "u1" 10
     (Prisma.toggleSeat 0 0 1 "A1" "u1" 10 db_one_seat).2).2 = db_one_seat.
Proof.
  assert (Hdate : valid_date (0 + 10 * 60 * 1000)) by (unfold valid_date; lia).
  pose proof (toggleSeat_round_trip 0 0 500 500 1 "A1" "u1" 10 db_one_seat
                seat_defaults eq_refl eq_refl Hdate ltac:(lia)) as (H1 & H2 & _ & H4).
  exact (conj Hdate (conj H1 (conj H2 (H4 eq_refl eq_refl)))).
Defined.

(** C7 as stated fails when the hold taken by the first toggle has lapsed
    before the second: with a hold of ten minutes, a second toggle one
    millisecond after the expiry reverts the lapsed hold and acquires the
    seat again, returning [held] and leaving the seat held. *)
Lemma toggleSeat_round_trip_counterexample :
  seats db_one_seat !! (1, "A1") = Some seat_defaults ∧
  (Prisma.toggleSeat 0 0 1 "A1" "u1" 10 db_one_seat).1 = Returned toggle_held ∧
  (Prisma.toggleSeat 600001 600001 1 "A1" "u1" 10
     (Prisma.toggleSeat 0 0 1 "A1" "u1" 10 db_one_seat).2).1
    = Returned toggle_held ∧
  seats (Prisma.toggleSeat 600001 600001 1 "A1" "u1" 10
           (Prisma.toggleSeat 0 0 1 "A1" "u1" 10 db_one_seat).2).2 !! (1, "A1")
    = Some {| status := held; held_by := Some "u1"; hold_until := Some 1200001;
              buyer_id := None |}.
Proof. repeat split; vm_compute; reflexivity. Qed.

(** ** C5: reverting lapsed holds *)

(** C5. [releaseExpiredHolds] rewrites exactly the seats of the show whose
    status is held and whose expiry is set and strictly before the clock:
    each becomes available with holder and expiry cleared; every other seat,
    a frozen held seat (no expiry) among them, is unchanged; no row appears
    or disappears and the other tables are untouched. *)
Theorem releaseExpiredHolds_exact (now showId : Z) (db : DB) :
  let db' := Prisma.releaseExpiredHolds now showId db in
  (∀ code s t, seats db !! (showId, code) = Some s →
     status s = held → hold_until s = Some t → t < now →
     seats db' !! (showId, code) =
       Some {| status := available; held_by := None; hold_until := None;
               buyer_id := buyer_id s |}) ∧
  (∀ k s, seats db !! k = Some s →
     ¬ (k.1 = showId ∧ status s = held ∧ ∃ t, hold_until s = Some t ∧ t < now) →
     seats db' !! k = Some s) ∧
  (∀ k s, seats db !! k = Some s → status s = held → hold_until s = None →
     seats db' !! k = Some s) ∧
  (∀ k, seats db !! k = None → seats db' !! k = None) ∧
  shows db' = shows db ∧ orders db' = orders db ∧
  user_sessions db' = user_sessions db.
Proof.
  cbv zeta. unfold Prisma.releaseExpiredHolds. cbn [seats with_seats].
  assert (Hother : ∀ k s, seats db !! k = Some s →
     ¬ (k.1 = showId ∧ status s = held ∧ ∃ t, hold_until s = Some t ∧ t < now) →
     update_where
       (λ k s, bool_decide (k.1 = showId) && bool_decide (status s = held)
               && filter_lt (hold_until s) now) set_released (seats db) !! k
     = Some s).
  { intros k s Hk Hn. rewrite update_where_lookup, Hk. simpl.
    destruct (_ && _) eqn:Hc; [|done]. destruct Hn.
    apply andb_prop in Hc as [Hc Hlt]. apply andb_prop in Hc as [Hshow Hheld].
    apply bool_decide_eq_true_1 in Hshow, Hheld. unfold filter_lt in Hlt.
    destruct (hold_until s) as [t|]; [|done].
    apply bool_decide_eq_true_1 in Hlt. eauto. }
  repeat split; try done.
  - intros code s t Hk Hheld Ht Hlt. rewrite update_where_lookup, Hk. simpl.
    rewrite Ht. simpl. by rewrite !bool_decide_eq_true_2.
  - intros k s Hk Hheld Hnone. apply Hother; [done|].
    intros (_ & _ & t & Ht & _). congruence.
  - intros k Hk. by rewrite update_where_lookup, Hk.
Qed.

Lemma releaseExpiredHolds_exact_witness :
  seats (Prisma.releaseExpiredHolds 700000 1 db_frozen_and_timed) !! (1, "A2") =
    Some {| status := available; held_by := None; hold_until := None;
            buyer_id := None |} ∧
  seats (Prisma.releaseExpiredHolds 700000 1 db_frozen_and_timed) !! (1, "A1") =
    Some {| status := held; held_by := Some "u1"; hold_until := None;
            buyer_id := None |}.
Proof.
  pose proof (releaseExpiredHolds_exact 700000 1 db_frozen_and_timed)
    as (Hlapsed & _ & Hfrozen & _).
  split.
  - exact (Hlapsed "A2"
             {| status := held; held_by := Some "u2"; hold_until := Some 600000;
                buyer_id := None |} 600000 eq_refl eq_refl eq_refl eq_refl).
  - exact (Hfrozen (1, "A1")
             {| status := held; held_by := Some "u1"; hold_until := None;
                buyer_id := None |} eq_refl eq_refl eq_refl).
Defined.

(** ** C6: freezing the holds of a user *)

(** C6. [freezeHeldSeats] clears the expiry of exactly the seats of the show
    whose status is held and whose holder is the user, keeping their status,
    holder and buyer; every other seat is unchanged, no row appears or
    disappears and the other tables are untouched. *)
Theorem freezeHeldSeats_frame (showId : Z) (userId : string) (db : DB) :
  let db' := Prisma.freezeHeldSeats showId userId db in
  (∀ code s, seats db !! (showId, code) = Some s →
     status s = held → held_by s = Some userId →
     seats db' !! (showId, code) =
       Some {| status := status s; held_by := held_by s; hold_until := None;
               buyer_id := buyer_id s |}) ∧
  (∀ k s, seats db !! k = Some s →
     ¬ (k.1 = showId ∧ status s = held ∧ held_by s = Some userId) →
     seats db' !! k = Some s) ∧
  (∀ k, seats db !! k = None → seats db' !! k = None) ∧
  shows db' = shows db ∧ orders db' = orders db ∧
  user_sessions db' = user_sessions db.
Proof.
  cbv zeta. unfold Prisma.freezeHeldSeats. cbn [seats with_seats].
  repeat split; try done.
  - intros code s Hk Hheld Hby. rewrite update_where_lookup, Hk. simpl.
    unfold strict_eq. by rewrite !bool_decide_eq_true_2.
  - intros k s Hk Hn. rewrite update_where_lookup, Hk. simpl.
    destruct (_ && _) eqn:Hc; [|done]. destruct Hn.
    apply andb_prop in Hc as [Hc Hheld]. apply andb_prop in Hc as [Hshow Hby].
    unfold strict_eq in Hby.
    apply bool_decide_eq_true_1 in Hshow, Hheld, Hby. done.
  - intros k Hk. by rewrite update_where_lookup, Hk.
Qed.

Lemma freezeHeldSeats_frame_witness :
  seats (Prisma.freezeHeldSeats 1 "u2" db_frozen_and_timed) !! (1, "A2") =
    Some {| status := held; held_by := Some "u2"; hold_until := None;
            buyer_id := None |} ∧
  seats (Prisma.freezeHeldSeats 1 "u2" db_frozen_and_timed) !! (1, "B1") =
    Some seat_defaults.
Proof.
  pose proof (freezeHeldSeats_frame 1 "u2" db_frozen_and_timed)
    as (Hmine & Hrest & _).
  split.
  - exact (Hmine "A2"
             {| status := held; held_by := Some "u2"; hold_until := Some 600000;
                buyer_id := None |} eq_refl eq_refl eq_refl).
  - apply (Hrest (1, "B1") seat_defaults eq_refl).
    intros (_ & Hheld & _). discriminate Hheld.
Defined.

(** ** Settlement: the statements of the transaction *)

Lemma settle_seats_statement (codes : list string) (showId : Z)
    (set_seat : SeatRecord → SeatRecord) (db : DB) :
  (if bool_decide (0 < length codes)%nat
   then exec (with_seats
                (update_where
                   (λ k _, bool_decide (k.1 = showId) && bool_decide (k.2 ∈ codes))
                   set_seat))
   else tx_ret tt) db
  = Returned (tt, with_seats
                    (update_where
                       (λ k _, bool_decide (k.1 = showId) && bool_decide (k.2 ∈ codes))
                       set_seat) db).
Proof.
  case_bool_decide as Hlen; [done|].
  destruct codes as [|c codes]; [|simpl in Hlen; lia].
  unfold tx_ret. do 2 f_equal. symmetry. apply with_seats_const.
  apply update_where_untouched. intros k v _.
  rewrite (bool_decide_eq_false_2 (k.2 ∈ [])); [apply andb_false_r|].
  apply not_elem_of_nil.
Qed.

Lemma approveOrder_absent now orderId adminId db :
  orders db !! orderId = None →
  Prisma.approveOrder now orderId adminId db = (Returned None, db).
Proof.
  intros Hn. unfold Prisma.approveOrder, transaction, tx_bind, query. simpl.
  by rewrite Hn.
Qed.

Lemma approveOrder_settled now orderId adminId db o :
  orders db !! orderId = Some o → order_status o ≠ "pending" →
  Prisma.approveOrder now orderId adminId db =
  (Returned (Some (order_record orderId o (split_seats (order_seats o))
                     (order_status o))), db).
Proof.
  intros Ho Hst. unfold Prisma.approveOrder, transaction, tx_bind, query. simpl.
  rewrite Ho. by rewrite bool_decide_eq_true_2.
Qed.

Lemma approveOrder_pending now orderId adminId db o :
  orders db !! orderId = Some o → order_status o = "pending" →
  Prisma.approveOrder now orderId adminId db =
  (Returned (Some (order_record orderId o (split_seats (order_seats o)) "approved")),
   settled_db (set_sold (order_user_id o)) "approved" (Some now) orderId adminId o db).
Proof.
  intros Ho Hst. unfold Prisma.approveOrder, transaction, tx_bind, query. simpl.
  rewrite Ho. rewrite bool_decide_eq_false_2 by (intros Hne; by apply Hne).
  by rewrite settle_seats_statement.
Qed.

Lemma rejectOrder_absent orderId adminId db :
  orders db !! orderId = None →
  Prisma.rejectOrder orderId adminId db = (Returned None, db).
Proof.
  intros Hn. unfold Prisma.rejectOrder, transaction, tx_bind, query. simpl.
  by rewrite Hn.
Qed.

Lemma rejectOrder_settled orderId adminId db o :
  orders db !! orderId = Some o → order_status o ≠ "pending" →
  Prisma.rejectOrder orderId adminId db =
  (Returned (Some (order_record orderId o (split_seats (order_seats o))
                     (order_status o))), db).
Proof.
  intros Ho Hst. unfold Prisma.rejectOrder, transaction, tx_bind, query. simpl.
  rewrite Ho. by rewrite bool_decide_eq_true_2.
Qed.

Lemma rejectOrder_pending orderId adminId db o :
  orders db !! orderId = Some o → order_status o = "pending" →
  Prisma.rejectOrder orderId adminId db =
  (Returned (Some (order_record orderId o (split_seats (order_seats o)) "rejected")),
   settled_db set_released "rejected" None orderId adminId o db).
Proof.
  intros Ho Hst. unfold Prisma.rejectOrder, transaction, tx_bind, query. simpl.
  rewrite Ho. rewrite bool_decide_eq_false_2 by (intros Hne; by apply Hne).
  by rewrite settle_seats_statement.
Qed.

Lemma settled_db_listed_seat set_seat new_status paidAt orderId adminId o db code s :
  code ∈ split_seats (order_seats o) →
  seats db !! (order_show_id o, code) = Some s →
  seats (settled_db set_seat new_status paidAt orderId adminId o db)
    !! (order_show_id o, code) = Some (set_seat s).
Proof.
  intros Hin Hs. cbn [seats settled_db]. rewrite update_where_lookup, Hs. simpl.
  by rewrite !bool_decide_eq_true_2.
Qed.

(** ** C3: what a settlement does to the seats *)

(** C3, amended. Approving a pending order leaves every seat of the order's
    seat list sold, with the order's user as buyer and with holder and expiry
    cleared; rejecting a pending order leaves every seat of the list
    available with holder and expiry cleared, and with the buyer it had. *)
Theorem settle_pending_seats (now orderId : Z) (adminId : string) (db : DB)
    (o : OrderRow) :
  orders db !! orderId = Some o →
  order_status o = "pending" →
  (∀ code s, code ∈ split_seats (order_seats o) →
     seats db !! (order_show_id o, code) = Some s →
     seats (Prisma.approveOrder now orderId adminId db).2
       !! (order_show_id o, code) =
       Some {| status := sold; held_by := None; hold_until := None;
               buyer_id := Some (order_user_id o) |}) ∧
  (∀ code s, code ∈ split_seats (order_seats o) →
     seats db !! (order_show_id o, code) = Some s →
     seats (Prisma.rejectOrder orderId adminId db).2
       !! (order_show_id o, code) =
       Some {| status := available; held_by := None; hold_until := None;
               buyer_id := buyer_id s |}).
Proof.
  intros Ho Hst. split; intros code s Hin Hs.
  - rewrite (approveOrder_pending _ _ _ _ _ Ho Hst). cbn [snd].
    by rewrite (settled_db_listed_seat _ _ _ _ _ _ _ _ _ Hin Hs).
  - rewrite (rejectOrder_pending _ _ _ _ Ho Hst). cbn [snd].
    by rewrite (settled_db_listed_seat _ _ _ _ _ _ _ _ _ Hin Hs).
Qed.

Lemma settle_pending_seats_witness :
  seats (Prisma.approveOrder 12 2 "operator" db_two_receipts).2 !! (1, "A1") =
    Some {| status := sold; held_by := None; hold_until := None;
            buyer_id := Some "u1" |} ∧
  seats (Prisma.rejectOrder 2 "operator" db_two_receipts).2 !! (1, "A1") =
    Some {| status := available; held_by := None; hold_until := None;
            buyer_id := Some "u1" |}.
Proof.
  pose proof (settle_pending_seats 12 2 "operator" db_two_receipts
    {| order_user_id := "u1"; order_show_id := 1; order_seats := "A1";
       order_amount := 250000; order_receipt_type := text;
       order_receipt_ref := "second receipt"; order_status := "pending";
       order_created_at := 6; order_paid_at := None; order_admin_id := None |}
    eq_refl eq_refl) as [Happrove Hreject].
  assert (Hin : "A1" ∈ split_seats "A1") by (apply list_elem_of_In; simpl; tauto).
  split.
  - exact (Happrove "A1"
             {| status := sold; held_by := None; hold_until := None;
                buyer_id := Some "u1" |} Hin eq_refl).
  - exact (Hreject "A1"
             {| status := sold; held_by := None; hold_until := None;
                buyer_id := Some "u1" |} Hin eq_refl).
Defined.

Lemma db_two_receipts_reachable : reachable db_two_receipts.
Proof.
  unfold reachable, db_two_receipts, db_one_seat.
  eapply rtc_r; [|apply step_approveOrder].
  eapply rtc_r; [|apply step_createOrder].
  eapply rtc_r; [|apply step_createOrder].
  eapply rtc_r; [|apply step_freezeHeldSeats].
  eapply rtc_r; [|apply step_toggleSeat].
  apply rtc_once, step_seedSeats.
Qed.

(** C3 as stated fails on the buyer: rejecting the pending order 2, whose
    seat A1 has meanwhile been sold to u1 through order 1, makes the seat
    available and leaves its buyer in place. *)
Lemma rejectOrder_keeps_buyer_counterexample :
  reachable db_two_receipts ∧
  (order_status <$> orders db_two_receipts !! 2) = Some "pending" ∧
  (split_seats <$> (order_seats <$> orders db_two_receipts !! 2)) = Some ["A1"] ∧
  seats db_two_receipts !! (1, "A1") =
    Some {| status := sold; held_by := None; hold_until := None;
            buyer_id := Some "u1" |} ∧
  seats (Prisma.rejectOrder 2 "operator" db_two_receipts).2 !! (1, "A1") =
    Some {| status := available; held_by := None; hold_until := None;
            buyer_id := Some "u1" |} ∧
  (buyer_id <$> seats (Prisma.rejectOrder 2 "operator" db_two_receipts).2
                  !! (1, "A1")) ≠ Some None.
Proof.
  split; [exact db_two_receipts_reachable|].
  repeat split; try (vm_compute; reflexivity).
  vm_compute. intros [=].
Qed.

(** ** C4: settlement of an order that is absent or already settled *)

(** C4. For an order id within the 32-bit range of the order key:
    [approveOrder] and [rejectOrder] on an id that has no row return [null]
    and leave the database as it is; on an order whose status is not pending
    they return the order with the status it has and leave the database
    (seats, orders, sessions) as it is. *)
Theorem settle_only_pending (now orderId : Z) (adminId : string) (db : DB) :
  int_range orderId →
  (orders db !! orderId = None →
     Prisma.approveOrder now orderId adminId db = (Returned None, db) ∧
     Prisma.rejectOrder orderId adminId db = (Returned None, db)) ∧
  (∀ o, orders db !! orderId = Some o → order_status o ≠ "pending" →
     let unchanged :=
       {| id := orderId; user_id := order_user_id o; show_id := order_show_id o;
          seats_of := split_seats (order_seats o); amount := order_amount o;
          order_state := order_status o |} in
     Prisma.approveOrder now orderId adminId db = (Returned (Some unchanged), db) ∧
     Prisma.rejectOrder orderId adminId db = (Returned (Some unchanged), db)).
Proof.
  intros _. split.
  - intros Hn. by rewrite approveOrder_absent, rejectOrder_absent.
  - intros o Ho Hst. cbv zeta.
    by rewrite (approveOrder_settled _ _ _ _ _ Ho Hst),
               (rejectOrder_settled _ _ _ _ Ho Hst).
Qed.

Lemma settle_only_pending_witness :
  int_range 7 ∧ int_range 1 ∧
  Prisma.approveOrder 20 7 "operator" db_two_receipts = (Returned None, db_two_receipts) ∧
  Prisma.rejectOrder 1 "operator" db_two_receipts =
    (Returned (Some {| id := 1; user_id := "u1"; show_id := 1; seats_of := ["A1"];
                       amount := 250000; order_state := "approved" |}),
     db_two_receipts).
Proof.
  assert (H7 : int_range 7) by (unfold int_range; lia).
  assert (H1 : int_range 1) by (unfold int_range; lia).
  split; [exact H7|]. split; [exact H1|]. split.
  - exact (proj1 (proj1 (settle_only_pending 20 7 "operator" db_two_receipts H7)
                    eq_refl)).
  - refine (proj2 (proj2 (settle_only_pending 20 1 "operator" db_two_receipts H1)
      {| order_user_id := "u1"; order_show_id := 1; order_seats := "A1";
         order_amount := 250000; order_receipt_type := text;
         order_receipt_ref := "first receipt"; order_status := "approved";
         order_created_at := 5; order_paid_at := Some 9;
         order_admin_id := Some "operator" |} eq_refl _)).
    intros [=].
Defined.

(** ** C1: the seat invariant *)

Lemma set_released_consistent s : seat_consistent (set_released s).
Proof. by unfold seat_consistent. Qed.

Lemma set_held_consistent userId expiry s : seat_consistent (set_held userId expiry s).
Proof. unfold seat_consistent; simpl. eauto. Qed.

Lemma set_sold_consistent buyer s : seat_consistent (set_sold buyer s).
Proof. unfold seat_consistent; simpl. eauto. Qed.

Lemma set_frozen_consistent s : seat_consistent s → seat_consistent (set_frozen s).
Proof. unfold seat_consistent; simpl. destruct (status s); intuition. Qed.

Lemma reconciled_consistent now s :
  seat_consistent s → seat_consistent (reconciled now s).
Proof.
  intros Hs. unfold reconciled. case_decide; [apply set_released_consistent|done].
Qed.

Lemma toggle_row_consistent now_hold userId holdMinutes s :
  seat_consistent s → seat_consistent (toggle_row now_hold userId holdMinutes s).2.
Proof.
  intros Hs. unfold toggle_row.
  repeat match goal with
         | |- context [if ?b then _ else _] => destruct b
         end; simpl;
    auto using set_released_consistent, set_held_consistent.
Qed.

Create HintDb seats.

#[local] Hint Resolve set_released_consistent set_held_consistent
  set_sold_consistent set_frozen_consistent : seats.

Lemma step_consistent db db' :
  step db db' →
  map_Forall (λ _, seat_consistent) (seats db) →
  map_Forall (λ _, seat_consistent) (seats db').
Proof.
  intros Hstep Hinv. destruct Hstep.
  - unfold Prisma.seedSeats. case_bool_decide; [|done]. cbn [seats with_seats].
    apply insert_skip_duplicates_Forall; [|done].
    rewrite Forall_fmap. apply Forall_true. intros ?. simpl.
    unfold Prisma.seat_create_defaults, seat_defaults, seat_consistent. by simpl.
  - destruct (seats db !! (showId, seatCode)) as [s|] eqn:Hs.
    + rewrite (toggleSeat_found _ _ _ _ _ _ _ s Hs). cbn [snd seats with_seats].
      apply map_Forall_insert_2; [|done].
      apply toggle_row_consistent, reconciled_consistent. exact (Hinv _ _ Hs).
    + by rewrite (toggleSeat_absent _ _ _ _ _ _ _ Hs).
  - unfold Prisma.releaseExpiredHolds. cbn [seats with_seats].
    apply update_where_Forall; auto with seats.
  - unfold Prisma.freezeHeldSeats. cbn [seats with_seats].
    apply update_where_Forall; auto with seats.
  - done.
  - destruct (orders db !! orderId) as [o|] eqn:Ho;
      [destruct (decide (order_status o = "pending")) as [Hst|Hst]|].
    + rewrite (approveOrder_pending _ _ _ _ _ Ho Hst). cbn [snd seats settled_db].
      apply update_where_Forall; auto with seats.
    + by rewrite (approveOrder_settled _ _ _ _ _ Ho Hst).
    + by rewrite (approveOrder_absent _ _ _ _ Ho).
  - destruct (orders db !! orderId) as [o|] eqn:Ho;
      [destruct (decide (order_status o = "pending")) as [Hst|Hst]|].
    + rewrite (rejectOrder_pending _ _ _ _ Ho Hst). cbn [snd seats settled_db].
      apply update_where_Forall; auto with seats.
    + by rewrite (rejectOrder_settled _ _ _ _ Ho Hst).
    + by rewrite (rejectOrder_absent _ _ _ Ho).
Qed.

(** C1, amended. In every database reachable from the empty one by seat
    seeding, toggles, reverting lapsed holds, freezing, order creation,
    approval and rejection, each seat has one of the three statuses, and: an
    available seat has no holder and no expiry; a held seat has a holder; a
    sold seat has a buyer, no holder and no expiry. *)
Theorem reachable_seat_consistent (db : DB) (k : Z * string) (s : SeatRecord) :
  reachable db →
  seats db !! k = Some s →
  status s ∈ [available; held; sold] ∧
  match status s with
  | available => held_by s = None ∧ hold_until s = None
  | held => is_Some (held_by s)
  | sold => held_by s = None ∧ hold_until s = None ∧ is_Some (buyer_id s)
  end.
Proof.
  intros Hreach Hs. split.
  - destruct (status s); set_solver.
  - change (seat_consistent s).
    enough (Hall : map_Forall (λ _, seat_consistent) (seats db)) by exact (Hall k s Hs).
    clear k s Hs. revert db Hreach.
    apply (rtc_ind_r (λ d, map_Forall (λ _, seat_consistent) (seats d)) empty_db).
    + apply map_Forall_empty.
    + intros db1 db2 _ Hstep IH. exact (step_consistent _ _ Hstep IH).
Qed.

Lemma reachable_seat_consistent_witness :
  status {| status := sold; held_by := None; hold_until := None;
            buyer_id := Some "u1" |} ∈ [available; held; sold] ∧
  (@None string = None ∧ @None Z = None ∧ is_Some (Some "u1"%string)).
Proof.
  exact (reachable_seat_consistent db_two_receipts (1, "A1")
           {| status := sold; held_by := None; hold_until := None;
              buyer_id := Some "u1" |} db_two_receipts_reachable eq_refl).
Defined.

(** C1 as stated fails: after the operator rejects order 2 of the two
    receipts, seat A1 (sold to u1 through order 1) is available and still
    carries its buyer, which is none of the three combinations. *)
Lemma seat_combination_counterexample :
  reachable (Prisma.rejectOrder 2 "operator" db_two_receipts).2 ∧
  seats (Prisma.rejectOrder 2 "operator" db_two_receipts).2 !! (1, "A1") =
    Some {| status := available; held_by := None; hold_until := None;
            buyer_id := Some "u1" |} ∧
  ¬ seat_combination {| status := available; held_by := None; hold_until := None;
                        buyer_id := Some "u1" |}.
Proof.
  split; [|split].
  - eapply rtc_r; [exact db_two_receipts_reachable|apply step_rejectOrder].
  - vm_compute. reflexivity.
  - unfold seat_combination; simpl. intros [_ [=]].
Qed.

(** Seats stay held by users through every operation: only a toggle under
    the empty string, which the bot never makes, puts the empty string in a
    row. *)
Lemma step_holders_are_users db db' :
  step db db' → holders_are_users db →
  holders_are_users db' ∨
  ∃ now now_hold showId seatCode holdMinutes,
    db' = (Prisma.toggleSeat now now_hold showId seatCode EmptyString holdMinutes db).2.
Proof.
  intros Hstep Hinv. destruct Hstep.
  - left. unfold holders_are_users, Prisma.seedSeats in *.
    case_bool_decide; [|done]. cbn [seats with_seats].
    apply (insert_skip_duplicates_Forall (λ s, held_by s ≠ Some EmptyString));
      [|done].
    rewrite Forall_fmap. apply Forall_true. intros ?. simpl.
    unfold Prisma.seat_create_defaults, seat_defaults. by simpl.
  - destruct (decide (userId = EmptyString)) as [->|Hu]; [right; eauto 10|].
    left. by apply toggleSeat_holders_are_users.
  - left. unfold holders_are_users, Prisma.releaseExpiredHolds in *.
    cbn [seats with_seats].
    by apply (update_where_Forall (λ s, held_by s ≠ Some EmptyString)).
  - left. unfold holders_are_users, Prisma.freezeHeldSeats in *.
    cbn [seats with_seats].
    by apply (update_where_Forall (λ s, held_by s ≠ Some EmptyString)).
  - by left.
  - left. unfold holders_are_users in *.
    destruct (orders db !! orderId) as [o|] eqn:Ho;
      [destruct (decide (order_status o = "pending")) as [Hst|Hst]|].
    + rewrite (approveOrder_pending _ _ _ _ _ Ho Hst). cbn [snd seats settled_db].
      by apply (update_where_Forall (λ s, held_by s ≠ Some EmptyString)).
    + by rewrite (approveOrder_settled _ _ _ _ _ Ho Hst).
    + by rewrite (approveOrder_absent _ _ _ _ Ho).
  - left. unfold holders_are_users in *.
    destruct (orders db !! orderId) as [o|] eqn:Ho;
      [destruct (decide (order_status o = "pending")) as [Hst|Hst]|].
    + rewrite (rejectOrder_pending _ _ _ _ Ho Hst). cbn [snd seats settled_db].
      by apply (update_where_Forall (λ s, held_by s ≠ Some EmptyString)).
    + by rewrite (rejectOrder_settled _ _ _ _ Ho Hst).
    + by rewrite (rejectOrder_absent _ _ _ Ho).
Qed.

(** ** C10: the two implementations agree *)

Lemma sql_lapsed_filter (v : option Z) (now : Z) :
  is_not_null v && sql_lt v now = filter_lt v now.
Proof. by destruct v. Qed.

Lemma sql_holder_filter (v : option string) (userId : string) :
  sql_eq v userId = strict_eq v userId.
Proof.
  unfold sql_eq, strict_eq. destruct v as [x|].
  - apply bool_decide_ext. split; congruence.
  - by rewrite bool_decide_eq_false_2.
Qed.

Lemma update_where_seat_key (showId : Z) (seatCode : string)
    (set_seat : SeatRecord → SeatRecord) (t : gmap (Z * string) SeatRecord) :
  update_where (λ k _, bool_decide (k.1 = showId) && bool_decide (k.2 = seatCode))
    set_seat t
  = update_unique (showId, seatCode) set_seat t.
Proof.
  rewrite <- update_where_key. apply update_where_ext; [|done].
  intros [a b] v _. simpl.
  destruct (decide (a = showId)) as [->|Ha], (decide (b = seatCode)) as [->|Hb].
  - by rewrite !bool_decide_eq_true_2.
  - rewrite (bool_decide_eq_false_2 (b = seatCode)) by done.
    rewrite andb_false_r. symmetry. apply bool_decide_eq_false_2. congruence.
  - rewrite (bool_decide_eq_false_2 (a = showId)) by done.
    symmetry. apply bool_decide_eq_false_2. congruence.
  - rewrite (bool_decide_eq_false_2 (a = showId)) by done.
    symmetry. apply bool_decide_eq_false_2. congruence.
Qed.

Lemma delete_where_user (userId : string) (t : gmap string SessionRow) :
  filter (λ kv, kv.1 ≠ userId) t = delete userId t.
Proof.
  apply map_eq. intros u. apply option_eq. intros row.
  rewrite map_lookup_filter_Some, lookup_delete_Some. simpl.
  split; intros [? ?]; split; congruence.
Qed.

Lemma seedSeats_agree showId nrows ncols db :
  Sql.seedSeats showId nrows ncols db = Prisma.seedSeats showId nrows ncols db.
Proof.
  unfold Sql.seedSeats, Prisma.seedSeats, Prisma.seat_create_defaults, seat_defaults.
  simpl. rewrite !length_fmap. case_bool_decide; [|done].
  f_equal. by rewrite <- list_fmap_compose.
Qed.

Lemma releaseExpiredHolds_agree now showId db :
  Sql.releaseExpiredHolds now showId db = Prisma.releaseExpiredHolds now showId db.
Proof.
  unfold Sql.releaseExpiredHolds, Prisma.releaseExpiredHolds.
  apply with_seats_eq, update_where_ext; [|done].
  intros k v _. by rewrite <- andb_assoc, sql_lapsed_filter.
Qed.

Lemma freezeHeldSeats_agree showId userId db :
  Sql.freezeHeldSeats showId userId db = Prisma.freezeHeldSeats showId userId db.
Proof.
  unfold Sql.freezeHeldSeats, Prisma.freezeHeldSeats.
  apply with_seats_eq, update_where_ext; [|done].
  intros k v _. by rewrite sql_holder_filter.
Qed.

Lemma toggleSeat_agree now showId seatCode userId holdMinutes db :
  int_range holdMinutes →
  Sql.toggleSeat now showId seatCode userId holdMinutes db =
  Prisma.toggleSeat now now showId seatCode userId holdMinutes db.
Proof.
  intros Hmins.
  unfold Sql.toggleSeat, Prisma.toggleSeat, transaction, tx_bind, exec, query.
  simpl.
  assert (Hfirst :
    update_where
      (λ k s, bool_decide (k.1 = showId) && bool_decide (k.2 = seatCode)
              && bool_decide (status s = held)
              && is_not_null (hold_until s) && sql_lt (hold_until s) now)
      set_released (seats db)
    = update_where
        (λ k s, bool_decide (k.1 = showId) && bool_decide (k.2 = seatCode)
                && bool_decide (status s = held) && filter_lt (hold_until s) now)
        set_released (seats db)).
  { apply update_where_ext; [|done].
    intros k v _. by rewrite <- andb_assoc, sql_lapsed_filter. }
  rewrite Hfirst.
  rewrite (bool_decide_eq_true_2 (-2147483648 ≤ holdMinutes ≤ 2147483647)) by exact Hmins.
  destruct (_ !! (showId, seatCode)) as [seat|]; [|done].
  repeat match goal with
         | |- context [if ?b then _ else _] => destruct b
         end; simpl; unfold with_seats; simpl;
    by rewrite ?Hfirst, ?update_where_seat_key, ?Z.mul_assoc.
Qed.

Lemma sql_toggleSeat_absent now showId seatCode userId holdMinutes db :
  seats db !! (showId, seatCode) = None →
  Sql.toggleSeat now showId seatCode userId holdMinutes db =
    (Thrown "Seat not found", db).
Proof.
  intros Hnone.
  unfold Sql.toggleSeat, transaction, tx_bind, exec, query, throw. simpl.
  by rewrite update_where_lookup, Hnone.
Qed.

Lemma approveOrder_agree now orderId adminId db :
  Sql.approveOrder now orderId adminId db = Prisma.approveOrder now orderId adminId db.
Proof.
  unfold Sql.approveOrder, Prisma.approveOrder, transaction, tx_bind, query.
  simpl. destruct (orders db !! orderId) as [o|]; [|done].
  case_bool_decide; [done|].
  rewrite !settle_seats_statement. unfold exec, tx_ret, with_orders, with_sessions.
  simpl. by rewrite update_where_key, delete_where_user.
Qed.

Lemma rejectOrder_agree orderId adminId db :
  Sql.rejectOrder orderId adminId db = Prisma.rejectOrder orderId adminId db.
Proof.
  unfold Sql.rejectOrder, Prisma.rejectOrder, transaction, tx_bind, query.
  simpl. destruct (orders db !! orderId) as [o|]; [|done].
  case_bool_decide; [done|].
  rewrite !settle_seats_statement. unfold exec, tx_ret, with_orders, with_sessions.
  simpl. by rewrite update_where_key, delete_where_user.
Qed.

(** C10, amended. Started from the same database with the same arguments,
    the Prisma and the SQL implementations of [releaseExpiredHolds],
    [freezeHeldSeats], [approveOrder] and [rejectOrder] return the same
    result and leave the same database when they read the same instant; so
    do the two implementations of [toggleSeat] when, in addition, both clock
    reads of the Prisma one give the instant of the SQL transaction, an
    instant not before the epoch, the number of minutes is a 32-bit integer
    and the expiry is a valid date. *)
Theorem implementations_agree (now now_hold showId orderId holdMinutes : Z)
    (seatCode userId adminId : string) (db : DB) :
  (now_hold = now → 0 ≤ now → int_range holdMinutes →
   valid_date (now_hold + holdMinutes * 60 * 1000) →
   Sql.toggleSeat now showId seatCode userId holdMinutes db =
     Prisma.toggleSeat now now_hold showId seatCode userId holdMinutes db) ∧
  Sql.releaseExpiredHolds now showId db = Prisma.releaseExpiredHolds now showId db ∧
  Sql.freezeHeldSeats showId userId db = Prisma.freezeHeldSeats showId userId db ∧
  Sql.approveOrder now orderId adminId db = Prisma.approveOrder now orderId adminId db ∧
  Sql.rejectOrder orderId adminId db = Prisma.rejectOrder orderId adminId db.
Proof.
  split.
  - intros -> _ Hmins _. by apply toggleSeat_agree.
  - auto using releaseExpiredHolds_agree, freezeHeldSeats_agree,
      approveOrder_agree, rejectOrder_agree.
Qed.

Lemma implementations_agree_witness :
  Sql.toggleSeat 1000 1 "A1" "u1" 10 db_gala =
    Prisma.toggleSeat 1000 1000 1 "A1" "u1" 10 db_gala ∧
  (Prisma.toggleSeat 1000 1000 1 "A1" "u1" 10 db_gala).1 = Returned toggle_held.
Proof.
  split.
  - apply (proj1 (implementations_agree 1000 1000 1 1 10 "A1" "u1" "operator"
                    db_gala)).
    + reflexivity.
    + lia.
    + unfold int_range. lia.
    + unfold valid_date. lia.
  - vm_compute. reflexivity.
Defined.

(** C10 as stated fails: for 2147483648 minutes on an available seat the
    Prisma implementation takes the hold, its expiry a valid date, while the
    SQL one throws on [make_interval] and rolls back. *)
Lemma toggleSeat_interval_counterexample :
  valid_date (1000 + 2147483648 * 60 * 1000) ∧
  Prisma.toggleSeat 1000 1000 1 "A1" "u1" 2147483648 db_gala =
    (Returned toggle_held,
     with_seats
       (<[(1, "A1") := {| status := held; held_by := Some "u1";
                          hold_until := Some (1000 + 2147483648 * 60 * 1000);
                          buyer_id := None |}]>) db_gala) ∧
  Sql.toggleSeat 1000 1 "A1" "u1" 2147483648 db_gala =
    (Thrown "value out of range for type integer", db_gala) ∧
  Sql.toggleSeat 1000 1 "A1" "u1" 2147483648 db_gala ≠
    Prisma.toggleSeat 1000 1000 1 "A1" "u1" 2147483648 db_gala.
Proof.
  split; [unfold valid_date; lia|].
  split; [vm_compute; reflexivity|].
  split; [vm_compute; reflexivity|].
  vm_compute. intros [=].
Qed.

(** ** C8: a price update *)

Lemma with_shows_insert (sid : Z) (set_show : ShowRecord → ShowRecord) (sh : ShowRecord)
    (db : DB) :
  shows db !! sid = Some sh →
  with_shows (update_unique sid set_show) db = with_shows (insert sid (set_show sh)) db.
Proof.
  intros Hsh. unfold with_shows, update_unique. f_equal.
  apply map_eq. intros i. destruct (decide (i = sid)) as [->|Hne].
  - by rewrite lookup_alter_eq, lookup_insert_eq, Hsh.
  - by rewrite lookup_alter_ne, lookup_insert_ne.
Qed.

(** A field accepted with a bound of 0 or more is a finite number whose
    integer part is its floor. *)
Lemma parseNumberField_floor (to_number : Admin.FormEntry → Admin.JsNumber)
    (formData : string → option Admin.FormEntry) (name : string) (min z : Z) :
  0 ≤ min →
  Admin.form_floor to_number formData name = Some z → min ≤ z →
  ∃ n, Admin.parseNumberField to_number (formData name) (Some min) = Returned n ∧
       Admin.isFinite n = true ∧ Admin.truncated n = z.
Proof.
  unfold Admin.form_floor, Admin.parseNumberField. intros Hmin Hz Hle.
  destruct (formData name) as [v|]; [|done].
  destruct (to_number v) as [| | |i|f] eqn:Hv; simplify_eq; simpl.
  - rewrite bool_decide_eq_false_2 by lia. eauto.
  - rewrite bool_decide_eq_false_2 by lia. eexists. split; [done|]. split; [done|].
    simpl. by rewrite bool_decide_eq_true_2 by lia.
Qed.

Lemma parseNumberField_floor_returned (to_number : Admin.FormEntry → Admin.JsNumber)
    (formData : string → option Admin.FormEntry) (name : string) (min : Z)
    (n : Admin.JsNumber) :
  0 ≤ min →
  Admin.parseNumberField to_number (formData name) (Some min) = Returned n →
  ∃ z, Admin.form_floor to_number formData name = Some z ∧ min ≤ z ∧
       Admin.isFinite n = true ∧ Admin.truncated n = z.
Proof.
  unfold Admin.parseNumberField, Admin.form_floor. intros Hmin.
  destruct (formData name) as [v|]; [|done].
  destruct (to_number v) as [| | |i|f]; simpl; try done;
    case_bool_decide; intros [= <-]; eexists; (split; [done|]); simpl.
  - split; [lia|done].
  - rewrite bool_decide_eq_true_2 by lia. split; [lia|done].
Qed.

Lemma int_column_finite (n : Admin.JsNumber) :
  Admin.isFinite n = true → int_range (Admin.truncated n) →
  Admin.int_column n = Returned (Admin.truncated n).
Proof.
  unfold int_range. intros Hfin Hrange.
  destruct n; try done; unfold Admin.int_column;
    by rewrite (bool_decide_eq_true_2 _ Hrange).
Qed.

Lemma int_column_returned (n : Admin.JsNumber) (z : Z) :
  Admin.int_column n = Returned z →
  Admin.isFinite n = true ∧ z = Admin.truncated n ∧ int_range z.
Proof.
  unfold int_range, Admin.int_column.
  destruct n; try done; case_bool_decide; intros [= <-]; done.
Qed.

(** Either the action throws and nothing is written, or the form names an
    existing show whose price is replaced. *)
Lemma updateShowSettingsAction_cases (to_number : Admin.FormEntry → Admin.JsNumber)
    (authenticated : bool) (formData : string → option Admin.FormEntry) (db : DB) :
  (∃ msg, Admin.updateShowSettingsAction to_number authenticated formData db
          = (Thrown msg, db)) ∨
  (∃ sid p sh,
     Admin.form_floor to_number formData "showId" = Some sid ∧
     Admin.form_floor to_number formData "price" = Some p ∧
     1 ≤ sid ≤ 2147483647 ∧ 0 ≤ p ≤ 2147483647 ∧
     shows db !! sid = Some sh ∧
     Admin.updateShowSettingsAction to_number authenticated formData db =
       (Returned tt,
        with_shows
          (insert sid {| title := title sh; starts_at := starts_at sh;
                         rows := rows sh; cols := cols sh; price := p |}) db)).
Proof.
  unfold Admin.updateShowSettingsAction, Admin.require_admin, Admin.show_update_price,
    mbind, Admin.Outcome_bind.
  destruct authenticated; [|left; eauto].
  destruct (Admin.parseNumberField to_number (formData "showId") (Some 1))
    as [nid|] eqn:Hid; [|left; eauto].
  destruct (Admin.parseNumberField to_number (formData "price") (Some 0))
    as [nprice|] eqn:Hprice; [|left; eauto].
  apply parseNumberField_floor_returned in Hid as (sid & Hsid & ? & _ & Hnid); [|lia].
  apply parseNumberField_floor_returned in Hprice as (p & Hp & ? & _ & Hnprice); [|lia].
  destruct (Admin.int_column nid) as [sid'|] eqn:Hc1; [|left; eauto].
  destruct (Admin.int_column nprice) as [p'|] eqn:Hc2; [|left; eauto].
  apply int_column_returned in Hc1 as (_ & -> & Hr1), Hc2 as (_ & -> & Hr2).
  unfold int_range in Hr1, Hr2. rewrite Hnid in *. rewrite Hnprice in *.
  destruct (shows db !! sid) as [sh|] eqn:Hsh; [|left; eauto].
  right. exists sid, p, sh. repeat split; try done; try lia.
  by rewrite (with_shows_insert _ _ sh).
Qed.

Lemma updateShowSettingsAction_accepted (to_number : Admin.FormEntry → Admin.JsNumber)
    (formData : string → option Admin.FormEntry) (db : DB) sid p sh :
  Admin.form_floor to_number formData "showId" = Some sid →
  Admin.form_floor to_number formData "price" = Some p →
  1 ≤ sid ≤ 2147483647 → 0 ≤ p ≤ 2147483647 →
  shows db !! sid = Some sh →
  Admin.updateShowSettingsAction to_number true formData db =
    (Returned tt,
     with_shows
       (insert sid {| title := title sh; starts_at := starts_at sh;
                      rows := rows sh; cols := cols sh; price := p |}) db).
Proof.
  intros Hsid Hp Hsid32 Hp32 Hsh.
  destruct (parseNumberField_floor to_number formData "showId" 1 sid)
    as (nid & Hid & Hfin1 & Htr1); [lia|done|lia|].
  destruct (parseNumberField_floor to_number formData "price" 0 p)
    as (nprice & Hprice & Hfin2 & Htr2); [lia|done|lia|].
  unfold Admin.updateShowSettingsAction, Admin.require_admin, Admin.show_update_price,
    mbind, Admin.Outcome_bind.
  rewrite Hid, Hprice.
  rewrite !int_column_finite by (try done; unfold int_range; lia).
  rewrite Htr1, Htr2, Hsh. by rewrite (with_shows_insert _ _ sh).
Qed.

(** C8. [updateShowSettingsAction] writes no seat row, no order (the amount
    of every order is what it was) and no session; each show keeps its
    title, start, rows and columns, and a show other than the one the form
    names (the integer part of its [showId]) keeps its price too. When the
    operator is authenticated, the form names an existing show and carries a
    price of 0 or more whose integer part is within the column's range, the
    action returns and that show has the integer part of the price as its
    new price. *)
Theorem updateShowSettingsAction_frame (to_number : Admin.FormEntry → Admin.JsNumber)
    (authenticated : bool) (formData : string → option Admin.FormEntry) (db : DB) :
  let run := Admin.updateShowSettingsAction to_number authenticated formData db in
  seats run.2 = seats db ∧
  orders run.2 = orders db ∧
  (∀ orderId, order_amount <$> orders run.2 !! orderId
              = order_amount <$> orders db !! orderId) ∧
  user_sessions run.2 = user_sessions db ∧
  (∀ sid, shows db !! sid = None → shows run.2 !! sid = None) ∧
  (∀ sid sh, shows db !! sid = Some sh →
     ∃ p, shows run.2 !! sid =
            Some {| title := title sh; starts_at := starts_at sh; rows := rows sh;
                    cols := cols sh; price := p |} ∧
          (Admin.form_floor to_number formData "showId" ≠ Some sid →
           p = price sh)) ∧
  (∀ sid p sh,
     authenticated = true →
     Admin.form_floor to_number formData "showId" = Some sid →
     Admin.form_floor to_number formData "price" = Some p →
     1 ≤ sid ≤ 2147483647 → 0 ≤ p ≤ 2147483647 →
     shows db !! sid = Some sh →
     run = (Returned tt,
            with_shows
              (insert sid {| title := title sh; starts_at := starts_at sh;
                             rows := rows sh; cols := cols sh; price := p |}) db)).
Proof.
  cbv zeta.
  assert (Haccepted : ∀ sid p sh,
     authenticated = true →
     Admin.form_floor to_number formData "showId" = Some sid →
     Admin.form_floor to_number formData "price" = Some p →
     1 ≤ sid ≤ 2147483647 → 0 ≤ p ≤ 2147483647 →
     shows db !! sid = Some sh →
     Admin.updateShowSettingsAction to_number authenticated formData db =
       (Returned tt,
        with_shows
          (insert sid {| title := title sh; starts_at := starts_at sh;
                         rows := rows sh; cols := cols sh; price := p |}) db)).
  { intros sid p sh -> ?????. by apply updateShowSettingsAction_accepted. }
  destruct (updateShowSettingsAction_cases to_number authenticated formData db)
    as [[msg Hrun]|(sid & p & sh & Hsid & _ & _ & _ & Hsh & Hrun)];
    rewrite Hrun in *; cbn [snd seats orders user_sessions shows with_shows].
  - repeat split; try done.
    intros sid sh Hsh. exists (price sh). split; [|done]. rewrite Hsh.
    by destruct sh.
  - repeat split; try done.
    + intros i Hi. rewrite lookup_insert_ne; [done|congruence].
    + intros i shi Hi. destruct (decide (i = sid)) as [->|Hne].
      * rewrite lookup_insert_eq. simplify_eq. exists p. split; [done|]. congruence.
      * rewrite lookup_insert_ne by done. exists (price shi). split; [|done].
        rewrite Hi. by destruct shi.
Qed.

Lemma updateShowSettingsAction_frame_witness :
  Admin.updateShowSettingsAction sample_to_number true form_new_price
    db_show_with_order
  = (Returned tt,
     with_shows
       (insert 1 {| title := "Gala"; starts_at := 1893528000000; rows := 2;
                    cols := 2; price := 300000 |}) db_show_with_order).
Proof.
  refine (proj2 (proj2 (proj2 (proj2 (proj2 (proj2
    (updateShowSettingsAction_frame sample_to_number true form_new_price
       db_show_with_order))))))
    1 300000
    {| title := "Gala"; starts_at := 1893528000000; rows := 2; cols := 2;
       price := 1 |} eq_refl eq_refl eq_refl _ _ eq_refl); lia.
Defined.

(** ** C9: creating a show and seeding its seats *)

Lemma length_bind_const {A B} (f : A → list B) (n : nat) (l : list A) :
  (∀ x, length (f x) = n) → length (l ≫= f) = (length l * n)%nat.
Proof.
  intros Hf. induction l as [|x l IH]; [done|].
  rewrite bind_cons, length_app, Hf, IH. simpl. lia.
Qed.

Lemma slice0_nonneg (l : list ascii) (n : Z) :
  0 ≤ n → slice0 l n = take (Z.to_nat n) l.
Proof. intros Hn. unfold slice0. by rewrite bool_decide_eq_false_2 by lia. Qed.

Lemma alphabet_NoDup : NoDup alphabet.
Proof. apply (bool_decide_unpack _). vm_compute. exact I. Qed.

Lemma grid_codes_length (nrows ncols : Z) :
  0 ≤ nrows → 0 ≤ ncols →
  Z.of_nat (length (grid_codes nrows ncols)) = Z.min nrows 26 * ncols.
Proof.
  intros Hr Hc. unfold grid_codes.
  rewrite (length_bind_const _ (Z.to_nat ncols)).
  - rewrite slice0_nonneg, length_take by done.
    change (length alphabet) with 26%nat. nia.
  - intros letter. rewrite (length_bind_const _ 1%nat) by done.
    rewrite length_seqZ. lia.
Qed.

Lemma grid_codes_elem (nrows ncols : Z) (code : string) :
  0 ≤ nrows →
  code ∈ grid_codes nrows ncols ↔
  ∃ (i : nat) (letter : ascii) (col : Z),
    alphabet !! i = Some letter ∧ Z.of_nat i < nrows ∧ 1 ≤ col ≤ ncols ∧
    code = String letter (pretty col).
Proof.
  intros Hr. unfold grid_codes. rewrite list_elem_of_bind. split.
  - intros (letter & Hcode & Hletter).
    apply list_elem_of_bind in Hcode as (col & Hcode & Hcol).
    apply list_elem_of_singleton in Hcode. apply elem_of_seqZ in Hcol.
    rewrite slice0_nonneg in Hletter by done.
    apply elem_of_take in Hletter as (i & Hi & Hlt).
    exists i, letter, col. repeat split; try done; lia.
  - intros (i & letter & col & Hi & Hlt & Hcol & ->). exists letter. split.
    + apply list_elem_of_bind. exists col. split.
      * by apply list_elem_of_singleton.
      * apply elem_of_seqZ. lia.
    + rewrite slice0_nonneg by done. apply elem_of_take. exists i. split; [done|lia].
Qed.

Lemma grid_codes_NoDup (nrows ncols : Z) : NoDup (grid_codes nrows ncols).
Proof.
  unfold grid_codes. apply NoDup_bind.
  - intros l1 l2 code _ _ H1 H2.
    apply list_elem_of_bind in H1 as (c1 & H1 & _).
    apply list_elem_of_bind in H2 as (c2 & H2 & _).
    apply list_elem_of_singleton in H1, H2. unfold seat_code_of in *. congruence.
  - intros letter _. apply NoDup_bind.
    + intros c1 c2 code _ _ H1 H2.
      apply list_elem_of_singleton in H1, H2. unfold seat_code_of in *.
      assert (Hpretty : pretty c1 = pretty c2) by congruence.
      by apply (inj pretty) in Hpretty.
    + intros col _. apply NoDup_singleton.
    + apply NoDup_seqZ.
  - unfold slice0. case_bool_decide;
      (eapply sublist_NoDup; [apply alphabet_NoDup|apply sublist_take]).
Qed.

Section Seeding.
Context {K : Type} `{Countable K} {V : Type}.

Lemma seeded_lookup (keys : list K) (v0 : V) (t : gmap K V) (k : K) :
  insert_skip_duplicates ((λ key, (key, v0)) <$> keys) t !! k =
  match t !! k with
  | Some v => Some v
  | None => if decide (k ∈ keys) then Some v0 else None
  end.
Proof.
  unfold insert_skip_duplicates. revert t.
  induction keys as [|key keys IH]; intros t; simpl.
  - destruct (t !! k); [done|]. by rewrite ?decide_False by apply not_elem_of_nil.
  - rewrite IH, insert_new_lookup. simpl.
    destruct (t !! k) as [v|]; [done|].
    destruct (decide (k = key)) as [->|Hne].
    + by rewrite decide_True by apply list_elem_of_here.
    + destruct (decide (k ∈ keys)) as [Hin|Hnin].
      * by rewrite decide_True by (by apply list_elem_of_further).
      * rewrite decide_False; [done|].
        intros Hin. apply elem_of_cons in Hin as [?|?]; done.
Qed.

Lemma seeded_size (keys : list K) (v0 : V) (t : gmap K V) :
  NoDup keys → (∀ k, k ∈ keys → t !! k = None) →
  size (insert_skip_duplicates ((λ key, (key, v0)) <$> keys) t)
  = (size t + length keys)%nat.
Proof.
  unfold insert_skip_duplicates. intros Hnd. revert t.
  induction Hnd as [|key keys Hnotin Hnd IH]; intros t Hfresh; simpl; [lia|].
  rewrite IH.
  - unfold insert_new; simpl. rewrite (Hfresh key) by apply list_elem_of_here.
    rewrite map_size_insert_None by (apply Hfresh, list_elem_of_here). lia.
  - intros k Hk. rewrite insert_new_lookup; simpl.
    rewrite (Hfresh k) by (by apply list_elem_of_further).
    rewrite decide_False; [done|]. intros ->. done.
Qed.

End Seeding.

Lemma seedSeats_seats (showId nrows ncols : Z) (db : DB) :
  seats (Prisma.seedSeats showId nrows ncols db) =
  insert_skip_duplicates
    ((λ key, (key, seat_defaults)) <$> ((λ code, (showId, code)) <$> grid_codes nrows ncols))
    (seats db).
Proof.
  unfold Prisma.seedSeats, Prisma.seat_create_defaults. simpl.
  case_bool_decide as Hlen; [done|].
  destruct (grid_codes nrows ncols); [done|]. simpl in Hlen. lia.
Qed.

Lemma parseNumberField_integer (to_number : Admin.FormEntry → Admin.JsNumber)
    (formData : string → option Admin.FormEntry) (name : string) (min z : Z) :
  Admin.form_integer to_number formData name = Some z → min ≤ z →
  Admin.parseNumberField to_number (formData name) (Some min)
  = Returned (Admin.Integer z).
Proof.
  unfold Admin.form_integer, Admin.parseNumberField. intros Hz Hmin.
  destruct (formData name) as [v|]; [|done].
  destruct (to_number v); try done. simplify_eq. simpl.
  by rewrite bool_decide_eq_false_2 by lia.
Qed.

Lemma int_column_in_range (z : Z) :
  -2147483648 ≤ z ≤ 2147483647 → Admin.int_column (Admin.Integer z) = Returned z.
Proof. intros Hz. unfold Admin.int_column. by rewrite bool_decide_eq_true_2. Qed.

(** An accepted form: the show row is written under the next id and the
    seats are seeded for it. *)
Lemma createShowAction_accepted (to_number : Admin.FormEntry → Admin.JsNumber)
    (trim : string → string) (parse_date : string → option Z)
    (formData : string → option Admin.FormEntry) (db : DB)
    (t raw : string) (startsAt r c p : Z) :
  formData "title" = Some (Admin.entry_string t) →
  String.length (trim t) ≠ 0%nat →
  formData "startsAt" = Some (Admin.entry_string raw) →
  String.length raw ≠ 0%nat →
  parse_date raw = Some startsAt →
  Admin.form_integer to_number formData "rows" = Some r →
  Admin.form_integer to_number formData "cols" = Some c →
  Admin.form_integer to_number formData "price" = Some p →
  1 ≤ r ≤ 2147483647 → 1 ≤ c ≤ 2147483647 → 0 ≤ p ≤ 2147483647 →
  shows db !! shows_seq db = None →
  Admin.createShowAction to_number trim parse_date true formData db =
  (Returned tt,
   Prisma.seedSeats (shows_seq db) r c
     {| shows := <[shows_seq db := {| title := trim t; starts_at := startsAt;
                                      rows := r; cols := c; price := p |}]> (shows db);
        shows_seq := shows_seq db + 1; seats := seats db; orders := orders db;
        orders_seq := orders_seq db; user_sessions := user_sessions db |}).
Proof.
  intros Ht Htrim Hraw Hrawlen Hdate Hr Hc Hp Hr32 Hc32 Hp32 Hfresh.
  unfold Admin.createShowAction, Admin.createShow_checks, Admin.require_admin.
  unfold mbind at 1, Admin.Outcome_bind at 1.
  rewrite (parseNumberField_integer _ _ _ _ _ Hr) by lia.
  rewrite (parseNumberField_integer _ _ _ _ _ Hc) by lia.
  rewrite (parseNumberField_integer _ _ _ _ _ Hp) by lia.
  unfold mbind, Admin.Outcome_bind. rewrite Ht, Hraw, Hdate.
  rewrite !bool_decide_eq_false_2 by done.
  unfold Admin.show_create, mbind, Admin.Outcome_bind.
  rewrite !int_column_in_range by lia. by rewrite Hfresh.
Qed.

(** C9, amended. For a form accepted by validation (rows and columns at
    least 1, price at least 0, all three integers of the column's range, a
    title and a valid start), with the next show id unused, [createShowAction]
    writes one show row under that id and seeds the seats of the first
    min(rows, 26) rows: the seat codes are the row letter (A, B, ... in the
    order of the alphabet, rows beyond Z have none) followed by the column
    number in decimal, for the columns 1 to cols; each is available with no
    holder, expiry or buyer; that is min(rows, 26) x cols new seat rows, and
    the seats of the other shows are untouched. *)
Theorem createShowAction_seeds (to_number : Admin.FormEntry → Admin.JsNumber)
    (trim : string → string) (parse_date : string → option Z)
    (formData : string → option Admin.FormEntry) (db : DB)
    (t raw : string) (startsAt r c p : Z) :
  formData "title" = Some (Admin.entry_string t) →
  String.length (trim t) ≠ 0%nat →
  formData "startsAt" = Some (Admin.entry_string raw) →
  String.length raw ≠ 0%nat →
  parse_date raw = Some startsAt →
  Admin.form_integer to_number formData "rows" = Some r →
  Admin.form_integer to_number formData "cols" = Some c →
  Admin.form_integer to_number formData "price" = Some p →
  1 ≤ r ≤ 2147483647 → 1 ≤ c ≤ 2147483647 → 0 ≤ p ≤ 2147483647 →
  shows db !! shows_seq db = None →
  (∀ code, seats db !! (shows_seq db, code) = None) →
  let new_id := shows_seq db in
  let run := Admin.createShowAction to_number trim parse_date true formData db in
  run.1 = Returned tt ∧
  shows run.2 =
    <[new_id := {| title := trim t; starts_at := startsAt; rows := r; cols := c;
                   price := p |}]> (shows db) ∧
  (∀ code, is_Some (seats run.2 !! (new_id, code)) ↔
     ∃ (i : nat) (letter : ascii) (col : Z),
       alphabet !! i = Some letter ∧ Z.of_nat i < r ∧ 1 ≤ col ≤ c ∧
       code = String letter (pretty col)) ∧
  (∀ code s, seats run.2 !! (new_id, code) = Some s →
     s = {| status := available; held_by := None; hold_until := None;
            buyer_id := None |}) ∧
  (∀ k, k.1 ≠ new_id → seats run.2 !! k = seats db !! k) ∧
  Z.of_nat (size (seats run.2)) = Z.of_nat (size (seats db)) + Z.min r 26 * c.
Proof.
  intros Ht Htrim Hraw Hrawlen Hdate Hr Hc Hp Hr32 Hc32 Hp32 Hfresh Hnoseats.
  cbv zeta.
  rewrite (createShowAction_accepted _ _ _ _ _ _ _ _ _ _ _
             Ht Htrim Hraw Hrawlen Hdate Hr Hc Hp Hr32 Hc32 Hp32 Hfresh).
  cbn [fst snd]. rewrite seedSeats_seats. cbn [seats].
  split; [done|]. split.
  { unfold Prisma.seedSeats. by case_bool_decide. }
  assert (Hkey : ∀ code,
    (shows_seq db, code) ∈ (λ code, (shows_seq db, code)) <$> grid_codes r c
    ↔ code ∈ grid_codes r c).
  { intros code. rewrite list_elem_of_fmap. split.
    - intros (code' & [= ->] & Hin). done.
    - intros Hin. eauto. }
  split; [|split; [|split]].
  - intros code. rewrite seeded_lookup, Hnoseats.
    rewrite <- grid_codes_elem by lia. rewrite <- Hkey.
    case_decide; split; try done; try by intros [? ?].
  - intros code s. rewrite seeded_lookup, Hnoseats.
    case_decide; [|done]. by intros [= <-].
  - intros [sid code] Hne. simpl in Hne. rewrite seeded_lookup.
    destruct (seats db !! (sid, code)); [done|].
    rewrite decide_False; [done|].
    rewrite list_elem_of_fmap. intros (code' & [= -> ->] & _). done.
  - rewrite seeded_size.
    + rewrite length_fmap, Nat2Z.inj_add, grid_codes_length by lia. done.
    + apply NoDup_fmap_2; [|apply grid_codes_NoDup]. intros x y [=]. done.
    + intros [sid code]. rewrite list_elem_of_fmap.
      intros (code' & [= -> ->] & _). apply Hnoseats.
Qed.

Lemma createShowAction_seeds_witness :
  (Admin.createShowAction sample_to_number sample_trim sample_parse_date true
     form_2_by_2 empty_db).1 = Returned tt ∧
  Z.of_nat (size (seats (Admin.createShowAction sample_to_number sample_trim
                           sample_parse_date true form_2_by_2 empty_db).2))
  = Z.of_nat (size (seats empty_db)) + Z.min 2 26 * 2.
Proof.
  pose proof (createShowAction_seeds sample_to_number sample_trim sample_parse_date
    form_2_by_2 empty_db "Gala" "2030-01-01T20:00" 1893528000000 2 2 1
    eq_refl ltac:(discriminate) eq_refl ltac:(discriminate) eq_refl
    eq_refl eq_refl eq_refl ltac:(lia) ltac:(lia) ltac:(lia)
    eq_refl ltac:(intros; reflexivity)) as (Hret & _ & _ & _ & _ & Hsize).
  exact (conj Hret Hsize).
Defined.

(** C9 as stated fails beyond 26 rows: a form with 27 rows of one seat is
    accepted, the show row records 27 rows, and 26 seat rows are seeded, not
    27 x 1; no seat exists for a 27th row. *)
Lemma createShowAction_rows_counterexample :
  Admin.form_integer sample_to_number form_27_rows "rows" = Some 27 ∧
  Admin.form_integer sample_to_number form_27_rows "cols" = Some 1 ∧
  (Admin.createShowAction sample_to_number sample_trim sample_parse_date true
     form_27_rows empty_db).1 = Returned tt ∧
  (rows <$> shows (Admin.createShowAction sample_to_number sample_trim
                     sample_parse_date true form_27_rows empty_db).2 !! 1) = Some 27 ∧
  size (seats (Admin.createShowAction sample_to_number sample_trim
                 sample_parse_date true form_27_rows empty_db).2) = 26%nat ∧
  Z.of_nat 26 ≠ 27 * 1.
Proof. repeat split; try (vm_compute; reflexivity). lia. Qed.

(** * Further properties of the storage layer *)

(** ** The stored seat list *)

Lemma split_comma_not_nil (s : string) : split_comma s ≠ [].
Proof.
  induction s as [|c rest IH]; simpl; [done|].
  destruct (Ascii.eqb c ","); [done|]. by destruct (split_comma rest).
Qed.

Lemma split_comma_comma_free (s : string) :
  Forall (λ piece, comma_free piece = true) (split_comma s).
Proof.
  induction s as [|c rest IH]; simpl; [by repeat constructor|].
  destruct (Ascii.eqb c ",") eqn:Hc; [by constructor|].
  destruct (split_comma rest) as [|piece pieces]; [by repeat constructor; simpl; rewrite Hc|].
  inversion IH as [|? ? Hpiece Hpieces]; subst.
  constructor; [|done]. simpl. by rewrite Hc.
Qed.

Lemma split_comma_piece (piece rest : string) :
  comma_free piece = true →
  split_comma (piece +:+ String ","%char rest) = piece :: split_comma rest.
Proof.
  induction piece as [|c piece IH]; intros Hfree; simpl in *; [done|].
  apply andb_prop in Hfree as [Hc Hfree]. apply negb_true_iff in Hc.
  rewrite Hc. by rewrite IH.
Qed.

Lemma split_comma_single (piece : string) :
  comma_free piece = true → split_comma piece = [piece].
Proof.
  induction piece as [|c piece IH]; intros Hfree; simpl in *; [done|].
  apply andb_prop in Hfree as [Hc Hfree]. apply negb_true_iff in Hc.
  rewrite Hc. by rewrite IH.
Qed.

Lemma split_comma_join (code : string) (codes : list string) :
  Forall (λ c, comma_free c = true) (code :: codes) →
  split_comma (join_seats (code :: codes)) = code :: codes.
Proof.
  revert code. induction codes as [|next codes IH]; intros code Hall.
  - simpl. apply split_comma_single. by inversion Hall.
  - inversion Hall as [|? ? Hcode Hrest]; subst.
    change (join_seats (code :: next :: codes))
      with (code +:+ String ","%char (join_seats (next :: codes))).
    by rewrite split_comma_piece, IH.
Qed.

Lemma split_seats_storable (text : string) : Forall storable_code (split_seats text).
Proof.
  unfold split_seats. apply Forall_forall. intros piece Hin.
  apply list_elem_of_In in Hin. apply filter_In in Hin as [Hin Hne]. split.
  - by apply bool_decide_eq_true_1 in Hne.
  - pose proof (split_comma_comma_free text) as Hfree.
    rewrite Forall_forall in Hfree. apply Hfree. by apply list_elem_of_In.
Qed.

Lemma split_seats_join_seats (codes : list string) :
  Forall storable_code codes → split_seats (join_seats codes) = codes.
Proof.
  intros Hall. unfold split_seats. destruct codes as [|code codes]; [done|].
  rewrite split_comma_join.
  - apply forallb_filter_id. apply forallb_forall. intros c Hc.
    apply list_elem_of_In in Hc. rewrite Forall_forall in Hall.
    apply bool_decide_eq_true_2. by apply Hall.
  - eapply Forall_impl; [exact Hall|]. by intros c [_ ?].
Qed.

(** X1. The seat list of an order or a session is stored joined by commas
    and read back by splitting and dropping the empty pieces: it is read
    back as it was written exactly when every code is non-empty and has no
    comma. *)
Theorem seat_list_round_trip (codes : list string) :
  split_seats (join_seats codes) = codes ↔ Forall storable_code codes.
Proof.
  split.
  - intros Hback. rewrite <- Hback. apply split_seats_storable.
  - apply split_seats_join_seats.
Qed.

Lemma seat_list_round_trip_witness :
  split_seats (join_seats ["A1"; "B12"]) = ["A1"; "B12"].
Proof.
  apply (proj2 (seat_list_round_trip ["A1"; "B12"])).
  repeat constructor; done.
Defined.

(** ** Creating and reading an order *)

(** X2. For a show that exists, an amount within the range of its integer
    column and an id sequence within the range of the key, [createOrder]
    returns the next value of the id sequence and moves the sequence on;
    [getOrder] on that id returns the order, pending, with the user, show
    and amount given and the seat list as it reads back from storage, which
    is the list given when its codes are storable. No seat, show or session
    is written and no other order changes. *)
Theorem createOrder_getOrder (now : Z) (userId : string) (showId : Z)
    (codes : list string) (amt : Z) (receiptType : ReceiptType) (receiptRef : string)
    (db : DB) :
  is_Some (shows db !! showId) →
  int_range amt →
  int_range (orders_seq db) →
  let created := Prisma.createOrder now userId showId codes amt receiptType receiptRef db in
  created.1 = orders_seq db ∧
  orders_seq created.2 = orders_seq db + 1 ∧
  Prisma.getOrder created.1 created.2 =
    Some {| id := created.1; user_id := userId; show_id := showId;
            seats_of := split_seats (join_seats codes); amount := amt;
            order_state := "pending" |} ∧
  (Forall storable_code codes →
     seats_of <$> Prisma.getOrder created.1 created.2 = Some codes) ∧
  seats created.2 = seats db ∧ shows created.2 = shows db ∧
  user_sessions created.2 = user_sessions db ∧
  (∀ other, other ≠ created.1 → orders created.2 !! other = orders db !! other).
Proof.
  intros _ _ _.
  cbv zeta. unfold Prisma.createOrder, Prisma.getOrder. cbn [fst snd orders].
  rewrite lookup_insert_eq. repeat split; try done.
  - intros Hall. simpl. f_equal. by apply split_seats_join_seats.
  - intros other Hne. by rewrite lookup_insert_ne.
Qed.

Lemma createOrder_getOrder_witness :
  is_Some (shows db_show_with_order !! 1) ∧
  int_range 500000 ∧
  int_range (orders_seq db_show_with_order) ∧
  seats_of <$> Prisma.getOrder
                 (Prisma.createOrder 5 "u1" 1 ["A1"; "A2"] 500000 photo "file-1"
                    db_show_with_order).1
                 (Prisma.createOrder 5 "u1" 1 ["A1"; "A2"] 500000 photo "file-1"
                    db_show_with_order).2
  = Some ["A1"; "A2"].
Proof.
  assert (Hshow : is_Some (shows db_show_with_order !! 1))
    by (vm_compute; eexists; reflexivity).
  assert (Hamount : int_range 500000) by (unfold int_range; lia).
  assert (Hseq : int_range (orders_seq db_show_with_order))
    by (vm_compute; split; discriminate).
  split; [exact Hshow|]. split; [exact Hamount|]. split; [exact Hseq|].
  apply (proj1 (proj2 (proj2 (proj2
    (createOrder_getOrder 5 "u1" 1 ["A1"; "A2"] 500000 photo "file-1"
       db_show_with_order Hshow Hamount Hseq))))).
  repeat constructor; done.
Defined.

(** ** Settlement beyond the seats *)

Lemma settled_db_order set_seat new_status paidAt orderId adminId o db :
  orders db !! orderId = Some o →
  orders (settled_db set_seat new_status paidAt orderId adminId o db) !! orderId
  = Some (set_settled new_status paidAt adminId o).
Proof.
  intros Ho. cbn [orders settled_db]. unfold update_unique.
  by rewrite lookup_alter_eq, Ho.
Qed.

Lemma settled_db_other_order set_seat new_status paidAt orderId adminId o db other :
  other ≠ orderId →
  orders (settled_db set_seat new_status paidAt orderId adminId o db) !! other
  = orders db !! other.
Proof.
  intros Hne. cbn [orders settled_db]. unfold update_unique.
  by rewrite lookup_alter_ne.
Qed.

Lemma settled_db_unlisted_seat set_seat new_status paidAt orderId adminId o db k :
  ¬ (k.1 = order_show_id o ∧ k.2 ∈ split_seats (order_seats o)) →
  seats (settled_db set_seat new_status paidAt orderId adminId o db) !! k
  = seats db !! k.
Proof.
  intros Hn. cbn [seats settled_db]. rewrite update_where_lookup.
  destruct (seats db !! k) as [s|]; simpl; [|done].
  destruct (_ && _) eqn:Hc; [|done]. destruct Hn.
  apply andb_prop in Hc as [H1 H2]. by apply bool_decide_eq_true_1 in H1, H2.
Qed.

(** X3. A pending order that is approved has its row set to approved with
    the settlement instant and the operator, and one that is rejected to
    rejected with the operator and no settlement instant written; in both
    cases the session of the order's user is deleted, and nothing else
    changes: the other orders, the other sessions, the shows, the id
    sequences, and every seat that is not of the order's show and seat
    list. *)
Theorem settle_pending_frame (now orderId : Z) (adminId : string) (db : DB)
    (o : OrderRow) :
  orders db !! orderId = Some o →
  order_status o = "pending" →
  let approved := Prisma.approveOrder now orderId adminId db in
  let rejected := Prisma.rejectOrder orderId adminId db in
  (approved.1 =
     Returned (Some {| id := orderId; user_id := order_user_id o;
                       show_id := order_show_id o;
                       seats_of := split_seats (order_seats o);
                       amount := order_amount o; order_state := "approved" |}) ∧
   rejected.1 =
     Returned (Some {| id := orderId; user_id := order_user_id o;
                       show_id := order_show_id o;
                       seats_of := split_seats (order_seats o);
                       amount := order_amount o; order_state := "rejected" |})) ∧
  (∃ o', orders approved.2 !! orderId = Some o' ∧
         order_status o' = "approved" ∧ order_paid_at o' = Some now ∧
         order_admin_id o' = Some adminId ∧
         order_fixed_part o' = order_fixed_part o) ∧
  (∃ o', orders rejected.2 !! orderId = Some o' ∧
         order_status o' = "rejected" ∧ order_paid_at o' = order_paid_at o ∧
         order_admin_id o' = Some adminId ∧
         order_fixed_part o' = order_fixed_part o) ∧
  (∀ after, after = approved.2 ∨ after = rejected.2 →
     (∀ other, other ≠ orderId → orders after !! other = orders db !! other) ∧
     user_sessions after !! order_user_id o = None ∧
     (∀ u, u ≠ order_user_id o → user_sessions after !! u = user_sessions db !! u) ∧
     (∀ k, ¬ (k.1 = order_show_id o ∧ k.2 ∈ split_seats (order_seats o)) →
        seats after !! k = seats db !! k) ∧
     shows after = shows db ∧ shows_seq after = shows_seq db ∧
     orders_seq after = orders_seq db).
Proof.
  intros Ho Hst. cbv zeta.
  rewrite (approveOrder_pending _ _ _ _ _ Ho Hst), (rejectOrder_pending _ _ _ _ Ho Hst).
  cbn [fst snd]. split; [done|]. split; [|split].
  - eexists. split; [by apply settled_db_order|]. done.
  - eexists. split; [by apply settled_db_order|]. done.
  - intros after [-> | ->]; (split; [|split; [|split; [|split]]]).
    all: try (intros other Hne; by apply settled_db_other_order).
    all: try (cbn [user_sessions settled_db]; apply lookup_delete_eq).
    all: try (intros u Hne; cbn [user_sessions settled_db]; by apply lookup_delete_ne).
    all: try (intros k Hk; by apply settled_db_unlisted_seat).
    all: done.
Qed.

Lemma settle_pending_frame_witness :
  (order_status <$> orders (Prisma.approveOrder 12 2 "operator" db_two_receipts).2 !! 2)
    = Some "approved" ∧
  seats (Prisma.approveOrder 12 2 "operator" db_two_receipts).2 !! (1, "B7")
    = seats db_two_receipts !! (1, "B7").
Proof.
  pose proof (settle_pending_frame 12 2 "operator" db_two_receipts
    {| order_user_id := "u1"; order_show_id := 1; order_seats := "A1";
       order_amount := 250000; order_receipt_type := text;
       order_receipt_ref := "second receipt"; order_status := "pending";
       order_created_at := 6; order_paid_at := None; order_admin_id := None |}
    eq_refl eq_refl) as (_ & (o' & Ho' & Hst' & _) & _ & Hframe).
  split.
  - by rewrite Ho', <- Hst'.
  - apply (Hframe _ (or_introl eq_refl)).
    intros [_ Hin]. simpl in Hin. apply list_elem_of_In in Hin. simpl in Hin.
    destruct Hin as [[=]|[]].
Defined.

(** X4. Settlement happens once: after a pending order has been approved,
    every later approval or rejection of it, by any operator at any time,
    returns the order as approved and changes nothing; after it has been
    rejected, every later approval or rejection returns it as rejected and
    changes nothing. *)
Theorem settle_exactly_once (now now' orderId : Z) (adminId adminId' : string)
    (db : DB) (o : OrderRow) :
  orders db !! orderId = Some o →
  order_status o = "pending" →
  let approved := (Prisma.approveOrder now orderId adminId db).2 in
  let rejected := (Prisma.rejectOrder orderId adminId db).2 in
  let as_settled (st : string) :=
    Some {| id := orderId; user_id := order_user_id o; show_id := order_show_id o;
            seats_of := split_seats (order_seats o); amount := order_amount o;
            order_state := st |} in
  Prisma.approveOrder now' orderId adminId' approved
    = (Returned (as_settled "approved"), approved) ∧
  Prisma.rejectOrder orderId adminId' approved
    = (Returned (as_settled "approved"), approved) ∧
  Prisma.approveOrder now' orderId adminId' rejected
    = (Returned (as_settled "rejected"), rejected) ∧
  Prisma.rejectOrder orderId adminId' rejected
    = (Returned (as_settled "rejected"), rejected).
Proof.
  intros Ho Hst. cbv zeta.
  rewrite (approveOrder_pending _ _ _ _ _ Ho Hst), (rejectOrder_pending _ _ _ _ Ho Hst).
  cbn [snd].
  pose proof (settled_db_order (set_sold (order_user_id o)) "approved" (Some now)
                orderId adminId o db Ho) as Ha.
  pose proof (settled_db_order set_released "rejected" None orderId adminId o db Ho)
    as Hr.
  repeat split.
  - by rewrite (approveOrder_settled _ _ _ _ _ Ha).
  - by rewrite (rejectOrder_settled _ _ _ _ Ha).
  - by rewrite (approveOrder_settled _ _ _ _ _ Hr).
  - by rewrite (rejectOrder_settled _ _ _ _ Hr).
Qed.

Lemma settle_exactly_once_witness :
  Prisma.rejectOrder 2 "someone else"
    (Prisma.approveOrder 12 2 "operator" db_two_receipts).2
  = (Returned (Some {| id := 2; user_id := "u1"; show_id := 1; seats_of := ["A1"];
                       amount := 250000; order_state := "approved" |}),
     (Prisma.approveOrder 12 2 "operator" db_two_receipts).2).
Proof.
  exact (proj1 (proj2 (settle_exactly_once 12 99 2 "operator" "someone else"
    db_two_receipts
    {| order_user_id := "u1"; order_show_id := 1; order_seats := "A1";
       order_amount := 250000; order_receipt_type := text;
       order_receipt_ref := "second receipt"; order_status := "pending";
       order_created_at := 6; order_paid_at := None; order_admin_id := None |}
    eq_refl eq_refl))).
Defined.

(** ** The life of an order *)

(** What one call of a core operation can do to the order table: nothing,
    add a pending order under the next id, or settle one pending order. *)
Lemma step_orders db db' :
  step db db' →
  (orders db' = orders db ∧ orders_seq db' = orders_seq db) ∨
  (∃ row, orders db' = <[orders_seq db := row]> (orders db) ∧
          orders_seq db' = orders_seq db + 1 ∧ order_status row = "pending") ∨
  (∃ orderId o st paidAt adminId,
     orders db !! orderId = Some o ∧ order_status o = "pending" ∧
     (st = "approved" ∨ st = "rejected") ∧
     orders db' = alter (set_settled st paidAt adminId) orderId (orders db) ∧
     orders_seq db' = orders_seq db).
Proof.
  intros Hstep. destruct Hstep.
  - left. unfold Prisma.seedSeats. by case_bool_decide.
  - left. destruct (seats db !! (showId, seatCode)) as [s|] eqn:Hs.
    + by rewrite (toggleSeat_found _ _ _ _ _ _ _ s Hs).
    + by rewrite (toggleSeat_absent _ _ _ _ _ _ _ Hs).
  - by left.
  - by left.
  - right. left. eexists. by repeat split.
  - destruct (orders db !! orderId) as [o|] eqn:Ho;
      [destruct (decide (order_status o = "pending")) as [Hst|Hst]|].
    + right. right. rewrite (approveOrder_pending _ _ _ _ _ Ho Hst).
      exists orderId, o, "approved", (Some now), adminId. repeat split; auto.
    + left. by rewrite (approveOrder_settled _ _ _ _ _ Ho Hst).
    + left. by rewrite (approveOrder_absent _ _ _ _ Ho).
  - destruct (orders db !! orderId) as [o|] eqn:Ho;
      [destruct (decide (order_status o = "pending")) as [Hst|Hst]|].
    + right. right. rewrite (rejectOrder_pending _ _ _ _ Ho Hst).
      exists orderId, o, "rejected", None, adminId. repeat split; auto.
    + left. by rewrite (rejectOrder_settled _ _ _ _ Ho Hst).
    + left. by rewrite (rejectOrder_absent _ _ _ Ho).
Qed.

Lemma reachable_orders_below_seq db : reachable db → orders_below_seq db.
Proof.
  revert db.
  apply (rtc_ind_r (λ d, orders_below_seq d) empty_db).
  - intros orderId o. cbn. by rewrite lookup_empty.
  - intros db1 db2 _ Hstep IH orderId o.
    destruct (step_orders _ _ Hstep)
      as [[-> ->]|[(row & -> & -> & _)|(oid & o0 & st & paid & adm & _ & _ & _ & -> & ->)]].
    + apply IH.
    + destruct (decide (orderId = orders_seq db1)) as [->|Hne]; [lia|].
      rewrite lookup_insert_ne by done. intros Ho. specialize (IH _ _ Ho). lia.
    + destruct (decide (orderId = oid)) as [->|Hne].
      * rewrite lookup_alter_eq. destruct (orders db1 !! oid) as [o1|] eqn:Ho1; [|done].
        intros _. exact (IH _ _ Ho1).
      * rewrite lookup_alter_ne by done. apply IH.
Qed.

(** X5. In a reachable database one call of any core operation keeps every
    order: its user, show, stored seat list, amount, receipt and creation
    instant are never rewritten, no order is overwritten by a new one, an
    order that is not pending stays exactly as it is, and the status of a
    pending order either stays or becomes approved or rejected. *)
Theorem order_lifecycle (db db' : DB) (orderId : Z) (o : OrderRow) :
  reachable db →
  step db db' →
  orders db !! orderId = Some o →
  ∃ o', orders db' !! orderId = Some o' ∧
        order_fixed_part o' = order_fixed_part o ∧
        (order_status o ≠ "pending" → o' = o) ∧
        (order_status o' = order_status o ∨
         order_status o = "pending" ∧
         (order_status o' = "approved" ∨ order_status o' = "rejected")).
Proof.
  intros Hreach Hstep Ho.
  pose proof (reachable_orders_below_seq _ Hreach _ _ Ho) as Hbelow.
  destruct (step_orders _ _ Hstep)
    as [[-> _]|[(row & -> & _ & _)|(oid & o0 & st & paid & adm & Ho0 & Hpend & Hst & -> & _)]].
  - exists o. auto.
  - exists o. rewrite lookup_insert_ne by lia. auto.
  - destruct (decide (orderId = oid)) as [->|Hne].
    + rewrite lookup_alter_eq, Ho. simplify_eq. eexists. split; [done|].
      split; [done|]. split; [done|]. right. split; [done|].
      destruct Hst as [-> | ->]; auto.
    + rewrite lookup_alter_ne by done. exists o. auto.
Qed.

Lemma order_lifecycle_witness :
  ∃ o', orders (Prisma.rejectOrder 1 "operator" db_two_receipts).2 !! 1 = Some o' ∧
        order_status o' = "approved" ∧ order_seats o' = "A1".
Proof.
  assert (Hlookup : orders db_two_receipts !! 1 =
    Some {| order_user_id := "u1"; order_show_id := 1; order_seats := "A1";
            order_amount := 250000; order_receipt_type := text;
            order_receipt_ref := "first receipt"; order_status := "approved";
            order_created_at := 5; order_paid_at := Some 9;
            order_admin_id := Some "operator" |}) by (vm_compute; reflexivity).
  destruct (order_lifecycle db_two_receipts
              (Prisma.rejectOrder 1 "operator" db_two_receipts).2 1 _
              db_two_receipts_reachable
              (step_rejectOrder 1 "operator" db_two_receipts) Hlookup)
    as (o' & Ho' & _ & Hsame & _).
  exists o'. split; [exact Ho'|].
  rewrite (Hsame ltac:(discriminate)). split; reflexivity.
Defined.

(** ** What the seat operations never do *)

Lemma toggleSeat_seats_found now now_hold showId seatCode userId holdMinutes db s k :
  seats db !! (showId, seatCode) = Some s →
  seats (Prisma.toggleSeat now now_hold showId seatCode userId holdMinutes db).2 !! k
  = if decide (k = (showId, seatCode))
    then Some (toggle_row now_hold userId holdMinutes (reconciled now s)).2
    else seats db !! k.
Proof.
  intros Hs. rewrite (toggleSeat_found _ _ _ _ _ _ _ s Hs). cbn [snd seats with_seats].
  case_decide as Hk; [subst; apply lookup_insert_eq|by rewrite lookup_insert_ne].
Qed.

Lemma toggle_row_sold now_hold userId holdMinutes now s :
  status s = sold →
  (toggle_row now_hold userId holdMinutes (reconciled now s)).2 = s.
Proof.
  intros Hsold. rewrite reconciled_status by (rewrite ?Hsold; unfold reconciled;
    case_decide as Hl; [destruct Hl; congruence|congruence]).
  unfold toggle_row. by rewrite (bool_decide_eq_true_2 (status s = sold)).
Qed.

(** X6. A sold seat is out of reach of the seat operations: whatever their
    arguments and the clock, [toggleSeat], [releaseExpiredHolds],
    [freezeHeldSeats] and [seedSeats] leave the row of a sold seat exactly
    as it is, and a toggle aimed at it answers [sold]. *)
Theorem sold_seat_untouched (db : DB) (k : Z * string) (s : SeatRecord)
    (now now_hold showId holdMinutes nrows ncols : Z) (seatCode userId : string) :
  seats db !! k = Some s →
  status s = sold →
  seats (Prisma.toggleSeat now now_hold showId seatCode userId holdMinutes db).2 !! k
    = Some s ∧
  ((showId, seatCode) = k →
     (Prisma.toggleSeat now now_hold showId seatCode userId holdMinutes db).1
       = Returned toggle_sold) ∧
  seats (Prisma.releaseExpiredHolds now showId db) !! k = Some s ∧
  seats (Prisma.freezeHeldSeats showId userId db) !! k = Some s ∧
  seats (Prisma.seedSeats showId nrows ncols db) !! k = Some s.
Proof.
  intros Hk Hsold. repeat split.
  - destruct (seats db !! (showId, seatCode)) as [s0|] eqn:Hs0.
    + rewrite (toggleSeat_seats_found _ _ _ _ _ _ _ s0) by done.
      case_decide as Heq; [|done]. subst k. simplify_eq.
      by rewrite toggle_row_sold.
    + by rewrite (toggleSeat_absent _ _ _ _ _ _ _ Hs0).
  - intros <-. rewrite (toggleSeat_found _ _ _ _ _ _ _ s Hk). cbn [fst].
    rewrite reconciled_status.
    + unfold toggle_row. by rewrite (bool_decide_eq_true_2 (status s = sold)).
    + unfold reconciled. case_decide as Hl; [destruct Hl|]; congruence.
  - unfold Prisma.releaseExpiredHolds. cbn [seats with_seats].
    rewrite update_where_lookup, Hk. simpl.
    rewrite (bool_decide_eq_false_2 (status s = held)) by congruence.
    by rewrite andb_false_r.
  - unfold Prisma.freezeHeldSeats. cbn [seats with_seats].
    rewrite update_where_lookup, Hk. simpl.
    rewrite (bool_decide_eq_false_2 (status s = held)) by congruence.
    by rewrite andb_false_r.
  - by rewrite seedSeats_seats, seeded_lookup, Hk.
Qed.

Lemma sold_seat_untouched_witness :
  seats (Prisma.toggleSeat 50 50 1 "A1" "u2" 10 db_two_receipts).2 !! (1, "A1")
    = Some {| status := sold; held_by := None; hold_until := None;
              buyer_id := Some "u1" |} ∧
  (Prisma.toggleSeat 50 50 1 "A1" "u2" 10 db_two_receipts).1 = Returned toggle_sold.
Proof.
  pose proof (sold_seat_untouched db_two_receipts (1, "A1")
    {| status := sold; held_by := None; hold_until := None; buyer_id := Some "u1" |}
    50 50 1 10 1 1 "A1" "u2" eq_refl eq_refl) as (Hrow & Hret & _).
  exact (conj Hrow (Hret eq_refl)).
Defined.

(** X7. Seeding writes new rows only: every seat row that exists keeps its
    status, holder, expiry and buyer when [seedSeats] runs, for its own show
    or another, and seeding the same grid a second time changes nothing. *)
Theorem seedSeats_keeps_rows (showId nrows ncols : Z) (db : DB) :
  (∀ k s, seats db !! k = Some s →
     seats (Prisma.seedSeats showId nrows ncols db) !! k = Some s) ∧
  Prisma.seedSeats showId nrows ncols (Prisma.seedSeats showId nrows ncols db)
    = Prisma.seedSeats showId nrows ncols db.
Proof.
  split.
  - intros k s Hk. by rewrite seedSeats_seats, seeded_lookup, Hk.
  - set (db1 := Prisma.seedSeats showId nrows ncols db).
    assert (Hseats : seats (Prisma.seedSeats showId nrows ncols db1) = seats db1).
    { rewrite seedSeats_seats. apply map_eq. intros k. rewrite seeded_lookup.
      destruct (seats db1 !! k) as [s|] eqn:Hk; [done|].
      case_decide as Hin; [|done]. exfalso. revert Hk. subst db1.
      rewrite seedSeats_seats, seeded_lookup.
      destruct (seats db !! k); [done|]. by rewrite decide_True. }
    unfold Prisma.seedSeats at 1. case_bool_decide; [|done].
    rewrite <- (with_seats_const db1 (seats db1) eq_refl) at 2.
    apply with_seats_eq. fold (Prisma.seedSeats showId nrows ncols db1) in Hseats.
    rewrite <- Hseats at 2. rewrite seedSeats_seats. done.
Qed.

(** ** Holds and the clock *)

(** X8. Reverting lapsed holds twice is reverting them once at the later
    instant: for [now1 <= now2], [releaseExpiredHolds] at [now1] followed by
    [releaseExpiredHolds] at [now2] leaves the database [releaseExpiredHolds]
    at [now2] alone leaves; in particular the operation is idempotent. *)
Theorem releaseExpiredHolds_absorbs (now1 now2 showId : Z) (db : DB) :
  now1 ≤ now2 →
  Prisma.releaseExpiredHolds now2 showId (Prisma.releaseExpiredHolds now1 showId db)
  = Prisma.releaseExpiredHolds now2 showId db.
Proof.
  intros Hle. unfold Prisma.releaseExpiredHolds, with_seats. simpl. f_equal.
  apply map_eq. intros k. rewrite !update_where_lookup.
  destruct (seats db !! k) as [s|]; simpl; [|done]. f_equal.
  destruct (bool_decide (k.1 = showId)); simpl; [|done].
  destruct (bool_decide (status s = held)) eqn:Hheld; simpl.
  - unfold filter_lt. destruct (hold_until s) as [t|] eqn:Ht; simpl.
    + destruct (decide (t < now1)).
      * rewrite (bool_decide_eq_true_2 (t < now1)) by done. simpl.
        by rewrite (bool_decide_eq_true_2 (t < now2)) by lia.
      * rewrite (bool_decide_eq_false_2 (t < now1)) by done.
        by rewrite Hheld, Ht.
    + by rewrite Hheld, Ht.
  - by rewrite Hheld.
Qed.

Lemma releaseExpiredHolds_absorbs_witness :
  Prisma.releaseExpiredHolds 700000 1 (Prisma.releaseExpiredHolds 5 1 db_timed_hold)
  = Prisma.releaseExpiredHolds 700000 1 db_timed_hold.
Proof. apply releaseExpiredHolds_absorbs. lia. Defined.

Lemma seedSeats_keeps_rows_witness :
  seats (Prisma.seedSeats 1 2 2 db_two_receipts) !! (1, "A1")
  = Some {| status := sold; held_by := None; hold_until := None;
            buyer_id := Some "u1" |}.
Proof.
  exact (proj1 (seedSeats_keeps_rows 1 2 2 db_two_receipts) (1, "A1") _ eq_refl).
Defined.

(** X9. Once a user's holds are frozen they outlive the clock: for a seat
    held by the user (a non-empty identifier) when [freezeHeldSeats] runs,
    [releaseExpiredHolds] at any later instant leaves it held by that user
    with no expiry, and a toggle by any other user, at any instant, answers
    [held-by-other] and changes nothing. *)
Theorem frozen_hold_stays (showId now now_hold holdMinutes : Z)
    (seatCode userId otherId : string) (db : DB) (s : SeatRecord) :
  seats db !! (showId, seatCode) = Some s →
  status s = held →
  held_by s = Some userId →
  userId ≠ EmptyString →
  otherId ≠ userId →
  let frozen := Prisma.freezeHeldSeats showId userId db in
  seats frozen !! (showId, seatCode) =
    Some {| status := held; held_by := Some userId; hold_until := None;
            buyer_id := buyer_id s |} ∧
  seats (Prisma.releaseExpiredHolds now showId frozen) !! (showId, seatCode) =
    Some {| status := held; held_by := Some userId; hold_until := None;
            buyer_id := buyer_id s |} ∧
  Prisma.toggleSeat now now_hold showId seatCode otherId holdMinutes frozen
    = (Returned toggle_held_by_other, frozen).
Proof.
  intros Hs Hheld Hby Hnonempty Hother. cbv zeta.
  assert (Hfrozen : seats (Prisma.freezeHeldSeats showId userId db) !! (showId, seatCode)
            = Some {| status := held; held_by := Some userId; hold_until := None;
                      buyer_id := buyer_id s |}).
  { unfold Prisma.freezeHeldSeats. cbn [seats with_seats].
    rewrite update_where_lookup, Hs. simpl. unfold strict_eq.
    rewrite !bool_decide_eq_true_2 by done. simpl. unfold set_frozen.
    by rewrite Hheld, Hby. }
  split; [exact Hfrozen|]. split.
  - unfold Prisma.releaseExpiredHolds at 1. cbn [seats with_seats].
    rewrite update_where_lookup, Hfrozen. simpl. by rewrite andb_false_r.
  - rewrite (toggleSeat_found _ _ _ _ _ _ _ _ Hfrozen).
    rewrite reconciled_status by done.
    unfold toggle_row, truthy, strict_eq. cbn [status held_by].
    rewrite (bool_decide_eq_false_2 (held = sold)) by done.
    rewrite (bool_decide_eq_true_2 (held = held)) by done.
    rewrite (bool_decide_eq_true_2 (userId ≠ EmptyString)) by done.
    rewrite (bool_decide_eq_false_2 (Some userId = Some otherId)) by congruence.
    cbn [andb negb fst snd]. by rewrite (with_seats_insert_id _ _ _ Hfrozen).
Qed.

Lemma frozen_hold_stays_witness :
  seats (Prisma.releaseExpiredHolds 99999999 1
           (Prisma.freezeHeldSeats 1 "u1" db_timed_hold)) !! (1, "A1") =
    Some {| status := held; held_by := Some "u1"; hold_until := None;
            buyer_id := None |} ∧
  Prisma.toggleSeat 99999999 99999999 1 "A1" "u2" 10
    (Prisma.freezeHeldSeats 1 "u1" db_timed_hold)
    = (Returned toggle_held_by_other, Prisma.freezeHeldSeats 1 "u1" db_timed_hold).
Proof.
  pose proof (frozen_hold_stays 1 99999999 99999999 10 "A1" "u1" "u2" db_timed_hold
    {| status := held; held_by := Some "u1"; hold_until := Some 600000;
       buyer_id := None |}
    eq_refl eq_refl eq_refl ltac:(discriminate) ltac:(discriminate))
    as (_ & Hrelease & Htoggle).
  exact (conj Hrelease Htoggle).
Defined.

(** X10. A hold that has lapsed is anyone's: toggling a seat whose status is
    held with an expiry strictly before the clock, for a hold whose own
    expiry is a valid date, answers [held] and leaves the seat held by the
    caller with a fresh expiry, whoever held it; when the caller is the
    former holder the seat is taken again, not released. *)
Theorem lapsed_hold_taken (now now_hold showId holdMinutes expiry : Z)
    (seatCode userId : string) (db : DB) (s : SeatRecord) :
  seats db !! (showId, seatCode) = Some s →
  status s = held →
  hold_until s = Some expiry →
  expiry < now →
  valid_date (now_hold + holdMinutes * 60 * 1000) →
  Prisma.toggleSeat now now_hold showId seatCode userId holdMinutes db =
  (Returned toggle_held,
   with_seats
     (insert (showId, seatCode)
        {| status := held; held_by := Some userId;
           hold_until := Some (now_hold + holdMinutes * 60 * 1000);
           buyer_id := buyer_id s |}) db).
Proof.
  intros Hs Hheld Huntil Hlt _.
  rewrite (toggleSeat_found _ _ _ _ _ _ _ s Hs).
  assert (Hrec : reconciled now s = set_released s).
  { unfold reconciled. rewrite decide_True; [done|]. split; eauto. }
  rewrite Hrec. by rewrite toggle_row_available.
Qed.

Lemma lapsed_hold_taken_witness :
  valid_date (600001 + 10 * 60 * 1000) ∧
  Prisma.toggleSeat 600001 600001 1 "A1" "u1" 10 db_timed_hold =
  (Returned toggle_held,
   with_seats
     (insert (1, "A1")
        {| status := held; held_by := Some "u1"; hold_until := Some 1200001;
           buyer_id := None |}) db_timed_hold).
Proof.
  assert (Hdate : valid_date (600001 + 10 * 60 * 1000)) by (unfold valid_date; lia).
  split; [exact Hdate|].
  apply (lapsed_hold_taken 600001 600001 1 10 600000 "A1" "u1" db_timed_hold
           {| status := held; held_by := Some "u1"; hold_until := Some 600000;
              buyer_id := None |} eq_refl eq_refl eq_refl); [lia|exact Hdate].
Defined.

(** X11. Toggling a seat that has no row throws "Seat not found" in both
    implementations and leaves the database as it was, lapsed holds of other
    seats included: the reverting statement of the transaction is limited to
    the seat named. *)
Theorem toggleSeat_missing_seat (now now_hold showId holdMinutes : Z)
    (seatCode userId : string) (db : DB) :
  seats db !! (showId, seatCode) = None →
  Prisma.toggleSeat now now_hold showId seatCode userId holdMinutes db
    = (Thrown "Seat not found", db) ∧
  Sql.toggleSeat now showId seatCode userId holdMinutes db
    = (Thrown "Seat not found", db).
Proof.
  intros Hnone. split.
  - by apply toggleSeat_absent.
  - by apply sql_toggleSeat_absent.
Qed.

Lemma toggleSeat_missing_seat_witness :
  Prisma.toggleSeat 700000 700000 1 "C1" "u2" 10 db_timed_hold
    = (Thrown "Seat not found", db_timed_hold) ∧
  Sql.toggleSeat 700000 1 "C1" "u2" 10 db_timed_hold
    = (Thrown "Seat not found", db_timed_hold).
Proof. exact (toggleSeat_missing_seat 700000 700000 1 10 "C1" "u2" db_timed_hold eq_refl). Defined.

(** ** Reading the seats: [heldSeats] and [seatStatusMap] *)

(** The rows of an updated table come out in the order of the rows of the
    table, each rewritten or not. *)
Lemma map_to_list_update_where {K} `{Countable K} {V}
    (cond : K → V → bool) (set : V → V) (t : gmap K V) :
  map_to_list (update_where cond set t)
  = (λ kv, (kv.1, if cond kv.1 kv.2 then set kv.2 else kv.2)) <$> map_to_list t.
Proof.
  set (F := λ k v, if cond k v then set v else v).
  set (both := map_imap (λ k v, Some (v, F k v)) t).
  assert (Hold : t = fst <$> both).
  { apply map_eq. intros k. unfold both. rewrite lookup_fmap, map_lookup_imap.
    by destruct (t !! k). }
  assert (Hnew : update_where cond set t = snd <$> both).
  { apply map_eq. intros k. unfold both.
    rewrite update_where_lookup, lookup_fmap, map_lookup_imap.
    by destruct (t !! k). }
  rewrite Hnew. rewrite Hold at 1. rewrite !map_to_list_fmap, <- list_fmap_compose.
  apply Forall_fmap_ext, Forall_forall. intros [k [v v']] Hin.
  apply elem_of_map_to_list in Hin. unfold both in Hin.
  rewrite map_lookup_imap in Hin. destruct (t !! k) as [v0|]; [|done].
  simpl in Hin. by simplify_eq.
Qed.

Lemma filter_fmap_same_test {A B} (g : A → A) (test : A → bool) (proj : A → B)
    (l : list A) :
  Forall (λ x, test (g x) = test x ∧ proj (g x) = proj x) l →
  proj <$> List.filter test (g <$> l) = proj <$> List.filter test l.
Proof.
  induction 1 as [|x l [Htest Hproj] _ IH]; [done|].
  cbn [fmap list_fmap List.filter]. rewrite Htest.
  destruct (test x); cbn [fmap list_fmap]; by rewrite ?Hproj, IH.
Qed.

Lemma held_rows_elem (showId : Z) (userId code : string)
    (t : gmap (Z * string) SeatRecord) :
  code ∈ (λ kv : Z * string * SeatRecord, kv.1.2) <$>
         List.filter
           (λ kv : Z * string * SeatRecord,
              bool_decide (kv.1.1 = showId) && strict_eq (held_by kv.2) userId
              && bool_decide (status kv.2 = held))
           (map_to_list t)
  ↔ ∃ s, t !! (showId, code) = Some s ∧ status s = held ∧ held_by s = Some userId.
Proof.
  rewrite list_elem_of_fmap. split.
  - intros ([[sid c] s] & -> & Hin). apply list_elem_of_In, filter_In in Hin as [Hin Htest].
    apply list_elem_of_In, elem_of_map_to_list in Hin. simpl in *.
    apply andb_prop in Htest as [Htest Hheld]. apply andb_prop in Htest as [Hshow Hby].
    unfold strict_eq in Hby. apply bool_decide_eq_true_1 in Hshow, Hheld, Hby.
    subst. eauto.
  - intros (s & Hs & Hheld & Hby). exists (showId, code, s). split; [done|].
    apply list_elem_of_In, filter_In. split.
    + by apply list_elem_of_In, elem_of_map_to_list.
    + simpl. unfold strict_eq. by rewrite !bool_decide_eq_true_2.
Qed.

Lemma heldSeats_elem (collation : string → string → Prop) `{!RelDecision collation}
    (showId : Z) (userId code : string) (db : DB) :
  code ∈ Prisma.heldSeats collation showId userId db ↔
  ∃ s, seats db !! (showId, code) = Some s ∧ status s = held ∧
       held_by s = Some userId.
Proof.
  unfold Prisma.heldSeats. rewrite merge_sort_Permutation. apply held_rows_elem.
Qed.

#[global] Instance bytewise_le_total : Total bytewise_le.
Proof. intros a b. apply String.leb_total. Qed.

(** X12. [heldSeats] lists, each once and in the order of the collation, the
    codes of exactly the seats of the show whose status is held and whose
    holder is the user; frozen holds are listed like timed ones, and a hold
    that has lapsed but has not been reverted yet is still listed. *)
Theorem heldSeats_exact (collation : string → string → Prop)
    `{!RelDecision collation} (Htotal : Total collation)
    (showId : Z) (userId : string) (db : DB) :
  (∀ code, code ∈ Prisma.heldSeats collation showId userId db ↔
     ∃ s, seats db !! (showId, code) = Some s ∧ status s = held ∧
          held_by s = Some userId) ∧
  NoDup (Prisma.heldSeats collation showId userId db) ∧
  Sorted collation (Prisma.heldSeats collation showId userId db).
Proof.
  unfold Prisma.heldSeats. split; [|split].
  - intros code. rewrite merge_sort_Permutation. apply held_rows_elem.
  - rewrite merge_sort_Permutation.
    apply NoDup_fmap_2_strong;
      [|apply NoDup_ListNoDup, List.NoDup_filter, NoDup_ListNoDup, NoDup_map_to_list].
    intros [[sid1 c1] s1] [[sid2 c2] s2] H1 H2 Hc. simpl in Hc. subst c2.
    apply list_elem_of_In, filter_In in H1 as [H1 T1].
    apply list_elem_of_In, filter_In in H2 as [H2 T2].
    apply list_elem_of_In, elem_of_map_to_list in H1, H2. simpl in *.
    repeat (apply andb_prop in T1 as [T1 ?]). repeat (apply andb_prop in T2 as [T2 ?]).
    apply bool_decide_eq_true_1 in T1, T2. subst. congruence.
  - by apply Sorted_merge_sort.
Qed.

Lemma heldSeats_exact_witness :
  "A1" ∈ Prisma.heldSeats bytewise_le 1 "u1" db_frozen_and_timed ∧
  Sorted bytewise_le (Prisma.heldSeats bytewise_le 1 "u1" db_frozen_and_timed).
Proof.
  pose proof (heldSeats_exact bytewise_le bytewise_le_total 1 "u1" db_frozen_and_timed)
    as (Helem & _ & Hsorted).
  split; [|exact Hsorted].
  apply Helem. eexists. split; [reflexivity|]. split; reflexivity.
Defined.

(** X13. Confirming a selection: the list [heldSeats] gives before
    [freezeHeldSeats] is the list it gives after, whatever the collation, and
    after the freeze every seat of the list is held by the user with no
    expiry. *)
Theorem heldSeats_then_freeze (collation : string → string → Prop)
    `{!RelDecision collation} (showId : Z) (userId : string) (db : DB) :
  let selection := Prisma.heldSeats collation showId userId db in
  let frozen := Prisma.freezeHeldSeats showId userId db in
  Prisma.heldSeats collation showId userId frozen = selection ∧
  (∀ code, code ∈ selection →
     ∃ s, seats db !! (showId, code) = Some s ∧
          seats frozen !! (showId, code) =
            Some {| status := held; held_by := Some userId; hold_until := None;
                    buyer_id := buyer_id s |}).
Proof.
  cbv zeta. split.
  - unfold Prisma.heldSeats, Prisma.freezeHeldSeats. cbn [seats with_seats].
    rewrite map_to_list_update_where. f_equal.
    apply filter_fmap_same_test, Forall_forall. intros [[sid c] s] _. simpl.
    split; [|done].
    destruct (bool_decide (sid = showId) && strict_eq (held_by s) userId
              && bool_decide (status s = held)) eqn:Htest; simpl; exact Htest.
  - intros code Hin.
    apply heldSeats_elem in Hin as (s & Hs & Hheld & Hby). exists s. split; [done|].
    unfold Prisma.freezeHeldSeats. cbn [seats with_seats].
    rewrite update_where_lookup, Hs. simpl. unfold strict_eq.
    rewrite !bool_decide_eq_true_2 by done. simpl. unfold set_frozen.
    by rewrite Hheld, Hby.
Qed.

Lemma heldSeats_then_freeze_witness :
  ∃ s, seats db_timed_hold !! (1, "A1") = Some s ∧
       seats (Prisma.freezeHeldSeats 1 "u1" db_timed_hold) !! (1, "A1") =
         Some {| status := held; held_by := Some "u1"; hold_until := None;
                 buyer_id := buyer_id s |}.
Proof.
  apply (proj2 (heldSeats_then_freeze bytewise_le 1 "u1" db_timed_hold) "A1").
  apply heldSeats_elem.
  eexists. split; [reflexivity|]. split; reflexivity.
Defined.

Lemma foldl_insert_lookup {A K V} `{Countable K} (g : A → K) (h : A → V)
    (l : list A) (m : gmap K V) (c : K) (r : V) :
  NoDup (g <$> l) →
  foldl (λ acc x, <[g x := h x]> acc) m l !! c = Some r ↔
  (∃ x, x ∈ l ∧ g x = c ∧ h x = r) ∨ (¬ (c ∈ (g <$> l)) ∧ (m !! c) = Some r).
Proof.
  revert m. induction l as [|x l IH]; intros m Hnd.
  - simpl. split; [intros Hm; right; split; [apply not_elem_of_nil|done]|].
    intros [(x & Hx & _)|[_ Hm]]; [by apply not_elem_of_nil in Hx|done].
  - cbn [fmap list_fmap] in Hnd. apply NoDup_cons in Hnd as [Hx Hnd].
    cbn [foldl]. rewrite IH by done. cbn [fmap list_fmap]. split.
    + intros [(y & Hy & Hg & Hh)|[Hc Hm]].
      * left. exists y. split; [by apply list_elem_of_further|done].
      * destruct (decide (g x = c)) as [Heq|Hne].
        -- left. exists x. rewrite Heq, lookup_insert_eq in Hm.
           split; [apply list_elem_of_here|]. split; congruence.
        -- right. rewrite lookup_insert_ne in Hm by done. split; [|done].
           intros Hin. apply elem_of_cons in Hin as [?|?]; [congruence|done].
    + intros [(y & Hy & Hg & Hh)|[Hc Hm]].
      * apply elem_of_cons in Hy as [->|Hy]; [|left; eauto].
        right. split.
        -- intros Hin. apply Hx. by rewrite Hg.
        -- by rewrite Hg, lookup_insert_eq, Hh.
      * right. split.
        -- intros Hin. apply Hc. by apply list_elem_of_further.
        -- rewrite lookup_insert_ne; [done|]. intros Heq. apply Hc.
           rewrite <- Heq. apply list_elem_of_here.
Qed.

Lemma show_rows_NoDup (showId : Z) (t : gmap (Z * string) SeatRecord) :
  NoDup ((λ kv : Z * string * SeatRecord, kv.1.2) <$>
         List.filter (λ kv : Z * string * SeatRecord, bool_decide (kv.1.1 = showId))
           (map_to_list t)).
Proof.
  apply NoDup_fmap_2_strong;
    [|apply NoDup_ListNoDup, List.NoDup_filter, NoDup_ListNoDup, NoDup_map_to_list].
  intros [[sid1 c1] s1] [[sid2 c2] s2] H1 H2 Hc. simpl in Hc. subst c2.
  apply list_elem_of_In, filter_In in H1 as [H1 T1].
  apply list_elem_of_In, filter_In in H2 as [H2 T2].
  apply list_elem_of_In, elem_of_map_to_list in H1, H2. simpl in *.
  apply bool_decide_eq_true_1 in T1, T2. subst. congruence.
Qed.

(** X14. [seatStatusMap] first reverts the lapsed holds of the show, which
    is its only write, and then reports exactly the seats of that show, each
    under its code with its status, holder and buyer as stored and its expiry
    rendered as text; no seat is reported held whose expiry had passed when
    the call was made. *)
Theorem seatStatusMap_reports (toISOString : Z → string) (now showId : Z) (db : DB) :
  let run := Prisma.seatStatusMap toISOString now showId db in
  run.2 = Prisma.releaseExpiredHolds now showId db ∧
  (∀ code,
     run.1 !! code =
     (λ s, {| report_show_id := showId; report_seat_code := code;
              report_status := status s; report_held_by := held_by s;
              report_hold_until := toISOString <$> hold_until s;
              report_buyer_id := buyer_id s |})
     <$> seats run.2 !! (showId, code)) ∧
  (∀ code r, run.1 !! code = Some r → report_status r = held →
     ∃ s, seats db !! (showId, code) = Some s ∧ status s = held ∧
          (hold_until s = None ∨ ∃ t, hold_until s = Some t ∧ now ≤ t)).
Proof.
  cbv zeta. unfold Prisma.seatStatusMap. cbn [fst snd].
  set (db1 := Prisma.releaseExpiredHolds now showId db).
  assert (Hlookup : ∀ code,
     foldl
       (λ acc (kv : Z * string * SeatRecord),
          <[kv.1.2 := {| report_show_id := kv.1.1; report_seat_code := kv.1.2;
                         report_status := status kv.2;
                         report_held_by := held_by kv.2;
                         report_hold_until := toISOString <$> hold_until kv.2;
                         report_buyer_id := buyer_id kv.2 |}]> acc)
       (∅ : gmap string SeatStatusRecord)
       (List.filter (λ kv : Z * string * SeatRecord, bool_decide (kv.1.1 = showId))
          (map_to_list (seats db1))) !! code
     = (λ s, {| report_show_id := showId; report_seat_code := code;
                report_status := status s; report_held_by := held_by s;
                report_hold_until := toISOString <$> hold_until s;
                report_buyer_id := buyer_id s |})
       <$> seats db1 !! (showId, code)).
  { intros code. apply option_eq. intros r.
    rewrite (foldl_insert_lookup (λ kv : Z * string * SeatRecord, kv.1.2))
      by apply show_rows_NoDup.
    rewrite lookup_empty, fmap_Some. split.
    - intros [([[sid c] s] & Hin & Hc & Hr)|[_ ?]]; [|done].
      apply list_elem_of_In, filter_In in Hin as [Hin Hshow].
      apply list_elem_of_In, elem_of_map_to_list in Hin. simpl in *.
      apply bool_decide_eq_true_1 in Hshow. subst. eauto.
    - intros (s & Hs & ->). left. exists (showId, code, s). split; [|done].
      apply list_elem_of_In, filter_In. split.
      + by apply list_elem_of_In, elem_of_map_to_list.
      + simpl. by rewrite bool_decide_eq_true_2. }
  split; [done|]. split; [exact Hlookup|].
  intros code r Hr Hheld. rewrite Hlookup in Hr.
  apply fmap_Some in Hr as (s' & Hs' & ->). simpl in Hheld.
  subst db1. unfold Prisma.releaseExpiredHolds in Hs'. cbn [seats with_seats] in Hs'.
  rewrite update_where_lookup in Hs'.
  destruct (seats db !! (showId, code)) as [s|] eqn:Hs; [|done].
  simpl in Hs'. rewrite (bool_decide_eq_true_2 (showId = showId)) in Hs' by done.
  simpl in Hs'.
  destruct (bool_decide (status s = held)) eqn:Hst; simpl in Hs'.
  - destruct (filter_lt (hold_until s) now) eqn:Hlt; simplify_eq.
    exists s'. apply bool_decide_eq_true_1 in Hst. split; [done|]. split; [done|].
    unfold filter_lt in Hlt. destruct (hold_until s') as [t|]; [|by left].
    right. exists t. split; [done|]. apply bool_decide_eq_false_1 in Hlt. lia.
  - simplify_eq. apply bool_decide_eq_false_1 in Hst. done.
Qed.

Lemma seatStatusMap_reports_witness :
  ∃ s, seats db_timed_hold !! (1, "A1") = Some s ∧ status s = held ∧
       (hold_until s = None ∨ ∃ t, hold_until s = Some t ∧ 600000 ≤ t).
Proof.
  apply (proj2 (proj2 (seatStatusMap_reports (λ _, "2030") 600000 1 db_timed_hold))
           "A1"
           {| report_show_id := 1; report_seat_code := "A1"; report_status := held;
              report_held_by := Some "u1"; report_hold_until := Some "2030";
              report_buyer_id := None |}).
  - vm_compute. reflexivity.
  - reflexivity.
Defined.

(** ** Sessions *)

Lemma join_seats_nonempty (code : string) (codes : list string) :
  code ≠ EmptyString → join_seats (code :: codes) ≠ EmptyString.
Proof.
  intros Hne. destruct code as [|c code]; [done|].
  destruct codes; simpl; done.
Qed.

(** X15. A session whose show, if it names one, exists and whose total, if
    it has one, is within the range of its integer column, written by
    [setUserState], is read back by [getUserState] with its tag, show and
    total as written; a seat list of storable codes is read back as written,
    except that the empty list is read back as no list. The sessions of the
    other users, the seats, the orders and the shows are not written, and
    after [clearUserState] the user has no session. *)
Theorem session_round_trip (now : Z) (st : UserStateRecord) (db : DB) :
  (∀ sid, state_show_id st = Some sid → is_Some (shows db !! sid)) →
  (∀ total, state_total st = Some total → int_range total) →
  let written := Sql.setUserState now st db in
  (∀ codes, state_seats st = Some codes → Forall storable_code codes →
     Sql.getUserState (state_user_id st) written =
       Some {| state_user_id := state_user_id st; state_tag := state_tag st;
               state_show_id := state_show_id st;
               state_seats := match codes with [] => None | _ => Some codes end;
               state_total := state_total st |}) ∧
  (state_seats st = None →
     Sql.getUserState (state_user_id st) written =
       Some {| state_user_id := state_user_id st; state_tag := state_tag st;
               state_show_id := state_show_id st; state_seats := None;
               state_total := state_total st |}) ∧
  (∀ other, other ≠ state_user_id st →
     Sql.getUserState other written = Sql.getUserState other db) ∧
  seats written = seats db ∧ orders written = orders db ∧ shows written = shows db ∧
  Sql.getUserState (state_user_id st) (Sql.clearUserState (state_user_id st) written)
    = None.
Proof.
  intros _ _.
  cbv zeta. unfold Sql.getUserState, Sql.setUserState, Sql.clearUserState.
  cbn [user_sessions with_sessions seats orders shows].
  rewrite lookup_insert_eq. repeat split; try done.
  - intros codes Hcodes Hall. rewrite Hcodes. cbn [fmap option_fmap option_map
      session_state session_show_id session_seats session_total truthy].
    destruct codes as [|code codes].
    + by rewrite bool_decide_eq_false_2 by (intros Hne; by apply Hne).
    + rewrite bool_decide_eq_true_2.
      * do 3 f_equal. by apply split_seats_join_seats.
      * apply join_seats_nonempty. by inversion Hall as [|? ? [? _] _].
  - intros Hnone. by rewrite Hnone.
  - intros other Hne. by rewrite lookup_insert_ne.
  - by rewrite delete_where_user, lookup_delete_eq.
Qed.

Lemma session_round_trip_witness :
  is_Some (shows db_show_with_order !! 1) ∧
  int_range 500000 ∧
  Sql.getUserState "u1"
    (Sql.setUserState 8
       {| state_user_id := "u1"; state_tag := Some "waiting_receipt";
          state_show_id := Some 1; state_seats := Some ["A1"; "A2"];
          state_total := Some 500000 |} db_show_with_order)
  = Some {| state_user_id := "u1"; state_tag := Some "waiting_receipt";
            state_show_id := Some 1; state_seats := Some ["A1"; "A2"];
            state_total := Some 500000 |} ∧
  Sql.getUserState "u1"
    (Sql.setUserState 8
       {| state_user_id := "u1"; state_tag := Some "waiting_receipt";
          state_show_id := Some 1; state_seats := Some [];
          state_total := Some 0 |} db_show_with_order)
  = Some {| state_user_id := "u1"; state_tag := Some "waiting_receipt";
            state_show_id := Some 1; state_seats := None;
            state_total := Some 0 |}.
Proof.
  assert (Hshow : is_Some (shows db_show_with_order !! 1))
    by (vm_compute; eexists; reflexivity).
  assert (Hshows : ∀ sid, Some 1 = Some sid → is_Some (shows db_show_with_order !! sid))
    by (intros sid [= <-]; exact Hshow).
  assert (Hamount : int_range 500000) by (unfold int_range; lia).
  assert (Htotal : ∀ total, Some 500000 = Some total → int_range total)
    by (intros total [= <-]; exact Hamount).
  assert (Hzero : ∀ total, Some 0 = Some total → int_range total)
    by (intros total [= <-]; unfold int_range; lia).
  split; [exact Hshow|]. split; [exact Hamount|]. split.
  - apply (proj1 (session_round_trip 8
      {| state_user_id := "u1"; state_tag := Some "waiting_receipt";
         state_show_id := Some 1; state_seats := Some ["A1"; "A2"];
         state_total := Some 500000 |} db_show_with_order Hshows Htotal)
      ["A1"; "A2"] eq_refl).
    repeat constructor; done.
  - apply (proj1 (session_round_trip 8
      {| state_user_id := "u1"; state_tag := Some "waiting_receipt";
         state_show_id := Some 1; state_seats := Some [];
         state_total := Some 0 |} db_show_with_order Hshows Hzero)
      [] eq_refl).
    constructor.
Defined.



(** ** The operator actions, beyond the claims *)

Lemma approveOrder_returns now orderId adminId db :
  ∃ r, (Prisma.approveOrder now orderId adminId db).1 = Returned r.
Proof.
  destruct (orders db !! orderId) as [o|] eqn:Ho;
    [destruct (decide (order_status o = "pending")) as [Hst|Hst]|].
  - rewrite (approveOrder_pending _ _ _ _ _ Ho Hst). eauto.
  - rewrite (approveOrder_settled _ _ _ _ _ Ho Hst). eauto.
  - rewrite (approveOrder_absent _ _ _ _ Ho). eauto.
Qed.

Lemma rejectOrder_returns orderId adminId db :
  ∃ r, (Prisma.rejectOrder orderId adminId db).1 = Returned r.
Proof.
  destruct (orders db !! orderId) as [o|] eqn:Ho;
    [destruct (decide (order_status o = "pending")) as [Hst|Hst]|].
  - rewrite (rejectOrder_pending _ _ _ _ Ho Hst). eauto.
  - rewrite (rejectOrder_settled _ _ _ _ Ho Hst). eauto.
  - rewrite (rejectOrder_absent _ _ _ Ho). eauto.
Qed.

Lemma order_id_accepted (to_number : Admin.FormEntry → Admin.JsNumber)
    (formData : string → option Admin.FormEntry) (orderId : Z) :
  Admin.form_floor to_number formData "orderId" = Some orderId →
  1 ≤ orderId ≤ 2147483647 →
  (_ ← Admin.require_admin true;
   nid ← Admin.parseNumberField to_number (formData "orderId") (Some 1);
   Admin.int_column nid) = Returned orderId.
Proof.
  intros Hid Hrange. unfold Admin.require_admin, mbind, Admin.Outcome_bind.
  destruct (parseNumberField_floor to_number formData "orderId" 1 orderId)
    as (nid & -> & Hfin & Htr); [lia|done|lia|].
  rewrite int_column_finite by (try done; unfold int_range; lia).
  by rewrite Htr.
Qed.

(** X17. The settlement actions of the dashboard: without an authenticated
    operator they redirect and write nothing; with one, and an order id that
    is a finite number from 1 on whose integer part is within the range of
    the key, they run [approveOrder] or [rejectOrder] on that integer part
    as operator "admin-dashboard" and return normally whatever these return,
    so that an id with no order, or an order already settled, gives neither
    an error nor a change; and whenever an action throws, the database is as
    it was. *)
Theorem settlement_actions (to_number : Admin.FormEntry → Admin.JsNumber)
    (now : Z) (authenticated : bool) (formData : string → option Admin.FormEntry)
    (db : DB) :
  let approve := Admin.approveOrderAction to_number now authenticated formData db in
  let reject := Admin.rejectOrderAction to_number authenticated formData db in
  (authenticated = false →
     approve = (Thrown "NEXT_REDIRECT", db) ∧ reject = (Thrown "NEXT_REDIRECT", db)) ∧
  (∀ orderId,
     authenticated = true →
     Admin.form_floor to_number formData "orderId" = Some orderId →
     1 ≤ orderId ≤ 2147483647 →
     approve = (Returned tt, (Prisma.approveOrder now orderId "admin-dashboard" db).2) ∧
     reject = (Returned tt, (Prisma.rejectOrder orderId "admin-dashboard" db).2) ∧
     ((orders db !! orderId = None ∨
       ∃ o, orders db !! orderId = Some o ∧ order_status o ≠ "pending") →
      approve = (Returned tt, db) ∧ reject = (Returned tt, db))) ∧
  (∀ msg, approve.1 = Thrown msg → approve.2 = db) ∧
  (∀ msg, reject.1 = Thrown msg → reject.2 = db).
Proof.
  cbv zeta. split; [|split; [|split]].
  - intros ->. done.
  - intros orderId -> Hid Hrange.
    unfold Admin.approveOrderAction, Admin.rejectOrderAction.
    rewrite (order_id_accepted _ _ _ Hid Hrange). cbv zeta.
    destruct (approveOrder_returns now orderId "admin-dashboard" db) as [ra Ha].
    destruct (rejectOrder_returns orderId "admin-dashboard" db) as [rr Hr].
    rewrite Ha, Hr. split; [done|]. split; [done|].
    intros [Hnone|(o & Ho & Hst)].
    + by rewrite (approveOrder_absent _ _ _ _ Hnone), (rejectOrder_absent _ _ _ Hnone).
    + by rewrite (approveOrder_settled _ _ _ _ _ Ho Hst),
                 (rejectOrder_settled _ _ _ _ Ho Hst).
  - intros msg. unfold Admin.approveOrderAction.
    destruct (_ ≫= _) as [orderId|msg']; [|done]. cbv zeta.
    destruct (approveOrder_returns now orderId "admin-dashboard" db) as [ra Ha].
    by rewrite Ha.
  - intros msg. unfold Admin.rejectOrderAction.
    destruct (_ ≫= _) as [orderId|msg']; [|done]. cbv zeta.
    destruct (rejectOrder_returns orderId "admin-dashboard" db) as [rr Hr].
    by rewrite Hr.
Qed.

Lemma settlement_actions_witness :
  Admin.approveOrderAction sample_to_number 30 true (form_of [("orderId", "27")])
    db_two_receipts = (Returned tt, db_two_receipts) ∧
  Admin.rejectOrderAction sample_to_number true (form_of [("orderId", "1.5")])
    db_two_receipts = (Returned tt, db_two_receipts) ∧
  Admin.rejectOrderAction sample_to_number true (form_of [("orderId", "2.5")])
    db_two_receipts =
    (Returned tt, (Prisma.rejectOrder 2 "admin-dashboard" db_two_receipts).2).
Proof.
  split; [|split].
  - refine (proj1 (proj2 (proj2 (proj1 (proj2
      (settlement_actions sample_to_number 30 true (form_of [("orderId", "27")])
         db_two_receipts)) 27 eq_refl eq_refl _)) _)); [lia|].
    left. reflexivity.
  - refine (proj2 (proj2 (proj2 (proj1 (proj2
      (settlement_actions sample_to_number 30 true (form_of [("orderId", "1.5")])
         db_two_receipts)) 1 eq_refl eq_refl _)) _)); [lia|].
    right. eexists. split; [reflexivity|]. intros [=].
  - refine (proj1 (proj2 (proj1 (proj2
      (settlement_actions sample_to_number 30 true (form_of [("orderId", "2.5")])
         db_two_receipts)) 2 eq_refl eq_refl _))); lia.
Defined.

Lemma outcome_bind_returned {A B} (m : Outcome A) (k : A → Outcome B) (b : B) :
  m ≫= k = Returned b → ∃ a, m = Returned a ∧ k a = Returned b.
Proof. destruct m as [a|msg]; [eauto|done]. Qed.

Lemma show_create_returned (show_title : string) (startsAt : Z)
    (nrows ncols nprice : Admin.JsNumber) (db : DB) (res : Z * DB) :
  Admin.show_create show_title startsAt nrows ncols nprice db = Returned res →
  int_range (Admin.truncated nrows) ∧ int_range (Admin.truncated ncols) ∧
  int_range (Admin.truncated nprice) ∧
  shows db !! shows_seq db = None.
Proof.
  unfold Admin.show_create. intros Hres.
  apply outcome_bind_returned in Hres as (r & Hr & Hres).
  apply outcome_bind_returned in Hres as (c & Hc & Hres).
  apply outcome_bind_returned in Hres as (p & Hp & Hres).
  apply int_column_returned in Hr as (_ & -> & ?), Hc as (_ & -> & ?),
    Hp as (_ & -> & ?).
  by destruct (shows db !! shows_seq db).
Qed.

Lemma createShow_checks_returned (to_number : Admin.FormEntry → Admin.JsNumber)
    (trim : string → string) (parse_date : string → option Z)
    (authenticated : bool) (formData : string → option Admin.FormEntry)
    (show_title : string) (startsAt : Z) (nrows ncols nprice : Admin.JsNumber) :
  Admin.createShow_checks to_number trim parse_date authenticated formData
    = Returned (show_title, startsAt, nrows, ncols, nprice) →
  authenticated = true ∧
  Admin.parseNumberField to_number (formData "rows") (Some 1) = Returned nrows ∧
  Admin.parseNumberField to_number (formData "cols") (Some 1) = Returned ncols ∧
  Admin.parseNumberField to_number (formData "price") (Some 0) = Returned nprice ∧
  (∃ t, formData "title" = Some (Admin.entry_string t) ∧
        String.length (trim t) ≠ 0%nat) ∧
  (∃ raw, formData "startsAt" = Some (Admin.entry_string raw) ∧
          String.length raw ≠ 0%nat ∧ parse_date raw = Some startsAt).
Proof.
  unfold Admin.createShow_checks. intros Hres.
  apply outcome_bind_returned in Hres as ([] & Hauth & Hres).
  apply outcome_bind_returned in Hres as (nr & Hr & Hres).
  apply outcome_bind_returned in Hres as (nc & Hc & Hres).
  apply outcome_bind_returned in Hres as (np & Hp & Hres).
  destruct authenticated; [|done].
  destruct (formData "title") as [[t|]|]; try done.
  case_bool_decide as Ht; [done|].
  destruct (formData "startsAt") as [[raw|]|]; try done.
  case_bool_decide as Hraw; [done|].
  destruct (parse_date raw) as [at_|] eqn:Hdate; [|done].
  simplify_eq. repeat split; eauto.
Qed.

(** An accepted form, its numbers integers or not: the show row is written
    under the next id with the integer parts of rows, columns and price, and
    the seats are seeded for those rows and columns. *)
Lemma createShowAction_floor_accepted (to_number : Admin.FormEntry → Admin.JsNumber)
    (trim : string → string) (parse_date : string → option Z)
    (formData : string → option Admin.FormEntry) (db : DB)
    (t raw : string) (startsAt r c p : Z) :
  formData "title" = Some (Admin.entry_string t) →
  String.length (trim t) ≠ 0%nat →
  formData "startsAt" = Some (Admin.entry_string raw) →
  String.length raw ≠ 0%nat →
  parse_date raw = Some startsAt →
  Admin.form_floor to_number formData "rows" = Some r →
  Admin.form_floor to_number formData "cols" = Some c →
  Admin.form_floor to_number formData "price" = Some p →
  1 ≤ r ≤ 2147483647 → 1 ≤ c ≤ 2147483647 → 0 ≤ p ≤ 2147483647 →
  shows db !! shows_seq db = None →
  Admin.createShowAction to_number trim parse_date true formData db =
  (Returned tt,
   Prisma.seedSeats (shows_seq db) r c
     {| shows := <[shows_seq db := {| title := trim t; starts_at := startsAt;
                                      rows := r; cols := c; price := p |}]> (shows db);
        shows_seq := shows_seq db + 1; seats := seats db; orders := orders db;
        orders_seq := orders_seq db; user_sessions := user_sessions db |}).
Proof.
  intros Ht Htrim Hraw Hrawlen Hdate Hr Hc Hp Hr32 Hc32 Hp32 Hfresh.
  destruct (parseNumberField_floor to_number formData "rows" 1 r)
    as (nr & Hnr & Hfr & Htr); [lia|done|lia|].
  destruct (parseNumberField_floor to_number formData "cols" 1 c)
    as (nc & Hnc & Hfc & Htc); [lia|done|lia|].
  destruct (parseNumberField_floor to_number formData "price" 0 p)
    as (np & Hnp & Hfp & Htp); [lia|done|lia|].
  unfold Admin.createShowAction, Admin.createShow_checks, Admin.require_admin.
  unfold mbind at 1, Admin.Outcome_bind at 1.
  rewrite Hnr, Hnc, Hnp.
  unfold mbind, Admin.Outcome_bind. rewrite Ht, Hraw, Hdate.
  rewrite !bool_decide_eq_false_2 by done.
  unfold Admin.show_create, mbind, Admin.Outcome_bind.
  rewrite !int_column_finite by (try done; unfold int_range; lia).
  by rewrite Hfresh, Htr, Htc, Htp.
Qed.

(** X18. [createShowAction] returns normally exactly when the operator is
    authenticated, the title is a string that is not empty once trimmed, the
    start is a non-empty string that parses to a date, rows and columns are
    finite numbers from 1 on and the price a finite number from 0 on, the
    integer parts of all three within the range of the integer columns, and
    the next show id is unused; the numbers need not be integers, and the
    show row and the seats are then written for their integer parts; in
    every other case the action throws and the database is as it was. *)
Theorem createShowAction_accepts_iff (to_number : Admin.FormEntry → Admin.JsNumber)
    (trim : string → string) (parse_date : string → option Z)
    (authenticated : bool) (formData : string → option Admin.FormEntry) (db : DB) :
  let run :=
    Admin.createShowAction to_number trim parse_date authenticated formData db in
  (run.1 = Returned tt ↔
   authenticated = true ∧
   (∃ t, formData "title" = Some (Admin.entry_string t) ∧
         String.length (trim t) ≠ 0%nat) ∧
   (∃ raw, formData "startsAt" = Some (Admin.entry_string raw) ∧
           String.length raw ≠ 0%nat ∧ is_Some (parse_date raw)) ∧
   (∃ r c p,
      Admin.form_floor to_number formData "rows" = Some r ∧
      Admin.form_floor to_number formData "cols" = Some c ∧
      Admin.form_floor to_number formData "price" = Some p ∧
      1 ≤ r ≤ 2147483647 ∧ 1 ≤ c ≤ 2147483647 ∧ 0 ≤ p ≤ 2147483647) ∧
   shows db !! shows_seq db = None) ∧
  (∀ t raw startsAt r c p,
     run.1 = Returned tt →
     formData "title" = Some (Admin.entry_string t) →
     formData "startsAt" = Some (Admin.entry_string raw) →
     parse_date raw = Some startsAt →
     Admin.form_floor to_number formData "rows" = Some r →
     Admin.form_floor to_number formData "cols" = Some c →
     Admin.form_floor to_number formData "price" = Some p →
     run.2 =
       Prisma.seedSeats (shows_seq db) r c
         {| shows := <[shows_seq db := {| title := trim t; starts_at := startsAt;
                                          rows := r; cols := c; price := p |}]>
                       (shows db);
            shows_seq := shows_seq db + 1; seats := seats db; orders := orders db;
            orders_seq := orders_seq db; user_sessions := user_sessions db |}) ∧
  (∀ msg, run.1 = Thrown msg → run.2 = db).
Proof.
  cbv zeta.
  assert (Honly :
    (Admin.createShowAction to_number trim parse_date authenticated formData db).1
      = Returned tt →
    authenticated = true ∧
    (∃ t, formData "title" = Some (Admin.entry_string t) ∧
          String.length (trim t) ≠ 0%nat) ∧
    (∃ raw, formData "startsAt" = Some (Admin.entry_string raw) ∧
            String.length raw ≠ 0%nat ∧ is_Some (parse_date raw)) ∧
    (∃ r c p,
       Admin.form_floor to_number formData "rows" = Some r ∧
       Admin.form_floor to_number formData "cols" = Some c ∧
       Admin.form_floor to_number formData "price" = Some p ∧
       1 ≤ r ≤ 2147483647 ∧ 1 ≤ c ≤ 2147483647 ∧ 0 ≤ p ≤ 2147483647) ∧
    shows db !! shows_seq db = None).
  { unfold Admin.createShowAction.
    destruct (Admin.createShow_checks _ _ _ _ _)
      as [[[[[show_title startsAt] nr] nc] np]|msg] eqn:Hchecks; [|done].
    destruct (Admin.show_create _ _ _ _ _ _) as [[new_id db1]|msg] eqn:Hcreate;
      [|done].
    intros _.
    apply createShow_checks_returned
      in Hchecks as (Hauth & Hr & Hc & Hp & Htitle & (raw & Hraw & Hlen & Hdate)).
    apply show_create_returned in Hcreate as (Hr32 & Hc32 & Hp32 & Hfresh).
    apply parseNumberField_floor_returned in Hr as (r & Hr & Hr1 & _ & Htr); [|lia].
    apply parseNumberField_floor_returned in Hc as (c & Hc & Hc1 & _ & Htc); [|lia].
    apply parseNumberField_floor_returned in Hp as (p & Hp & Hp0 & _ & Htp); [|lia].
    unfold int_range in *. rewrite Htr in Hr32. rewrite Htc in Hc32.
    rewrite Htp in Hp32.
    split; [done|]. split; [done|]. split; [exists raw; rewrite Hdate; eauto|].
    split; [|done]. exists r, c, p. repeat split; try done; lia. }
  split; [split|split].
  - exact Honly.
  - intros (-> & (t & Ht & Htrim) & (raw & Hraw & Hrawlen & [startsAt Hdate])
            & (r & c & p & Hr & Hc & Hp & Hr32 & Hc32 & Hp32) & Hfresh).
    by rewrite (createShowAction_floor_accepted _ _ _ _ _ _ _ _ _ _ _
                  Ht Htrim Hraw Hrawlen Hdate Hr Hc Hp Hr32 Hc32 Hp32 Hfresh).
  - intros t raw startsAt r c p Hrun Ht Hraw Hdate Hr Hc Hp.
    destruct (Honly Hrun)
      as (-> & (t' & Ht' & Htrim) & (raw' & Hraw' & Hrawlen & _)
          & (r' & c' & p' & Hr' & Hc' & Hp' & Hr32 & Hc32 & Hp32) & Hfresh).
    simplify_eq.
    by rewrite (createShowAction_floor_accepted _ _ _ _ _ _ _ _ _ _ _
                  Ht Htrim Hraw Hrawlen Hdate Hr Hc Hp Hr32 Hc32 Hp32 Hfresh).
  - intros msg. unfold Admin.createShowAction.
    destruct (Admin.createShow_checks _ _ _ _ _) as [[[[[t at_] nr] nc] np]|msg'];
      [|done].
    destruct (Admin.show_create _ _ _ _ _ _) as [[new_id db1]|msg']; [|done].
    intros [=].
Qed.

Lemma createShowAction_accepts_iff_witness :
  (Admin.createShowAction sample_to_number sample_trim sample_parse_date true
     form_fractions empty_db).1 = Returned tt ∧
  (Admin.createShowAction sample_to_number sample_trim sample_parse_date true
     form_fractions empty_db).2 =
    Prisma.seedSeats 1 1 2
      {| shows := {[ 1 := {| title := "Gala"; starts_at := 1893528000000;
                             rows := 1; cols := 2; price := 1 |} ]};
         shows_seq := 2; seats := ∅; orders := ∅; orders_seq := 1;
         user_sessions := ∅ |} ∧
  dom (seats (Admin.createShowAction sample_to_number sample_trim sample_parse_date
                true form_fractions empty_db).2)
    = {[ (1, "A1"); (1, "A2") ]}.
Proof.
  pose proof (createShowAction_accepts_iff sample_to_number sample_trim
                sample_parse_date true form_fractions empty_db) as (Hiff & Hdb & _).
  cbv zeta in Hiff, Hdb.
  assert (Hrun :
    (Admin.createShowAction sample_to_number sample_trim sample_parse_date true
       form_fractions empty_db).1 = Returned tt).
  { apply (proj2 Hiff).
    split; [reflexivity|]. split; [exists "Gala"; split; [reflexivity|discriminate]|].
    split.
    { exists "2030-01-01T20:00". split; [reflexivity|]. split; [discriminate|].
      exists 1893528000000. reflexivity. }
    split; [|reflexivity].
    exists 1, 2, 1. repeat split; try reflexivity; lia. }
  split; [exact Hrun|]. split.
  - exact (Hdb "Gala" "2030-01-01T20:00" 1893528000000 1 2 1 Hrun
             eq_refl eq_refl eq_refl eq_refl eq_refl eq_refl).
  - vm_compute. reflexivity.
Defined.

(** ** Start-up *)

(** X19. [ensureSchema] writes only into a show table that is empty, and
    only once: when the memo is set or a show exists it changes nothing; on
    a database without shows (and without seat rows under the next show id)
    it creates the one test show, two hours ahead, with 6 rows, 10 columns
    and price 250000, seeds its 60 seats, all available, and sets the memo,
    after which a second call changes nothing. *)
Theorem ensureSchema_once (now now' : Z) (schemaInitialized : bool) (db : DB) :
  (schemaInitialized = true ∨ shows db ≠ ∅ →
     ensureSchema now schemaInitialized db = (Returned tt, (true, db))) ∧
  (shows db = ∅ →
   (∀ code, seats db !! (shows_seq db, code) = None) →
   let run := ensureSchema now false db in
   run.1 = Returned tt ∧
   run.2.1 = true ∧
   shows run.2.2 =
     {[ shows_seq db := {| title := "نمایش تست"; starts_at := now + 7200000;
                           rows := 6; cols := 10; price := 250000 |} ]} ∧
   Z.of_nat (size (seats run.2.2)) = Z.of_nat (size (seats db)) + 60 ∧
   (∀ code s, seats run.2.2 !! (shows_seq db, code) = Some s →
      s = {| status := available; held_by := None; hold_until := None;
             buyer_id := None |}) ∧
   ensureSchema now' run.2.1 run.2.2 = (Returned tt, run.2)).
Proof.
  split.
  - intros [->|Hshows]; [done|]. unfold ensureSchema.
    destruct schemaInitialized; [done|].
    rewrite bool_decide_eq_false_2; [done|]. by rewrite map_size_empty_iff.
  - intros Hempty Hnoseats. cbv zeta. unfold ensureSchema.
    rewrite bool_decide_eq_true_2 by (by rewrite map_size_empty_iff).
    unfold Admin.show_create, mbind, Admin.Outcome_bind.
    rewrite !int_column_in_range by lia. rewrite Hempty, lookup_empty.
    cbn [fst snd]. rewrite seedSeats_seats. cbn [seats].
    split; [done|]. split; [done|]. split; [|split; [|split]].
    + unfold Prisma.seedSeats. case_bool_decide; cbn; by rewrite insert_empty.
    + rewrite seeded_size.
      * rewrite length_fmap, Nat2Z.inj_add, grid_codes_length by lia. lia.
      * apply NoDup_fmap_2; [|apply grid_codes_NoDup]. intros x y [=]. done.
      * intros [sid code]. rewrite list_elem_of_fmap.
        intros (code' & [= -> ->] & _). apply Hnoseats.
    + intros code s. rewrite seeded_lookup, Hnoseats.
      case_decide; [|done]. by intros [= <-].
    + done.
Qed.

Lemma ensureSchema_once_witness :
  (ensureSchema 1000 false empty_db).1 = Returned tt ∧
  Z.of_nat (size (seats (ensureSchema 1000 false empty_db).2.2)) = 0 + 60 ∧
  ensureSchema 2000 true db_two_by_two = (Returned tt, (true, db_two_by_two)).
Proof.
  pose proof (proj2 (ensureSchema_once 1000 2000 false empty_db) eq_refl
                ltac:(intros; reflexivity)) as (Hret & _ & _ & Hsize & _).
  split; [exact Hret|]. split; [exact Hsize|].
  exact (proj1 (ensureSchema_once 2000 2000 true db_two_by_two) (or_introl eq_refl)).
Defined.

(** ** A toggle and the selection of the user *)




(** ** What no operation takes away *)

Lemma toggle_row_buyer now_hold userId holdMinutes now s :
  buyer_id (toggle_row now_hold userId holdMinutes (reconciled now s)).2 = buyer_id s.
Proof.
  assert (Hrec : buyer_id (reconciled now s) = buyer_id s).
  { unfold reconciled. by case_decide. }
  rewrite <- Hrec. unfold toggle_row.
  repeat match goal with
         | |- context [if ?b then _ else _] => destruct b
         end; done.
Qed.

Lemma update_where_row_kept {K} `{Countable K} {V} (P : V → V → Prop)
    (cond : K → V → bool) (set : V → V) (t : gmap K V) (k : K) (v : V) :
  (∀ x, P x x) → (∀ x, P x (set x)) →
  t !! k = Some v → ∃ v', update_where cond set t !! k = Some v' ∧ P v v'.
Proof.
  intros Hrefl Hset Hk. rewrite update_where_lookup, Hk. simpl.
  destruct (cond k v); eauto.
Qed.

(** X21. No core operation deletes a seat row or forgets a buyer: after one
    call of any of them every seat that had a row still has one, and a seat
    that had a buyer still has one. *)
Theorem seat_rows_persist (db db' : DB) (k : Z * string) (s : SeatRecord) :
  step db db' →
  seats db !! k = Some s →
  ∃ s', seats db' !! k = Some s' ∧
        (is_Some (buyer_id s) → is_Some (buyer_id s')).
Proof.
  intros Hstep Hk.
  pose (P := λ x y : SeatRecord, is_Some (buyer_id x) → is_Some (buyer_id y)).
  destruct Hstep.
  - exists s. split; [|done]. by rewrite seedSeats_seats, seeded_lookup, Hk.
  - destruct (seats db !! (showId, seatCode)) as [s0|] eqn:Hs0.
    + rewrite (toggleSeat_seats_found _ _ _ _ _ _ _ s0) by done.
      case_decide as Heq; [|eauto]. subst k. simplify_eq.
      eexists. split; [done|]. by rewrite toggle_row_buyer.
    + rewrite (toggleSeat_absent _ _ _ _ _ _ _ Hs0). eauto.
  - unfold Prisma.releaseExpiredHolds. cbn [seats with_seats].
    apply (update_where_row_kept P); [by intros x Hx..|done].
  - unfold Prisma.freezeHeldSeats. cbn [seats with_seats].
    apply (update_where_row_kept P); [by intros x Hx..|done].
  - eauto.
  - destruct (orders db !! orderId) as [o|] eqn:Ho;
      [destruct (decide (order_status o = "pending")) as [Hst|Hst]|].
    + rewrite (approveOrder_pending _ _ _ _ _ Ho Hst). cbn [snd seats settled_db].
      apply (update_where_row_kept P); [by intros x Hx| |done]. intros x _. by eexists.
    + rewrite (approveOrder_settled _ _ _ _ _ Ho Hst). eauto.
    + rewrite (approveOrder_absent _ _ _ _ Ho). eauto.
  - destruct (orders db !! orderId) as [o|] eqn:Ho;
      [destruct (decide (order_status o = "pending")) as [Hst|Hst]|].
    + rewrite (rejectOrder_pending _ _ _ _ Ho Hst). cbn [snd seats settled_db].
      apply (update_where_row_kept P); [by intros x Hx..|done].
    + rewrite (rejectOrder_settled _ _ _ _ Ho Hst). eauto.
    + rewrite (rejectOrder_absent _ _ _ Ho). eauto.
Qed.

Lemma seat_rows_persist_witness :
  ∃ s', seats (Prisma.rejectOrder 2 "operator" db_two_receipts).2 !! (1, "A1")
          = Some s' ∧
        (is_Some (Some "u1"%string) → is_Some (buyer_id s')).
Proof.
  exact (seat_rows_persist db_two_receipts
           (Prisma.rejectOrder 2 "operator" db_two_receipts).2 (1, "A1")
           {| status := sold; held_by := None; hold_until := None;
              buyer_id := Some "u1" |}
           (step_rejectOrder 2 "operator" db_two_receipts) eq_refl).
Defined.
